(** * LeetCodeBot: the thread registry, the thread reconciler and the cog helpers

    A shallow embedding of
      - [src/db/problem.py]            (the [Problem] and [TopicTags] models),
      - [src/utils/embed_utils.py] and [src/utils/embed_presenters.py],
      - [src/core/problem_threads.py]  (class [ProblemThreadsManager]),
      - [src/cogs/leetcode.py]         ([on_ready], [parse_problem_desc]).

    Python coroutines run on one cooperative scheduler, so every [async def]
    is a sequential computation.  The manager's methods are written in a
    state-and-exception monad over a [World] (the manager object with its
    database and its two dictionaries, and the guild on the chat platform);
    every access to a table or to a dictionary is logged as an [Event]. *)

From stdpp Require Import gmap strings list pretty.
From Stdlib Require Import ZArith Lia.

Local Open Scope string_scope.
Local Open Scope list_scope.
Local Open Scope Z_scope.

(** ** Python values, exceptions *)

(** The newline of the f-strings ([\n]). *)
Definition LF : string := String (Ascii.ascii_of_nat 10) EmptyString.

Inductive Exn : Type :=
| ForumChannelNotFound (msg : string)
| ValueError (msg : string)
| AttributeError (attr : string)
| AssertionError
| IntegrityError
| RuntimeError.

(** ** [db/problem.py] *)

Record TopicTags : Type := {
  TopicTags_id : Z;
  tag_name : string
}.

(** [TopicTags.__repr__]. *)
Definition TopicTags_repr (t : TopicTags) : string :=
  "TopicTags(id=" +:+ pretty (TopicTags_id t) +:+ ", tag_name=" +:+ tag_name t +:+ ")".

(** The values a data attribute of a [Problem] may hold. *)
Inductive PyVal : Type :=
| VNone
| VBool (b : bool)
| VInt (z : Z)
| VStr (s : string)
| VTags (l : list TopicTags).

(** [str(v)], which is also what [f"{v}"] prints. *)
Definition py_str (v : PyVal) : string :=
  match v with
  | VNone => "None"
  | VBool true => "True"
  | VBool false => "False"
  | VInt z => pretty z
  | VStr s => s
  | VTags l => "[" +:+ String.concat ", " (map TopicTags_repr l) +:+ "]"
  end.

(** Truth value of [v] in [if v:]. *)
Definition py_truthy (v : PyVal) : bool :=
  match v with
  | VNone => false
  | VBool b => b
  | VInt z => negb (z =? 0)
  | VStr s => negb (String.eqb s "")
  | VTags l => match l with [] => false | _ :: _ => true end
  end.

(** An instance of the mapped class [Problem].  The mapped columns are the
    ones the class body declares: [id], [title], [problem_id], [url],
    [difficulty], [description] (nullable) and the relationship [tags].
    [Problem_dict] holds whatever else has been assigned on the instance
    (its [__dict__] outside the mapped attributes); the constructor of the
    class leaves it empty, since it refuses keywords that are not mapped. *)
Record Problem : Type := {
  Problem_id : Z;
  Problem_title : string;
  Problem_problem_id : Z;
  Problem_url : string;
  Problem_difficulty : Z;
  Problem_description : option string;
  Problem_tags : list TopicTags;
  Problem_dict : list (string * PyVal)
}.

(** [Problem(id=..., title=..., ...)]: the declarative constructor. *)
Definition Problem_init (id : Z) (title : string) (problem_id : Z) (url : string)
    (difficulty : Z) (description : option string) (tags : list TopicTags) : Problem :=
  {| Problem_id := id; Problem_title := title; Problem_problem_id := problem_id;
     Problem_url := url; Problem_difficulty := difficulty;
     Problem_description := description; Problem_tags := tags;
     Problem_dict := [] |}.

Definition opt_str (o : option string) : PyVal :=
  match o with Some s => VStr s | None => VNone end.

(** The mapped attributes of the class, by name. *)
Definition Problem_columns (p : Problem) : list (string * PyVal) :=
  [ ("id", VInt (Problem_id p));
    ("title", VStr (Problem_title p));
    ("problem_id", VInt (Problem_problem_id p));
    ("url", VStr (Problem_url p));
    ("difficulty", VInt (Problem_difficulty p));
    ("description", opt_str (Problem_description p));
    ("tags", VTags (Problem_tags p)) ].

Fixpoint assoc {A : Type} (name : string) (l : list (string * A)) : option A :=
  match l with
  | [] => None
  | (k, v) :: l' => if String.eqb k name then Some v else assoc name l'
  end.

(** [problem.<name>] for a data attribute: a mapped attribute first (they
    are data descriptors of the class), then the instance dictionary, and
    [AttributeError] when neither has the name. *)
Definition getattr (p : Problem) (name : string) : Exn + PyVal :=
  match assoc name (Problem_columns p ++ Problem_dict p) with
  | Some v => inr v
  | None => inl (AttributeError name)
  end.

(** The table [problems] as the model declares it: [problem_id] is
    [unique=True].  [problems_insert] is the insert of one row under that
    constraint. *)
Definition problems_unique (rows : list Problem) : Prop :=
  NoDup (map Problem_problem_id rows).

Definition problems_insert (p : Problem) (rows : list Problem) : Exn + list Problem :=
  if existsb (fun r => Problem_problem_id r =? Problem_problem_id p) rows
  then inl IntegrityError
  else inr (rows ++ [p]).

(** ** [models/leetcode.py] (not among the sources) *)

(** Modelled from the spec: the enum [ProblemDifficulity] of
    [models/leetcode.py] is missing; the spec gives "difficulty (small enum:
    Easy/Medium/Hard, stored as ordinal)" and "the human-readable difficulty
    label" ("Easy" for an Easy problem).  Which ordinal stands for which
    member is not known, so [from_db_repr] is taken as a parameter below. *)
Inductive ProblemDifficulity : Type := EASY | MEDIUM | HARD.

Definition str_repr (d : ProblemDifficulity) : string :=
  match d with EASY => "Easy" | MEDIUM => "Medium" | HARD => "Hard" end.

Inductive ThreadCreationEnum : Type := CREATE | REOPEN.

(** ** The chat platform (discord.py objects) *)

Record User : Type := {
  User_name : string;
  User_display_name : string;
  User_avatar : option string      (* [avatar.url], [None] without avatar *)
}.

Record Bot : Type := {
  Bot_user : option User;          (* [client.user] *)
  Bot_users : gmap Z User          (* what [client.get_user] finds *)
}.

Record EmbedField : Type := {
  field_name : string;
  field_value : string;
  field_inline : bool
}.

Record Embed : Type := {
  Embed_title : string;
  Embed_description : option string;
  Embed_color : Z;
  Embed_url : option string;
  Embed_fields : list EmbedField;
  Embed_thumbnail : option string;
  Embed_author : option (string * string);   (* name, icon_url *)
  Embed_footer : option (string * string)    (* text, icon_url *)
}.

Record ForumTag : Type := {
  ForumTag_id : Z;
  ForumTag_name : string
}.

Record ForumChannel : Type := {
  ForumChannel_id : Z;
  ForumChannel_available_tags : list ForumTag
}.

Record Thread : Type := {
  Thread_id : Z;
  Thread_parent_id : Z;
  Thread_name : string;
  Thread_applied_tags : list ForumTag
}.

Record Message : Type := {
  Message_content : string;
  Message_embed : Embed
}.

Record ThreadWithMessage : Type := {
  thread : Thread;
  message : Message
}.

Inductive Channel : Type :=
| IsForumChannel (c : ForumChannel)
| IsThread (t : Thread)
| OtherChannel.

(** A guild with the channels and threads that are live in it.
    [Guild_next_id] is the identifier the platform gives to the next object
    it creates. *)
Record Guild : Type := {
  Guild_id : Z;
  Guild_channels : gmap Z Channel;
  Guild_next_id : Z
}.

(** ** What the sources import and do not define *)

(** The constants of [config/constants.py] and [config/secrets.py], the
    members of [models/leetcode.py], the problem store behind
    [core/leetcode_problem.py] and the clock are not among the sources; the
    functions below take them from an [Env]. *)
Record Env : Type := {
  preview_len : Z;                 (* config.constants.preview_len *)
  debug : bool;                    (* config.secrets.debug *)
  THEME_COLOR : Z;                 (* config.constants.THEME_COLOR *)
  DEV_ID : Z;                      (* config.constants.DEV_ID *)
  default_footer : string;         (* config.constants.default_footer *)
  from_db_repr : Z -> option ProblemDifficulity;
                                   (* ProblemDifficulity.from_db_repr; [None] when it raises *)
  embed_color : ProblemDifficulity -> Z;
                                   (* ProblemDifficulity.embed_color *)
  get_problem_with_frontend_id : PyVal -> option (Problem * list TopicTags);
                                   (* LeetCodeProblemManager.get_problem_with_frontend_id:
                                      the dict with keys "problem" and "tags", or [None] *)
  timegm_now : Z                   (* calendar.timegm(datetime.now(tz=utc).timetuple()) *)
}.

(** ** [utils/embed_utils.py] and [utils/embed_presenters.py] *)

Section Embeds.
Context (env : Env).

(** [discord.Color.blue()]. *)
Definition Color_blue : Z := 3447003.

Definition get_difficulty_str_repr (difficulty_db_repr : Z) : string :=
  match from_db_repr env difficulty_db_repr with
  | Some difficulty => str_repr difficulty
  | None => "Unknown"
  end.

Definition get_embed_color (difficulty_db_repr : Z) : Z :=
  match from_db_repr env difficulty_db_repr with
  | Some difficulty => embed_color env difficulty
  | None => Color_blue
  end.

(** [add_std_footer] changes the embed in place; here it returns the changed
    embed.  The [assert] is the one of the source. *)
Definition add_std_footer (embed : Embed) (client : Bot) : Exn + Embed :=
  match Bot_user client with
  | None => inr embed
  | Some user =>
    match Bot_users client !! DEV_ID env with
    | None => inl AssertionError
    | Some dev =>
      match User_avatar dev, User_avatar user with
      | Some dev_avatar, Some user_avatar =>
        inr {| Embed_title := Embed_title embed;
               Embed_description :=
                 Some ("<t:" +:+ pretty (timegm_now env) +:+ ":F>" +:+ LF +:+
                       match Embed_description embed with
                       | Some d => d
                       | None => ""
                       end);
               Embed_color := Embed_color embed;
               Embed_url := Embed_url embed;
               Embed_fields := Embed_fields embed;
               Embed_thumbnail := Embed_thumbnail embed;
               Embed_author := Some (User_display_name user, user_avatar);
               Embed_footer :=
                 Some (default_footer env +:+ LF +:+ "Developed by " +:+
                       User_name dev +:+ "." +:+ LF, dev_avatar) |}
      | _, _ => inl AssertionError
      end
    end
  end.

Definition create_themed_embed (title : string) (description : option string)
    (client : option Bot) : Exn + Embed :=
  let embed :=
    {| Embed_title := title; Embed_description := description;
       Embed_color := THEME_COLOR env; Embed_url := None; Embed_fields := [];
       Embed_thumbnail := None; Embed_author := None; Embed_footer := None |} in
  match client with
  | Some client => add_std_footer embed client
  | None => inr embed
  end.

Definition get_problem_desc_embed (problem : Problem) (problem_tags : list TopicTags)
    (bot : Bot) : Exn + Embed :=
  match getattr problem "problem_frontend_id" with
  | inl e => inl e
  | inr problem_frontend_id =>
    match create_themed_embed
            (py_str problem_frontend_id +:+ ". " +:+ Problem_title problem)
            (Problem_description problem) (Some bot) with
    | inl e => inl e
    | inr embed =>
      let difficulty_str := get_difficulty_str_repr (Problem_difficulty problem) in
      inr {| Embed_title := Embed_title embed;
             Embed_description := Embed_description embed;
             Embed_color := get_embed_color (Problem_difficulty problem);
             Embed_url := Some (Problem_url problem);
             Embed_fields :=
               Embed_fields embed ++
               [ {| field_name := "Difficulty"; field_value := difficulty_str;
                    field_inline := true |};
                 {| field_name := "Tags";
                    field_value := String.concat ", " (map tag_name problem_tags);
                    field_inline := true |} ];
             Embed_thumbnail := Embed_thumbnail embed;
             Embed_author := Embed_author embed;
             Embed_footer := Embed_footer embed |}
    end
  end.

End Embeds.

(** ** The thread registry: tables, dictionaries, and the world *)

(** Modelled from the spec: the mapped classes [GuildForumChannel]
    ([db/thread_channel.py]) and [ProblemThreads] ([db/problem_threads.py])
    are missing.  The spec gives "one row per guild for forum-channel
    configuration (unique guild id)" and "one row per created thread (unique
    thread id, foreign keys to problem and channel-config)"; the fields are
    the ones the manager reads and writes. *)
Record GuildForumChannel : Type := {
  GuildForumChannel_id : Z;
  GuildForumChannel_guild_id : Z;
  GuildForumChannel_channel_id : Z
}.

Record ProblemThreads : Type := {
  ProblemThreads_thread_id : Z;
  ProblemThreads_problem_db_id : Z;
  ProblemThreads_forum_channel_db_id : Z
}.

#[global] Instance GuildForumChannel_eq_dec : EqDecision GuildForumChannel.
Proof. solve_decision. Defined.

#[global] Instance ProblemThreads_eq_dec : EqDecision ProblemThreads.
Proof. solve_decision. Defined.

(** The persistent store behind [database_manager]. *)
Record Database : Type := {
  guild_forum_channel_rows : list GuildForumChannel;
  problem_threads_rows : list ProblemThreads
}.

(** [self]: the database and the two dictionaries of [__init__]. *)
Record ProblemThreadsManager : Type := {
  database_manager : Database;
  problem_threads : gmap Z ProblemThreads;       (* thread id -> record *)
  forum_channels : gmap Z GuildForumChannel      (* guild id -> record *)
}.

Record World : Type := {
  self : ProblemThreadsManager;
  guild : Guild
}.

Inductive Store : Type :=
| ForumChannelTable
| ProblemThreadsTable
| ForumChannelDict
| ProblemThreadsDict.

Inductive Event : Type :=
| EvRead (s : Store)
| EvWrite (s : Store)
| EvCreateTag (channel_id : Z) (name : string)
| EvCreateThread (channel_id : Z) (thread_id : Z).

Definition is_persistent (s : Store) : bool :=
  match s with
  | ForumChannelTable | ProblemThreadsTable => true
  | ForumChannelDict | ProblemThreadsDict => false
  end.

Definition is_write (e : Event) : bool :=
  match e with EvWrite _ => true | _ => false end.

Definition is_store_write (e : Event) : bool :=
  match e with EvWrite s => is_persistent s | _ => false end.

Definition is_dict_write (e : Event) : bool :=
  match e with EvWrite s => negb (is_persistent s) | _ => false end.

Definition is_store_read (e : Event) : bool :=
  match e with EvRead s => is_persistent s | _ => false end.

Definition is_dict_read (e : Event) : bool :=
  match e with EvRead s => negb (is_persistent s) | _ => false end.

(** No write to a table or to a dictionary happened. *)
Definition no_writes (t : list Event) : bool := forallb (fun e => negb (is_write e)) t.

(** Every write to a table comes before every write to a dictionary. *)
Fixpoint store_then_dict (t : list Event) : bool :=
  match t with
  | [] => true
  | e :: t' =>
    if is_dict_write e then forallb (fun e' => negb (is_store_write e')) t'
    else store_then_dict t'
  end.

(** The first table or dictionary that is read is a dictionary. *)
Fixpoint dict_first (t : list Event) : bool :=
  match t with
  | [] => false
  | e :: t' =>
    if is_dict_read e then true
    else if is_store_read e then false
    else dict_first t'
  end.

(** ** The monad of the manager's methods *)

(** A computation runs from a world to a value or a raised exception, the
    world it leaves, and the accesses it made, oldest first. *)
Definition M (A : Type) : Type := World -> (Exn + A) * World * list Event.

Definition ret {A : Type} (a : A) : M A := fun w => (inr a, w, []).

Definition raise {A : Type} (e : Exn) : M A := fun w => (inl e, w, []).

Definition lift {A : Type} (r : Exn + A) : M A := fun w => (r, w, []).

Definition bind {A B : Type} (m : M A) (f : A -> M B) : M B :=
  fun w =>
    match m w with
    | (inl e, w', t) => (inl e, w', t)
    | (inr a, w', t) =>
      match f a w' with
      | (r, w'', t') => (r, w'', t ++ t')
      end
    end.

Notation "x <- m ;; k" := (bind m (fun x => k))
  (at level 20, m at level 99, k at level 200, only parsing).
Notation "m ;;; k" := (bind m (fun _ => k))
  (at level 100, k at level 200, only parsing, right associativity).

(** [for x in l: f(x)]. *)
Fixpoint for_each {A : Type} (l : list A) (f : A -> M unit) : M unit :=
  match l with
  | [] => ret tt
  | x :: l' => f x ;;; for_each l' f
  end.

Definition result_of {A : Type} (r : (Exn + A) * World * list Event) : Exn + A := r.1.1.
Definition world_of {A : Type} (r : (Exn + A) * World * list Event) : World := r.1.2.
Definition trace_of {A : Type} (r : (Exn + A) * World * list Event) : list Event := r.2.

Definition set_database (db : Database) (w : World) : World :=
  {| self := {| database_manager := db;
                problem_threads := problem_threads (self w);
                forum_channels := forum_channels (self w) |};
     guild := guild w |}.

Definition set_problem_threads (d : gmap Z ProblemThreads) (w : World) : World :=
  {| self := {| database_manager := database_manager (self w);
                problem_threads := d;
                forum_channels := forum_channels (self w) |};
     guild := guild w |}.

Definition set_forum_channels (d : gmap Z GuildForumChannel) (w : World) : World :=
  {| self := {| database_manager := database_manager (self w);
                problem_threads := problem_threads (self w);
                forum_channels := d |};
     guild := guild w |}.

Definition set_guild (g : Guild) (w : World) : World :=
  {| self := self w; guild := g |}.

(** *** The session: queries and commits *)

(** Modelled from the spec: [db/database_manager.py] is missing.  A
    [with self.database_manager as db:] block is a session on the store
    that is committed when the block is left without an exception (this is
    what [create_thread_in_db] relies on: it adds a row, leaves the block,
    and asserts that a new session finds the row); [.scalars().first()] is
    the first row that matches; a new row gets the next free primary key;
    [thread_id] is unique in [problem_threads]. *)
Definition select_forum_channel (guild_id : Z) : M (option GuildForumChannel) :=
  fun w =>
    (inr (List.find (fun r => GuildForumChannel_guild_id r =? guild_id)
            (guild_forum_channel_rows (database_manager (self w)))),
     w, [EvRead ForumChannelTable]).

Definition select_thread_by_thread_id (thread_id : Z) : M (option ProblemThreads) :=
  fun w =>
    (inr (List.find (fun r => ProblemThreads_thread_id r =? thread_id)
            (problem_threads_rows (database_manager (self w)))),
     w, [EvRead ProblemThreadsTable]).

Definition select_thread (problem_db_id forum_channel_db_id : Z) : M (option ProblemThreads) :=
  fun w =>
    (inr (List.find (fun r => (ProblemThreads_problem_db_id r =? problem_db_id)
                              && (ProblemThreads_forum_channel_db_id r =? forum_channel_db_id))
            (problem_threads_rows (database_manager (self w)))),
     w, [EvRead ProblemThreadsTable]).

Definition next_primary_key (rows : list GuildForumChannel) : Z :=
  1 + fold_right Z.max 0 (map GuildForumChannel_id rows).

(** [db.add(forum_channel); db.commit()] for a row that was loaded and
    changed: the row with its primary key is overwritten. *)
Definition update_forum_channel (row : GuildForumChannel) : M unit :=
  fun w =>
    let db := database_manager (self w) in
    (inr tt,
     set_database
       {| guild_forum_channel_rows :=
            map (fun r => if GuildForumChannel_id r =? GuildForumChannel_id row
                          then row else r)
                (guild_forum_channel_rows db);
          problem_threads_rows := problem_threads_rows db |} w,
     [EvWrite ForumChannelTable]).

(** [db.add(GuildForumChannel(guild_id=..., channel_id=...)); db.commit()]:
    the row is inserted and comes back with its primary key. *)
Definition insert_forum_channel (guild_id channel_id : Z) : M GuildForumChannel :=
  fun w =>
    let db := database_manager (self w) in
    let row := {| GuildForumChannel_id := next_primary_key (guild_forum_channel_rows db);
                  GuildForumChannel_guild_id := guild_id;
                  GuildForumChannel_channel_id := channel_id |} in
    (inr row,
     set_database
       {| guild_forum_channel_rows := guild_forum_channel_rows db ++ [row];
          problem_threads_rows := problem_threads_rows db |} w,
     [EvWrite ForumChannelTable]).

(** [db.add(problem_threads_instance)] and the commit at the end of the
    block; a second row with the same [thread_id] is refused. *)
Definition insert_problem_thread (row : ProblemThreads) : M unit :=
  fun w =>
    let db := database_manager (self w) in
    if existsb (fun r => ProblemThreads_thread_id r =? ProblemThreads_thread_id row)
         (problem_threads_rows db)
    then (inl IntegrityError, w, [])
    else
      (inr tt,
       set_database
         {| guild_forum_channel_rows := guild_forum_channel_rows db;
            problem_threads_rows := problem_threads_rows db ++ [row] |} w,
       [EvWrite ProblemThreadsTable]).

(** [db.delete(problem_thread); db.commit()]: the row goes; it is the one
    with its [thread_id], which is unique. *)
Definition delete_problem_thread (row : ProblemThreads) : M unit :=
  fun w =>
    let db := database_manager (self w) in
    (inr tt,
     set_database
       {| guild_forum_channel_rows := guild_forum_channel_rows db;
          problem_threads_rows :=
            List.filter (fun r => negb (ProblemThreads_thread_id r =?
                                        ProblemThreads_thread_id row))
              (problem_threads_rows db) |} w,
     [EvWrite ProblemThreadsTable]).

(** *** The two dictionaries *)

Definition forum_channels_get (guild_id : Z) : M (option GuildForumChannel) :=
  fun w => (inr (forum_channels (self w) !! guild_id), w, [EvRead ForumChannelDict]).

Definition forum_channels_set (guild_id : Z) (v : GuildForumChannel) : M unit :=
  fun w => (inr tt, set_forum_channels (<[guild_id := v]> (forum_channels (self w))) w,
            [EvWrite ForumChannelDict]).

Definition problem_threads_get (thread_id : Z) : M (option ProblemThreads) :=
  fun w => (inr (problem_threads (self w) !! thread_id), w, [EvRead ProblemThreadsDict]).

Definition problem_threads_set (thread_id : Z) (v : ProblemThreads) : M unit :=
  fun w => (inr tt, set_problem_threads (<[thread_id := v]> (problem_threads (self w))) w,
            [EvWrite ProblemThreadsDict]).

(** [thread_id in self.problem_threads]. *)
Definition problem_threads_contains (thread_id : Z) : M bool :=
  fun w => (inr (bool_decide (is_Some (problem_threads (self w) !! thread_id))), w,
            [EvRead ProblemThreadsDict]).

(** [del self.problem_threads[thread_id]]. *)
Definition problem_threads_del (thread_id : Z) : M unit :=
  fun w => (inr tt, set_problem_threads (delete thread_id (problem_threads (self w))) w,
            [EvWrite ProblemThreadsDict]).

(** *** The chat platform *)

(** Modelled from the spec: [utils/discord_utils.py] is missing.  The spec
    gives "resolve the configured channel id to a live ... channel on the
    chat platform; if resolution fails ..." and "attempt to resolve its
    thread id to a live thread on the platform": [try_get_channel] is the
    channel or thread of the guild with that id, or [None]. *)
Definition try_get_channel (channel_id : Z) : M (option Channel) :=
  fun w => (inr (Guild_channels (guild w) !! channel_id), w, []).

(** [guild.id], also reached as [channel.guild.id]. *)
Definition guild_id_of : M Z := fun w => (inr (Guild_id (guild w)), w, []).

Definition add_tag (tag : ForumTag) (c : Channel) : Channel :=
  match c with
  | IsForumChannel f =>
    IsForumChannel {| ForumChannel_id := ForumChannel_id f;
                      ForumChannel_available_tags := ForumChannel_available_tags f ++ [tag] |}
  | _ => c
  end.

(** [channel.create_tag(name=...)]: the platform adds a tag to the forum.
    In discord.py [channel.available_tags] is a view of the tags the channel
    object holds when the property is read, and [create_tag] sends the
    longer tag list to the platform without touching that view (the channel
    object gets a new tag dictionary when the update event arrives): a
    sequence read before the call does not grow, so the caller's
    [ForumChannel] value is left as it is and only the guild changes. *)
Definition create_tag (channel : ForumChannel) (name : string) : M unit :=
  fun w =>
    let g := guild w in
    let tag := {| ForumTag_id := Guild_next_id g; ForumTag_name := name |} in
    (inr tt,
     set_guild {| Guild_id := Guild_id g;
                  Guild_channels := alter (add_tag tag) (ForumChannel_id channel) (Guild_channels g);
                  Guild_next_id := Guild_next_id g + 1 |} w,
     [EvCreateTag (ForumChannel_id channel) name]).

(** [channel.create_thread(name=..., content=..., embed=..., applied_tags=...)]:
    the platform creates a thread in the forum with a starter message. *)
Definition create_thread (channel : ForumChannel) (name content : string) (embed : Embed)
    (applied_tags : list ForumTag) : M ThreadWithMessage :=
  fun w =>
    let g := guild w in
    let t := {| Thread_id := Guild_next_id g;
                Thread_parent_id := ForumChannel_id channel;
                Thread_name := name;
                Thread_applied_tags := applied_tags |} in
    (inr {| thread := t;
            message := {| Message_content := content; Message_embed := embed |} |},
     set_guild {| Guild_id := Guild_id g;
                  Guild_channels := <[Thread_id t := IsThread t]> (Guild_channels g);
                  Guild_next_id := Guild_next_id g + 1 |} w,
     [EvCreateThread (ForumChannel_id channel) (Thread_id t)]).

(** ** [core/problem_threads.py]: class [ProblemThreadsManager] *)

Section Manager.
Context (env : Env).

Definition not_configured_msg : string :=
  "The bot doesn't know which Fourm Channel should the problem be created! Please use /set_thread_channel first to set the Fourm Channel!".

Definition channel_invalid_msg : string :=
  "Something went wrong! The forum channel is not found or not a valid forum channel. Contact the developer for help.".

Definition premium_disclaimer : string :=
  "This problem is premium only, so there is no description available.".

(** The set literal of [_create_thread]. *)
Definition canonical_tags : gset string :=
  {[ "LeetCode"; "Easy"; "Medium"; "Hard" ]}.

Definition add_forum_channel_to_db (guild_id channel_id : Z) : M unit :=
  forum_channel <- select_forum_channel guild_id ;;
  match forum_channel with
  | Some forum_channel =>
    let forum_channel :=
      {| GuildForumChannel_id := GuildForumChannel_id forum_channel;
         GuildForumChannel_guild_id := GuildForumChannel_guild_id forum_channel;
         GuildForumChannel_channel_id := channel_id |} in
    update_forum_channel forum_channel ;;;
    forum_channels_set guild_id forum_channel
  | None =>
    forum_channel <- insert_forum_channel guild_id channel_id ;;
    forum_channels_set guild_id forum_channel
  end.

Definition get_forum_channel (guild_id : Z) : M (option GuildForumChannel) :=
  res <- forum_channels_get guild_id ;;
  match res with
  | Some res => ret (Some res)
  | None =>
    forum_channel <- select_forum_channel guild_id ;;
    match forum_channel with
    | Some forum_channel => ret (Some forum_channel)
    | None => ret None
    end
  end.

Definition get_thread_by_thread_id (thread_id : Z) : M (option ProblemThreads) :=
  res <- problem_threads_get thread_id ;;
  match res with
  | Some res => ret (Some res)
  | None =>
    problem_thread <- select_thread_by_thread_id thread_id ;;
    match problem_thread with
    | Some problem_thread => ret (Some problem_thread)
    | None => ret None
    end
  end.

Definition get_thread_by_problem_id (problem_frontend_id : PyVal) (guild_id : Z)
    : M (option ProblemThreads) :=
  match get_problem_with_frontend_id env problem_frontend_id with
  | None => ret None
  | Some (problem, _) =>
    forum_channel <- select_forum_channel guild_id ;;
    match forum_channel with
    | None => ret None
    | Some forum_channel =>
      problem_thread <- select_thread (Problem_id problem)
                          (GuildForumChannel_id forum_channel) ;;
      match problem_thread with
      | Some problem_thread => ret (Some problem_thread)
      | None => ret None
      end
    end
  end.

Definition create_thread_instance (problem_frontend_id : PyVal) (guild_id thread_id : Z)
    : M (option ProblemThreads) :=
  forum_channel <- get_forum_channel guild_id ;;
  match forum_channel with
  | None =>
    raise (ForumChannelNotFound
             ("Forum channel for guild " +:+ pretty guild_id +:+ " not found."))
  | Some forum_channel =>
    match get_problem_with_frontend_id env problem_frontend_id with
    | None => ret None
    | Some (problem, _) =>
      ret (Some {| ProblemThreads_thread_id := thread_id;
                   ProblemThreads_problem_db_id := Problem_id problem;
                   ProblemThreads_forum_channel_db_id :=
                     GuildForumChannel_id forum_channel |})
    end
  end.

Definition create_thread_in_db (problem_frontend_id : PyVal) (guild_id thread_id : Z)
    : M unit :=
  problem_threads_instance <- create_thread_instance problem_frontend_id guild_id thread_id ;;
  match problem_threads_instance with
  | None =>
    raise (ValueError
             ("Could not create ProblemThreads instance for problem ID " +:+
              py_str problem_frontend_id +:+ " in guild " +:+ pretty guild_id +:+
              " with thread ID " +:+ pretty thread_id +:+ "."))
  | Some problem_threads_instance =>
    insert_problem_thread problem_threads_instance ;;;
    problem_thread <- get_thread_by_thread_id thread_id ;;
    match problem_thread with
    | None => raise AssertionError
    | Some problem_thread => problem_threads_set thread_id problem_thread
    end
  end.

Definition delete_thread_from_db (thread_id : Z) : M unit :=
  problem_thread <- select_thread_by_thread_id thread_id ;;
  match problem_thread with
  | Some problem_thread =>
    delete_problem_thread problem_thread ;;;
    present <- problem_threads_contains thread_id ;;
    if present : bool then problem_threads_del thread_id else ret tt
  | None => ret tt
  end.

Definition _create_thread (channel : ForumChannel) (problem : Problem)
    (problem_tags : list TopicTags) (bot : Bot) : M ThreadWithMessage :=
  (* the f-string of [logger.info] reads [problem.problem_frontend_id] *)
  problem_frontend_id <- lift (getattr problem "problem_frontend_id") ;;
  let thread_name := py_str problem_frontend_id +:+ ". " +:+ Problem_title problem in
  let thread_content := Problem_url problem +:+ LF in
  premium <- lift (getattr problem "premium") ;;
  let thread_content :=
    if py_truthy premium then thread_content +:+ premium_disclaimer
    else thread_content in
  thread_embed <- lift (get_problem_desc_embed env problem problem_tags bot) ;;
  let available_tags := ForumChannel_available_tags channel in
  let available_tag_names : gset string :=
    list_to_set (map ForumTag_name (ForumChannel_available_tags channel)) in
  let tags_to_create := canonical_tags ∖ available_tag_names in
  for_each (elements tags_to_create) (fun tag_name => create_tag channel tag_name) ;;;
  let tags_to_assign : gset string :=
    {[ "LeetCode"; get_difficulty_str_repr env (Problem_difficulty problem) ]} in
  thread' <- create_thread channel thread_name thread_content thread_embed
               (filter (fun tag => ForumTag_name tag ∈ tags_to_assign) available_tags) ;;
  guild_id <- guild_id_of ;;
  create_thread_in_db problem_frontend_id guild_id (Thread_id (thread thread')) ;;;
  ret thread'.

Definition reopen_or_create_problem_thread (problem : Problem * list TopicTags)
    (bot : Bot) (is_daily : bool)
    : M ((ThreadWithMessage + Thread) * ThreadCreationEnum) :=
  let problem_obj := problem.1 in
  guild_id <- guild_id_of ;;
  channel <- get_forum_channel guild_id ;;
  match channel with
  | None => raise (ForumChannelNotFound not_configured_msg)
  | Some channel =>
    forum_channel <- try_get_channel (GuildForumChannel_channel_id channel) ;;
    match forum_channel with
    | Some (IsForumChannel forum_channel) =>
      let problem_stat :=
        if is_daily then "today's problem"
        else "problem " +:+ pretty (Problem_id problem_obj) in
      problem_frontend_id <- lift (getattr problem_obj "problem_frontend_id") ;;
      forum_thread <- get_thread_by_problem_id problem_frontend_id guild_id ;;
      match forum_thread with
      | None =>
        thread <- _create_thread forum_channel problem_obj problem.2 bot ;;
        ret (inl thread, CREATE)
      | Some forum_thread =>
        thread_channel <- try_get_channel (ProblemThreads_thread_id forum_thread) ;;
        match thread_channel with
        | None =>
          delete_thread_from_db (ProblemThreads_thread_id forum_thread) ;;;
          thread <- _create_thread forum_channel problem_obj problem.2 bot ;;
          ret (inl thread, CREATE)
        | Some (IsThread thread_channel) => ret (inr thread_channel, REOPEN)
        | Some _ => raise AssertionError
        end
      end
    | _ => raise (ForumChannelNotFound channel_invalid_msg)
    end
  end.

End Manager.

(** ** [cogs/leetcode.py]: class [LeetCode] *)

(** The [discord.ext.tasks] loop [weekly_cache_refresh], reduced to what
    [on_ready] touches: whether it is running, and how often it has been
    started.  [start] raises [RuntimeError] on a loop that is running. *)
Record Loop : Type := {
  Loop_running : bool;
  Loop_starts : nat
}.

Definition is_running (l : Loop) : bool := Loop_running l.

Definition start (l : Loop) : Exn + Loop :=
  if Loop_running l then inl RuntimeError
  else inr {| Loop_running := true; Loop_starts := S (Loop_starts l) |}.

(** A [str] of Python is a sequence of code points, and [len] and slices
    count code points.  A [string] here holds the bytes of the UTF-8
    encoding of the text, which is also what a literal of this file holds:
    a code point starts at every byte that is not a continuation byte
    ([10xxxxxx]), and the continuation bytes that follow belong to it. *)
Definition is_continuation (c : Ascii.ascii) : bool :=
  let n := Ascii.N_of_ascii c in ((128 <=? n) && (n <? 192))%N.

(** [len(s)]: the number of code points of [s]. *)
Fixpoint py_len (s : string) : nat :=
  match s with
  | EmptyString => O
  | String c s' => if is_continuation c then py_len s' else S (py_len s')
  end.

(** The first [n] code points of [s], all of [s] when it has fewer. *)
Fixpoint py_take (n : nat) (s : string) : string :=
  match s with
  | EmptyString => EmptyString
  | String c s' =>
    if is_continuation c then String c (py_take n s')
    else match n with
         | O => EmptyString
         | S n' => String c (py_take n' s')
         end
  end.

(** [s] is empty or begins at the first byte of a code point. *)
Definition starts_code_point (s : string) : bool :=
  match s with
  | EmptyString => true
  | String c _ => negb (is_continuation c)
  end.

(** [s[:n]]: the first [n] characters, all of [s] when it is shorter, and
    all but the last [-n] for a negative [n]. *)
Definition py_slice_to (s : string) (n : Z) : string :=
  if 0 <=? n then py_take (Z.to_nat n) s
  else py_take (Z.to_nat (Z.of_nat (py_len s) + n)) s.

(** The UTF-8 encoding of a code point, and of a text given as the sequence
    of its code points; [py_len] and [py_take] are checked against it. *)
Definition code_point (cp : N) : Prop := (cp < 1114112)%N.

Definition utf8_code_point (cp : N) : string :=
  (if cp <? 128 then String (Ascii.ascii_of_N cp) ""
   else if cp <? 2048 then
     String (Ascii.ascii_of_N (192 + cp / 64))
       (String (Ascii.ascii_of_N (128 + cp mod 64)) "")
   else if cp <? 65536 then
     String (Ascii.ascii_of_N (224 + cp / 4096))
       (String (Ascii.ascii_of_N (128 + (cp / 64) mod 64))
          (String (Ascii.ascii_of_N (128 + cp mod 64)) ""))
   else
     String (Ascii.ascii_of_N (240 + cp / 262144))
       (String (Ascii.ascii_of_N (128 + (cp / 4096) mod 64))
          (String (Ascii.ascii_of_N (128 + (cp / 64) mod 64))
             (String (Ascii.ascii_of_N (128 + cp mod 64)) ""))))%N.

Fixpoint utf8 (l : list N) : string :=
  match l with
  | [] => ""
  | cp :: l' => utf8_code_point cp +:+ utf8 l'
  end.

Section Cog.
Context (env : Env).

Definition on_ready (weekly_cache_refresh : Loop) : Exn + Loop :=
  if negb (debug env) && negb (is_running weekly_cache_refresh)
  then start weekly_cache_refresh
  else inr weekly_cache_refresh.

Definition parse_problem_desc (content : string) : string :=
  if String.eqb content "" then "No description available."
  else py_slice_to content (preview_len env) +:+
       (if preview_len env <? Z.of_nat (py_len content) then "..." else "").

End Cog.

(** ** [core/problem_threads.py]: loading the dictionaries *)

(** [db.execute(select(...)).scalars().all()]. *)
Definition select_all_threads : M (list ProblemThreads) :=
  fun w => (inr (problem_threads_rows (database_manager (self w))), w,
            [EvRead ProblemThreadsTable]).

Definition select_all_forum_channels : M (list GuildForumChannel) :=
  fun w => (inr (guild_forum_channel_rows (database_manager (self w))), w,
            [EvRead ForumChannelTable]).

(** [init_cache] puts every row under its key; it does not empty the
    dictionaries first. *)
Definition init_cache : M unit :=
  result <- select_all_threads ;;
  for_each result
    (fun problem_thread =>
       problem_threads_set (ProblemThreads_thread_id problem_thread) problem_thread) ;;;
  result <- select_all_forum_channels ;;
  for_each result
    (fun forum_channel =>
       forum_channels_set (GuildForumChannel_guild_id forum_channel) forum_channel).

(** ** [cogs/leetcode.py]: two command handlers *)

(** What a handler sends through the interaction: the deferral, then
    follow-up messages with a text or with an embed. *)
Inductive Response : Type :=
| Defer
| Send (content : string)
| SendEmbed (embed : Embed).

(** [channel.mention] of discord.py. *)
Definition mention (channel : ForumChannel) : string :=
  "<#" +:+ pretty (ForumChannel_id channel) +:+ ">".

(** [on_ready] for one ready event after the other. *)
Fixpoint ready_events (env : Env) (n : nat) (weekly_cache_refresh : Loop) : Exn + Loop :=
  match n with
  | O => inr weekly_cache_refresh
  | S n' =>
    match on_ready env weekly_cache_refresh with
    | inl e => inl e
    | inr after => ready_events env n' after
    end
  end.

Section Handlers.
Context (env : Env).
(** [str(e)] as [f"{e}"] prints an exception. *)
Context (exn_str : Exn -> string).

(** [set_forum_channel]: [guild_id] is [interaction.guild_id]. *)
Definition set_forum_channel (guild_id : option Z) (channel : ForumChannel) (w : World)
    : list Response * World :=
  match guild_id with
  | None =>
    (* [assert guild_id is not None] fails inside the [try] *)
    ([Defer;
      Send ("An error occurred while setting the thread channel: " +:+
            exn_str AssertionError)], w)
  | Some guild_id =>
    match add_forum_channel_to_db guild_id (ForumChannel_id channel) w with
    | (inr _, w', _) =>
      ([Defer; Send ("Thread channel set to " +:+ mention channel +:+ " for this server.")],
       w')
    | (inl e, w', _) =>
      ([Defer; Send ("An error occurred while setting the thread channel: " +:+ exn_str e)],
       w')
    end
  end.

(** [leetcode_desc]: the handler of [/desc]. *)
Definition leetcode_desc (bot : Bot) (id : Z) : list Response :=
  match get_problem_with_frontend_id env (VInt id) with
  | None => [Defer; Send ("Problem with ID " +:+ pretty id +:+ " not found.")]
  | Some (problem_obj, tags) =>
    match get_problem_desc_embed env problem_obj tags bot with
    | inr embed => [Defer; SendEmbed embed]
    | inl e =>
      [Defer; Send ("An error occurred while fetching the problem: " +:+ exn_str e)]
    end
  end.

End Handlers.

(** ** Concrete data *)

Definition ordinal_difficulty (d : Z) : option ProblemDifficulity :=
  if d =? 1 then Some EASY
  else if d =? 2 then Some MEDIUM
  else if d =? 3 then Some HARD
  else None.

(** Problem 1, "Two Sum", as the declared constructor builds it. *)
Definition two_sum : Problem :=
  Problem_init 1 "Two Sum" 1 "https://leetcode.com/problems/two-sum/" 1
    (Some "Given an array of integers ...") [].

(** The same row on which [problem_frontend_id] and [premium] have been
    assigned after construction. *)
Definition two_sum_patched : Problem :=
  {| Problem_id := 1; Problem_title := "Two Sum"; Problem_problem_id := 1;
     Problem_url := "https://leetcode.com/problems/two-sum/";
     Problem_difficulty := 1;
     Problem_description := Some "Given an array of integers ...";
     Problem_tags := [];
     Problem_dict := [("problem_frontend_id", VInt 1); ("premium", VBool false)] |}.


Definition array_tag : TopicTags := {| TopicTags_id := 1; tag_name := "Array" |}.

Definition store_of (p : Problem) (problem_frontend_id : PyVal)
    : option (Problem * list TopicTags) :=
  match problem_frontend_id with
  | VInt 1 => Some (p, [array_tag])
  | _ => None
  end.

Definition env_of (p : Problem) : Env :=
  {| preview_len := 5; debug := false; THEME_COLOR := 16753920; DEV_ID := 7;
     default_footer := "LeetCodeBot";
     from_db_repr := ordinal_difficulty;
     embed_color := fun d => match d with EASY => 65280 | MEDIUM => 16776960 | HARD => 16711680 end;
     get_problem_with_frontend_id := store_of p;
     timegm_now := 1700000000 |}.

Definition env0 : Env := env_of two_sum_patched.

Definition bot0 : Bot :=
  {| Bot_user := Some {| User_name := "bot"; User_display_name := "LeetCodeBot";
                         User_avatar := Some "https://cdn/bot.png" |};
     Bot_users := {[ 7 := {| User_name := "dev"; User_display_name := "Dev";
                             User_avatar := Some "https://cdn/dev.png" |} ]} |}.

(** A bot that is logged in and has not cached the developer's user. *)
Definition bot_without_dev : Bot :=
  {| Bot_user := Bot_user bot0; Bot_users := ∅ |}.

Definition tag (id : Z) (name : string) : ForumTag :=
  {| ForumTag_id := id; ForumTag_name := name |}.

Definition forum_with (tags : list ForumTag) : ForumChannel :=
  {| ForumChannel_id := 100; ForumChannel_available_tags := tags |}.

Definition all_tags : list ForumTag :=
  [tag 11 "LeetCode"; tag 12 "Easy"; tag 13 "Medium"; tag 14 "Hard"].

Definition config42 : GuildForumChannel :=
  {| GuildForumChannel_id := 1; GuildForumChannel_guild_id := 42;
     GuildForumChannel_channel_id := 100 |}.

Definition record500 : ProblemThreads :=
  {| ProblemThreads_thread_id := 500; ProblemThreads_problem_db_id := 1;
     ProblemThreads_forum_channel_db_id := 1 |}.

Definition thread500 : Thread :=
  {| Thread_id := 500; Thread_parent_id := 100; Thread_name := "1. Two Sum";
     Thread_applied_tags := [tag 11 "LeetCode"; tag 12 "Easy"] |}.

Definition manager_of (channels : list GuildForumChannel) (threads : list ProblemThreads)
    : ProblemThreadsManager :=
  {| database_manager := {| guild_forum_channel_rows := channels;
                            problem_threads_rows := threads |};
     problem_threads := list_to_map (map (fun r => (ProblemThreads_thread_id r, r)) threads);
     forum_channels := list_to_map (map (fun r => (GuildForumChannel_guild_id r, r)) channels) |}.

Definition guild42 (channels : list (Z * Channel)) : Guild :=
  {| Guild_id := 42; Guild_channels := list_to_map channels; Guild_next_id := 1000 |}.

(** Guild 42 is not configured. *)
Definition world_unconfigured : World :=
  {| self := manager_of [] []; guild := guild42 [(100, IsForumChannel (forum_with all_tags))] |}.

(** Guild 42 is configured with forum 100; no thread is recorded. *)
Definition world_fresh (tags : list ForumTag) : World :=
  {| self := manager_of [config42] [];
     guild := guild42 [(100, IsForumChannel (forum_with tags))] |}.

(** Thread 500 is recorded for problem 1 and is live. *)
Definition world_live : World :=
  {| self := manager_of [config42] [record500];
     guild := guild42 [(100, IsForumChannel (forum_with all_tags)); (500, IsThread thread500)] |}.

(** Thread 500 is recorded for problem 1 and is gone from the platform. *)
Definition world_stale : World :=
  {| self := manager_of [config42] [record500];
     guild := guild42 [(100, IsForumChannel (forum_with all_tags))] |}.

(** The configured channel 100 is gone, or is a thread and not a forum. *)
Definition world_channel_gone : World :=
  {| self := manager_of [config42] []; guild := guild42 [] |}.

Definition world_channel_not_forum : World :=
  {| self := manager_of [config42] []; guild := guild42 [(100, OtherChannel)] |}.

(** Guild 42 is configured and no thread is recorded in the table, but the
    dictionary holds an entry under thread id 500. *)
Definition record500_old : ProblemThreads :=
  {| ProblemThreads_thread_id := 500; ProblemThreads_problem_db_id := 2;
     ProblemThreads_forum_channel_db_id := 1 |}.

Definition world_orphan_entry : World :=
  {| self :=
       {| database_manager := {| guild_forum_channel_rows := [config42];
                                 problem_threads_rows := [] |};
          problem_threads := {[ 500 := record500_old ]};
          forum_channels := {[ 42 := config42 ]} |};
     guild := guild42 [(100, IsForumChannel (forum_with all_tags))] |}.

(** The manager as [__init__] builds it over a database that has rows:
    both dictionaries are empty. *)
Definition world_restart : World :=
  {| self :=
       {| database_manager := {| guild_forum_channel_rows := [config42];
                                 problem_threads_rows := [record500] |};
          problem_threads := ∅;
          forum_channels := ∅ |};
     guild := guild42 [(100, IsForumChannel (forum_with all_tags)); (500, IsThread thread500)] |}.

(** ** Predicates on runs and on the registry *)

Definition is_read (e : Event) : bool :=
  match e with EvRead _ => true | _ => false end.

(** Nothing but reads of tables and dictionaries: no write, no call that
    changes the platform. *)
Definition reads_only (t : list Event) : bool := forallb is_read t.

(** A computation that leaves every world as it found it. *)
Definition read_only {A : Type} (m : M A) : Prop :=
  ∀ w, world_of (m w) = w ∧ reads_only (trace_of (m w)) = true.

(** No dictionary is read at all. *)
Definition no_dict_read (t : list Event) : bool :=
  forallb (fun e => negb (is_dict_read e)) t.

(** Every entry of a dictionary is the row the store returns for its key. *)
Definition coherent (m : ProblemThreadsManager) : Prop :=
  map_Forall
    (fun g c => List.find (fun r => GuildForumChannel_guild_id r =? g)
                  (guild_forum_channel_rows (database_manager m)) = Some c)
    (forum_channels m)
  ∧ map_Forall
    (fun t p => List.find (fun r => ProblemThreads_thread_id r =? t)
                  (problem_threads_rows (database_manager m)) = Some p)
    (problem_threads m).

(** At most one recorded thread per problem and forum configuration. *)
Definition one_thread_per_pair (rows : list ProblemThreads) : Prop :=
  ∀ r1 r2, r1 ∈ rows → r2 ∈ rows →
    ProblemThreads_problem_db_id r1 = ProblemThreads_problem_db_id r2 →
    ProblemThreads_forum_channel_db_id r1 = ProblemThreads_forum_channel_db_id r2 →
    r1 = r2.

(** The identifiers the platform hands out next are not recorded yet. *)
Definition ids_fresh (w : World) : Prop :=
  Forall (fun r => ProblemThreads_thread_id r < Guild_next_id (guild w))
    (problem_threads_rows (database_manager (self w))).

(** [isinstance(c, ForumChannel)] for what [try_get_channel] returned. *)
Definition is_forum (c : option Channel) : bool :=
  match c with Some (IsForumChannel _) => true | _ => false end.

(** The primary keys of [guild_forum_channels] are unique. *)
Definition primary_keys_unique (db : Database) : Prop :=
  NoDup (map GuildForumChannel_id (guild_forum_channel_rows db)).

(** Every run of [m], failed or not, leaves a world related by [R] to the
    one it started in. *)
Definition preserves {A : Type} (R : World → World → Prop) (m : M A) : Prop :=
  ∀ w, R w (world_of (m w)).

(** Every exception [m] raises satisfies [P]. *)
Definition raises_only {A : Type} (P : Exn → Prop) (m : M A) : Prop :=
  ∀ w e, result_of (m w) = inl e → P e.

(** The forum-channel table, the forum-channel dictionary and the id of the
    guild are the same in both worlds. *)
Definition same_forum_channels (w w' : World) : Prop :=
  guild_forum_channel_rows (database_manager (self w'))
  = guild_forum_channel_rows (database_manager (self w))
  ∧ forum_channels (self w') = forum_channels (self w)
  ∧ Guild_id (guild w') = Guild_id (guild w).

(** The world after a thread record has been written through. *)
Definition with_thread (row : ProblemThreads) (w : World) : World :=
  {| self :=
       {| database_manager :=
            {| guild_forum_channel_rows :=
                 guild_forum_channel_rows (database_manager (self w));
               problem_threads_rows :=
                 problem_threads_rows (database_manager (self w)) ++ [row] |};
          problem_threads :=
            <[ProblemThreads_thread_id row := row]> (problem_threads (self w));
          forum_channels := forum_channels (self w) |};
     guild := guild w |}.

(** The world after the records with a thread id have been removed. *)
Definition without_thread (thread_id : Z) (w : World) : World :=
  {| self :=
       {| database_manager :=
            {| guild_forum_channel_rows :=
                 guild_forum_channel_rows (database_manager (self w));
               problem_threads_rows :=
                 List.filter (fun r => negb (ProblemThreads_thread_id r =? thread_id))
                   (problem_threads_rows (database_manager (self w))) |};
          problem_threads := delete thread_id (problem_threads (self w));
          forum_channels := forum_channels (self w) |};
     guild := guild w |}.

(** What a created thread should look like for [problem]: its name is the
    external id as [f"{...}"] prints it, then ". ", then the title; its
    starter message is the URL and a newline, followed by the premium
    disclaimer exactly when [problem.premium] is true. *)
Definition has_title_and_body (problem : Problem) (created : ThreadWithMessage) : Prop :=
  ∃ problem_frontend_id premium,
    getattr problem "problem_frontend_id" = inr problem_frontend_id
    ∧ getattr problem "premium" = inr premium
    ∧ Thread_name (thread created)
      = py_str problem_frontend_id +:+ ". " +:+ Problem_title problem
    ∧ Message_content (message created)
      = (if py_truthy premium
         then (Problem_url problem +:+ LF) +:+ premium_disclaimer
         else Problem_url problem +:+ LF)
    ∧ (Message_content (message created)
       = (Problem_url problem +:+ LF) +:+ premium_disclaimer
       ↔ py_truthy premium = true).

(** * Properties *)

(** ** Runs of composed computations *)

Lemma run_eta {A : Type} (m : M A) (w : World) :
  m w = (result_of (m w), world_of (m w), trace_of (m w)).
Proof. unfold result_of, world_of, trace_of. by destruct (m w) as [[r w'] t]. Qed.

Lemma bind_runs {A B : Type} (m : M A) (f : A → M B) w a w1 t1 r w2 t2 :
  m w = (inr a, w1, t1) → f a w1 = (r, w2, t2) → bind m f w = (r, w2, t1 ++ t2).
Proof. intros Hm Hf. unfold bind. by rewrite Hm, Hf. Qed.

Lemma bind_fails {A B : Type} (m : M A) (f : A → M B) w e w1 t1 :
  m w = (inl e, w1, t1) → bind m f w = (inl e, w1, t1).
Proof. intros Hm. unfold bind. by rewrite Hm. Qed.

Lemma read_only_run {A : Type} (m : M A) (w : World) (a : A) :
  read_only m → result_of (m w) = inr a → m w = (inr a, w, trace_of (m w)).
Proof.
  intros Hro Hres. destruct (Hro w) as [Hw _].
  rewrite (run_eta m w) at 1. by rewrite Hres, Hw.
Qed.

Lemma reads_only_app (t1 t2 : list Event) :
  reads_only t1 = true → reads_only t2 = true → reads_only (t1 ++ t2) = true.
Proof. unfold reads_only. intros H1 H2. by rewrite forallb_app, H1, H2. Qed.

Lemma reads_only_no_writes (t : list Event) :
  reads_only t = true → no_writes t = true.
Proof.
  unfold reads_only, no_writes. induction t as [|e t IH]; [done|].
  simpl. intros [He Ht]%andb_prop. rewrite (IH Ht). by destruct e.
Qed.

(** ** The reads of the registry *)

Section Reads.
Context (env : Env).

Lemma get_forum_channel_result (guild_id : Z) (w : World) :
  result_of (get_forum_channel guild_id w) =
  inr (match forum_channels (self w) !! guild_id with
       | Some c => Some c
       | None => List.find (fun r => GuildForumChannel_guild_id r =? guild_id)
                   (guild_forum_channel_rows (database_manager (self w)))
       end).
Proof.
  unfold get_forum_channel, bind, forum_channels_get, select_forum_channel, result_of.
  simpl. destruct (forum_channels (self w) !! guild_id); [done|].
  simpl. by destruct (List.find _ _).
Qed.

Lemma get_forum_channel_read_only (guild_id : Z) : read_only (get_forum_channel guild_id).
Proof.
  intros w.
  unfold get_forum_channel, bind, forum_channels_get, select_forum_channel,
    world_of, trace_of.
  simpl. destruct (forum_channels (self w) !! guild_id); [done|].
  simpl. by destruct (List.find _ _).
Qed.

Lemma get_thread_by_thread_id_result (thread_id : Z) (w : World) :
  result_of (get_thread_by_thread_id thread_id w) =
  inr (match problem_threads (self w) !! thread_id with
       | Some p => Some p
       | None => List.find (fun r => ProblemThreads_thread_id r =? thread_id)
                   (problem_threads_rows (database_manager (self w)))
       end).
Proof.
  unfold get_thread_by_thread_id, bind, problem_threads_get, select_thread_by_thread_id,
    result_of.
  simpl. destruct (problem_threads (self w) !! thread_id); [done|].
  simpl. by destruct (List.find _ _).
Qed.

Lemma get_thread_by_thread_id_read_only (thread_id : Z) :
  read_only (get_thread_by_thread_id thread_id).
Proof.
  intros w.
  unfold get_thread_by_thread_id, bind, problem_threads_get, select_thread_by_thread_id,
    world_of, trace_of.
  simpl. destruct (problem_threads (self w) !! thread_id); [done|].
  simpl. by destruct (List.find _ _).
Qed.

Lemma get_thread_by_problem_id_result (problem_frontend_id : PyVal) (guild_id : Z)
    (w : World) :
  result_of (get_thread_by_problem_id env problem_frontend_id guild_id w) =
  inr (match get_problem_with_frontend_id env problem_frontend_id with
       | None => None
       | Some (problem, _) =>
         match List.find (fun r => GuildForumChannel_guild_id r =? guild_id)
                 (guild_forum_channel_rows (database_manager (self w))) with
         | None => None
         | Some forum_channel =>
           List.find (fun r => (ProblemThreads_problem_db_id r =? Problem_id problem)
                               && (ProblemThreads_forum_channel_db_id r =?
                                   GuildForumChannel_id forum_channel))
             (problem_threads_rows (database_manager (self w)))
         end
       end).
Proof.
  unfold get_thread_by_problem_id, result_of.
  destruct (get_problem_with_frontend_id env problem_frontend_id) as [[problem tags]|];
    [|done].
  unfold bind, select_forum_channel, select_thread. simpl.
  destruct (List.find _ (guild_forum_channel_rows _)); [|done].
  simpl. by destruct (List.find _ _).
Qed.

Lemma get_thread_by_problem_id_read_only (problem_frontend_id : PyVal) (guild_id : Z) :
  read_only (get_thread_by_problem_id env problem_frontend_id guild_id).
Proof.
  intros w. unfold get_thread_by_problem_id, world_of, trace_of.
  destruct (get_problem_with_frontend_id env problem_frontend_id) as [[problem tags]|];
    [|done].
  unfold bind, select_forum_channel, select_thread. simpl.
  destruct (List.find _ (guild_forum_channel_rows _)); [|done].
  simpl. by destruct (List.find _ _).
Qed.

End Reads.

Lemma try_get_channel_read_only (channel_id : Z) : read_only (try_get_channel channel_id).
Proof. by intros w. Qed.

Lemma guild_id_of_run (w : World) : guild_id_of w = (inr (Guild_id (guild w)), w, []).
Proof. done. Qed.

Lemma lift_run {A : Type} (r : Exn + A) (a : A) (w : World) :
  r = inr a → lift r w = (inr a, w, []).
Proof. by intros ->. Qed.

Ltac run_read lem H :=
  eapply bind_runs;
  [ apply read_only_run; [ apply lem | exact H ] | cbn beta iota ].

Ltac run_lift H :=
  eapply bind_runs; [ apply lift_run; exact H | cbn beta iota ].

Ltac solve_reads_only :=
  repeat first
    [ reflexivity
    | apply reads_only_app
    | apply get_forum_channel_read_only
    | apply get_thread_by_thread_id_read_only
    | apply get_thread_by_problem_id_read_only
    | apply try_get_channel_read_only ].

(** ** The reconciler: the paths that write nothing *)

Section Reconcile.
Context (env : Env).

Lemma reopen_run (problem : Problem * list TopicTags) (bot : Bot) (is_daily : bool)
    (w : World) (channel : GuildForumChannel) (forum_channel : ForumChannel)
    (problem_frontend_id : PyVal) (forum_thread : ProblemThreads) (live : Thread) :
  result_of (get_forum_channel (Guild_id (guild w)) w) = inr (Some channel) →
  result_of (try_get_channel (GuildForumChannel_channel_id channel) w)
    = inr (Some (IsForumChannel forum_channel)) →
  getattr problem.1 "problem_frontend_id" = inr problem_frontend_id →
  result_of (get_thread_by_problem_id env problem_frontend_id (Guild_id (guild w)) w)
    = inr (Some forum_thread) →
  result_of (try_get_channel (ProblemThreads_thread_id forum_thread) w)
    = inr (Some (IsThread live)) →
  ∃ t, reopen_or_create_problem_thread env problem bot is_daily w
       = (inr (inr live, REOPEN), w, t)
       ∧ reads_only t = true.
Proof.
  intros Hchannel Hforum Hid Hrecord Hlive.
  eexists. split.
  - unfold reopen_or_create_problem_thread.
    eapply bind_runs; [ apply guild_id_of_run | cbn beta ].
    run_read get_forum_channel_read_only Hchannel.
    run_read try_get_channel_read_only Hforum.
    run_lift Hid.
    run_read (get_thread_by_problem_id_read_only env) Hrecord.
    run_read try_get_channel_read_only Hlive.
    reflexivity.
  - solve_reads_only.
Qed.

(** For a problem object on which [problem_frontend_id] can be read (the
    declared class builds none; the section on the declared [Problem] model
    has that case): when the guild has a
    configured forum channel that resolves to a live forum, a thread is
    recorded for the problem, and the recorded thread id resolves to a live
    thread, [reopen_or_create_problem_thread] returns that thread with
    [REOPEN], leaves the registry, both dictionaries and the platform as
    they were, and makes no access other than reads; a second call from the
    world the first one left does the same. *)
Lemma reconcile_reopens_live_thread (problem : Problem * list TopicTags) (bot : Bot)
    (is_daily : bool) (w : World) (channel : GuildForumChannel)
    (forum_channel : ForumChannel) (problem_frontend_id : PyVal)
    (forum_thread : ProblemThreads) (live : Thread) :
  result_of (get_forum_channel (Guild_id (guild w)) w) = inr (Some channel) →
  result_of (try_get_channel (GuildForumChannel_channel_id channel) w)
    = inr (Some (IsForumChannel forum_channel)) →
  getattr problem.1 "problem_frontend_id" = inr problem_frontend_id →
  result_of (get_thread_by_problem_id env problem_frontend_id (Guild_id (guild w)) w)
    = inr (Some forum_thread) →
  result_of (try_get_channel (ProblemThreads_thread_id forum_thread) w)
    = inr (Some (IsThread live)) →
  let first := reopen_or_create_problem_thread env problem bot is_daily w in
  let second := reopen_or_create_problem_thread env problem bot is_daily (world_of first) in
  result_of first = inr (inr live, REOPEN)
  ∧ world_of first = w
  ∧ reads_only (trace_of first) = true
  ∧ no_writes (trace_of first) = true
  ∧ result_of second = inr (inr live, REOPEN)
  ∧ world_of second = w
  ∧ reads_only (trace_of second) = true
  ∧ no_writes (trace_of second) = true.
Proof.
  intros Hchannel Hforum Hid Hrecord Hlive.
  destruct (reopen_run problem bot is_daily w _ _ _ _ _ Hchannel Hforum Hid Hrecord Hlive)
    as (t & Hrun & Ht).
  cbn zeta. rewrite Hrun. unfold world_of, result_of, trace_of. simpl. rewrite Hrun. simpl.
  repeat split; auto using reads_only_no_writes.
Qed.

Lemma not_configured_run (problem : Problem * list TopicTags) (bot : Bot)
    (is_daily : bool) (w : World) :
  result_of (get_forum_channel (Guild_id (guild w)) w) = inr None →
  ∃ t, reopen_or_create_problem_thread env problem bot is_daily w
       = (inl (ForumChannelNotFound not_configured_msg), w, t)
       ∧ reads_only t = true.
Proof.
  intros Hchannel. eexists. split.
  - unfold reopen_or_create_problem_thread.
    eapply bind_runs; [ apply guild_id_of_run | cbn beta ].
    run_read get_forum_channel_read_only Hchannel.
    reflexivity.
  - solve_reads_only.
Qed.

(** C3.  For a guild without a configured forum channel (neither dictionary
    nor table has one), [reopen_or_create_problem_thread] raises
    [ForumChannelNotFound] with the "not configured" message, and the
    tables, the dictionaries and the platform are unchanged: only reads
    were made. *)
Theorem reconcile_not_configured (problem : Problem * list TopicTags) (bot : Bot)
    (is_daily : bool) (w : World) :
  forum_channels (self w) !! Guild_id (guild w) = None →
  List.find (fun r => GuildForumChannel_guild_id r =? Guild_id (guild w))
    (guild_forum_channel_rows (database_manager (self w))) = None →
  let r := reopen_or_create_problem_thread env problem bot is_daily w in
  result_of (get_forum_channel (Guild_id (guild w)) w) = inr None
  ∧ result_of r = inl (ForumChannelNotFound not_configured_msg)
  ∧ world_of r = w
  ∧ reads_only (trace_of r) = true
  ∧ no_writes (trace_of r) = true.
Proof.
  intros Hdict Htable.
  assert (Hnone : result_of (get_forum_channel (Guild_id (guild w)) w) = inr None).
  { by rewrite get_forum_channel_result, Hdict, Htable. }
  destruct (not_configured_run problem bot is_daily w Hnone) as (t & Hrun & Ht).
  cbn zeta. rewrite Hrun. unfold world_of, result_of, trace_of. simpl.
  repeat split; auto using reads_only_no_writes.
Qed.

Lemma channel_invalid_run (problem : Problem * list TopicTags) (bot : Bot)
    (is_daily : bool) (w : World) (channel : GuildForumChannel) (resolved : option Channel) :
  result_of (get_forum_channel (Guild_id (guild w)) w) = inr (Some channel) →
  result_of (try_get_channel (GuildForumChannel_channel_id channel) w) = inr resolved →
  is_forum resolved = false →
  ∃ t, reopen_or_create_problem_thread env problem bot is_daily w
       = (inl (ForumChannelNotFound channel_invalid_msg), w, t)
       ∧ reads_only t = true.
Proof.
  intros Hchannel Hresolved Hinvalid. eexists. split.
  - unfold reopen_or_create_problem_thread.
    eapply bind_runs; [ apply guild_id_of_run | cbn beta ].
    run_read get_forum_channel_read_only Hchannel.
    run_read try_get_channel_read_only Hresolved.
    destruct resolved as [[]|]; try discriminate; reflexivity.
  - solve_reads_only.
Qed.

(** C5.  For a guild whose configured channel id does not resolve, or
    resolves to a channel that is not a forum, [reopen_or_create_problem_thread]
    raises [ForumChannelNotFound] with the "not found or not a valid forum
    channel" message and changes nothing.  The exception is of the same
    class as the one for a guild that is not configured; its message, and
    so the exception value, differs; and it is raised only after the lookup
    of the configuration has succeeded. *)
Theorem reconcile_channel_invalid (problem : Problem * list TopicTags) (bot : Bot)
    (is_daily : bool) (w : World) (channel : GuildForumChannel) (resolved : option Channel) :
  result_of (get_forum_channel (Guild_id (guild w)) w) = inr (Some channel) →
  result_of (try_get_channel (GuildForumChannel_channel_id channel) w) = inr resolved →
  is_forum resolved = false →
  let r := reopen_or_create_problem_thread env problem bot is_daily w in
  result_of r = inl (ForumChannelNotFound channel_invalid_msg)
  ∧ result_of r ≠ inl (ForumChannelNotFound not_configured_msg)
  ∧ channel_invalid_msg ≠ not_configured_msg
  ∧ world_of r = w
  ∧ reads_only (trace_of r) = true
  ∧ no_writes (trace_of r) = true.
Proof.
  intros Hchannel Hresolved Hinvalid.
  destruct (channel_invalid_run problem bot is_daily w _ _ Hchannel Hresolved Hinvalid)
    as (t & Hrun & Ht).
  cbn zeta. rewrite Hrun. unfold world_of, result_of, trace_of. simpl.
  repeat split; auto using reads_only_no_writes; discriminate.
Qed.

End Reconcile.

(** ** The cog: [on_ready] and [parse_problem_desc] *)

Lemma append_cons (c : Ascii.ascii) (s t : string) :
  String c s +:+ t = String c (s +:+ t).
Proof. reflexivity. Qed.

Lemma append_empty_r (s : string) : s +:+ "" = s.
Proof. induction s as [|c s IH]; [done|]. by rewrite append_cons, IH. Qed.

Lemma py_take_whole (s : string) (n : nat) :
  (py_len s ≤ n)%nat → py_take n s = s.
Proof.
  revert n. induction s as [|c s IH]; intros n Hn; [done|]. simpl in *.
  destruct (is_continuation c).
  - by rewrite IH.
  - destruct n as [|n]; [lia|]. rewrite IH; [done|lia].
Qed.

Lemma py_take_length (s : string) (n : nat) :
  (n ≤ py_len s)%nat → py_len (py_take n s) = n.
Proof.
  revert n. induction s as [|c s IH]; intros n Hn; simpl in *.
  - lia.
  - destruct (is_continuation c) eqn:Hc; simpl.
    + rewrite Hc. by apply IH.
    + destruct n as [|n]; [done|]. simpl. rewrite Hc, IH; [done|lia].
Qed.

Lemma py_take_is_prefix (s : string) (n : nat) :
  ∃ rest, s = py_take n s +:+ rest ∧ starts_code_point rest = true.
Proof.
  revert n. induction s as [|c s IH]; intros n.
  - by exists "".
  - simpl. destruct (is_continuation c) eqn:Hc.
    + destruct (IH n) as (rest & Hrest & Hstart). exists rest.
      split; [|done]. by rewrite append_cons, <- Hrest.
    + destruct n as [|n].
      * exists (String c s). split; [done|]. simpl. by rewrite Hc.
      * destruct (IH n) as (rest & Hrest & Hstart). exists rest.
        split; [|done]. by rewrite append_cons, <- Hrest.
Qed.

Lemma py_len_append (s t : string) :
  py_len (s +:+ t) = (py_len s + py_len t)%nat.
Proof.
  induction s as [|c s IH]; [done|]. rewrite append_cons. simpl.
  rewrite IH. by destruct (is_continuation c).
Qed.

Lemma py_take_append (s t : string) :
  starts_code_point t = true → py_take (py_len s) (s +:+ t) = s.
Proof.
  intros Ht. induction s as [|c s IH].
  - simpl. destruct t as [|c t]; [done|]. simpl in *.
    by destruct (is_continuation c).
  - rewrite append_cons. simpl. destruct (is_continuation c); by rewrite IH.
Qed.

(** The encoding of a sequence of code points has one code point for each,
    and its first [n] code points are the encoding of the first [n]. *)
Lemma is_continuation_byte (n : N) :
  (n < 256)%N →
  is_continuation (Ascii.ascii_of_N n) = ((128 <=? n) && (n <? 192))%N.
Proof. intros Hn. unfold is_continuation. by rewrite Ascii.N_ascii_embedding. Qed.

Lemma utf8_code_point_shape (cp : N) :
  code_point cp →
  ∃ c tail,
    utf8_code_point cp = String c tail
    ∧ is_continuation c = false
    ∧ py_len tail = 0%nat
    ∧ ∀ n s, py_take n (tail +:+ s) = tail +:+ py_take n s.
Proof.
  unfold code_point, utf8_code_point. intros Hcp.
  assert (Hcont : ∀ k, (k < 64)%N →
            is_continuation (Ascii.ascii_of_N (128 + k)) = true).
  { intros k Hk. rewrite is_continuation_byte by lia.
    apply andb_true_intro. split; [apply N.leb_le|apply N.ltb_lt]; lia. }
  assert (Hlead : ∀ k, (k < 128 ∨ 192 ≤ k < 256)%N →
            is_continuation (Ascii.ascii_of_N k) = false).
  { intros k Hk. rewrite is_continuation_byte by lia.
    apply andb_false_iff. destruct Hk as [Hk|Hk];
      [left; apply N.leb_gt|right; apply N.ltb_ge]; lia. }
  assert (Hmod : ∀ k, (k mod 64 < 64)%N) by (intros k; apply N.mod_lt; lia).
  destruct (N.ltb_spec cp 128).
  { eexists _, _. split; [done|]. split; [apply Hlead; lia|]. done. }
  destruct (N.ltb_spec cp 2048).
  { eexists _, _. split; [done|]. split.
    - apply Hlead. right. assert (cp / 64 < 32)%N by (apply N.Div0.div_lt_upper_bound; lia).
      generalize dependent (cp / 64)%N. intros q Hq. clear -Hq. lia.
    - cbn [py_len]. rewrite !Hcont by done. split; [done|]. intros n s.
      rewrite !append_cons. cbn [py_take]. by rewrite !Hcont by done. }
  destruct (N.ltb_spec cp 65536).
  { eexists _, _. split; [done|]. split.
    - apply Hlead. right. assert (cp / 4096 < 16)%N by (apply N.Div0.div_lt_upper_bound; lia).
      generalize dependent (cp / 4096)%N. intros q Hq. clear -Hq. lia.
    - cbn [py_len]. rewrite !Hcont by done. split; [done|]. intros n s.
      rewrite !append_cons. cbn [py_take]. by rewrite !Hcont by done. }
  eexists _, _. split; [done|]. split.
  - apply Hlead. right.
    assert (cp / 262144 < 5)%N by (apply N.Div0.div_lt_upper_bound; lia).
    generalize dependent (cp / 262144)%N. intros q Hq. clear -Hq. lia.
  - cbn [py_len]. rewrite !Hcont by done. split; [done|]. intros n s.
    rewrite !append_cons. cbn [py_take]. by rewrite !Hcont by done.
Qed.

Lemma py_len_utf8 (l : list N) :
  Forall code_point l → py_len (utf8 l) = length l.
Proof.
  induction 1 as [|cp l Hcp _ IH]; [done|]. simpl.
  destruct (utf8_code_point_shape cp Hcp) as (c & tail & -> & Hc & Htail & _).
  rewrite append_cons. simpl. rewrite Hc, py_len_append, Htail, IH. done.
Qed.

Lemma py_take_utf8 (n : nat) (l : list N) :
  Forall code_point l → py_take n (utf8 l) = utf8 (take n l).
Proof.
  intros Hl. revert n. induction Hl as [|cp l Hcp _ IH]; intros n; [by destruct n|].
  simpl utf8.
  destruct (utf8_code_point_shape cp Hcp) as (c & tail & Heq & Hc & _ & Htake).
  destruct n as [|n].
  - rewrite Heq at 1. rewrite append_cons. simpl. by rewrite Hc.
  - simpl take. simpl utf8. rewrite Heq, !append_cons. simpl. rewrite Hc.
    by rewrite Htake, IH.
Qed.

Section CogProperties.
Context (env : Env).

(** C9.  [on_ready] never raises; it starts [weekly_cache_refresh] exactly
    when [debug] is off and the loop is not running, and when [debug] is on
    the loop is left as it was. *)
Theorem on_ready_starts_refresh (weekly_cache_refresh : Loop) :
  ∃ after,
    on_ready env weekly_cache_refresh = inr after
    ∧ (Loop_starts after = S (Loop_starts weekly_cache_refresh)
       ↔ debug env = false ∧ is_running weekly_cache_refresh = false)
    ∧ (debug env = false ∧ is_running weekly_cache_refresh = false →
       is_running after = true)
    ∧ (¬ (debug env = false ∧ is_running weekly_cache_refresh = false) →
       after = weekly_cache_refresh)
    ∧ (debug env = true → after = weekly_cache_refresh).
Proof.
  unfold on_ready, start, is_running.
  destruct (debug env), (Loop_running weekly_cache_refresh) eqn:Hrun; simpl;
    eexists; (split; [reflexivity|]); simpl;
    repeat split; try done; try lia; intros; try tauto; try (exfalso; lia).
  all: by destruct 1.
Qed.

(** C10.  With a preview length that is not negative, [parse_problem_desc]
    returns "No description available." for the empty string; returns a
    non-empty content unchanged when it has at most [preview_len]
    characters; and otherwise returns the first [preview_len] characters of
    the content followed by "...".  Characters are code points, as for
    [len] and slices in Python: on the encoding of a sequence of code
    points, [py_len] is the length of the sequence and [py_take] gives the
    encoding of its first elements. *)
Theorem parse_problem_desc_cases (content : string) :
  0 ≤ preview_len env →
  (content = "" → parse_problem_desc env content = "No description available.")
  ∧ (content ≠ "" → Z.of_nat (py_len content) ≤ preview_len env →
     parse_problem_desc env content = content)
  ∧ (preview_len env < Z.of_nat (py_len content) →
     let first := py_take (Z.to_nat (preview_len env)) content in
     parse_problem_desc env content = first +:+ "..."
     ∧ py_len first = Z.to_nat (preview_len env)
     ∧ ∃ rest, content = first +:+ rest ∧ starts_code_point rest = true)
  ∧ (∀ code_points, Forall code_point code_points → content = utf8 code_points →
       py_len content = length code_points
       ∧ py_take (Z.to_nat (preview_len env)) content
         = utf8 (take (Z.to_nat (preview_len env)) code_points)).
Proof.
  intros Hlen. unfold parse_problem_desc, py_slice_to.
  split; [|split; [|split]].
  - by intros ->.
  - intros Hne Hshort.
    destruct (String.eqb_spec content ""); [done|].
    destruct (Z.leb_spec 0 (preview_len env)); [|lia].
    destruct (Z.ltb_spec (preview_len env) (Z.of_nat (py_len content))); [lia|].
    rewrite py_take_whole by lia. apply append_empty_r.
  - intros Hlong. cbn zeta.
    destruct (String.eqb_spec content "") as [->|_]; [simpl in Hlong; lia|].
    destruct (Z.leb_spec 0 (preview_len env)); [|lia].
    destruct (Z.ltb_spec (preview_len env) (Z.of_nat (py_len content))); [|lia].
    split; [done|]. split.
    + apply py_take_length. lia.
    + apply py_take_is_prefix.
  - intros code_points Hvalid ->. by rewrite py_len_utf8, py_take_utf8.
Qed.

End CogProperties.

(** ** Queries on the tables *)

Lemma find_app_Some {A : Type} (f : A → bool) (l l' : list A) (x : A) :
  List.find f l = Some x → List.find f (l ++ l') = Some x.
Proof.
  induction l as [|y l IH]; [done|]. simpl. destruct (f y); [done|]. apply IH.
Qed.

Lemma find_app_None {A : Type} (f : A → bool) (l l' : list A) :
  List.find f l = None → List.find f (l ++ l') = List.find f l'.
Proof.
  induction l as [|y l IH]; [done|]. simpl. destruct (f y); [done|]. apply IH.
Qed.

Lemma find_existsb {A : Type} (f : A → bool) (l : list A) :
  existsb f l = false ↔ List.find f l = None.
Proof.
  induction l as [|y l IH]; [done|]. simpl. destruct (f y); simpl; [done|]. apply IH.
Qed.

Lemma find_holds {A : Type} (f : A → bool) (l : list A) (x : A) :
  List.find f l = Some x → f x = true ∧ x ∈ l.
Proof.
  intros [Hin Hf]%List.find_some. split; [done|]. by apply list_elem_of_In.
Qed.

Lemma find_filter_other (t t' : Z) (rows : list ProblemThreads) :
  t ≠ t' →
  List.find (fun r => ProblemThreads_thread_id r =? t')
    (List.filter (fun r => negb (ProblemThreads_thread_id r =? t)) rows)
  = List.find (fun r => ProblemThreads_thread_id r =? t') rows.
Proof.
  intros Hne. induction rows as [|x rows IH]; [done|]. simpl.
  destruct (Z.eqb_spec (ProblemThreads_thread_id x) t) as [Hx|Hx]; simpl.
  - destruct (Z.eqb_spec (ProblemThreads_thread_id x) t'); [congruence|done].
  - by destruct (ProblemThreads_thread_id x =? t').
Qed.

Lemma find_filter_self (t : Z) (rows : list ProblemThreads) :
  List.find (fun r => ProblemThreads_thread_id r =? t)
    (List.filter (fun r => negb (ProblemThreads_thread_id r =? t)) rows) = None.
Proof.
  induction rows as [|x rows IH]; [done|]. simpl.
  destruct (ProblemThreads_thread_id x =? t) eqn:Hx; simpl; [done|]. by rewrite Hx.
Qed.

(** The row with the primary key of [row] is overwritten by [row]. *)
Lemma overwrite_absent (k : Z) (row : GuildForumChannel) (rows : list GuildForumChannel) :
  k ∉ map GuildForumChannel_id rows →
  map (fun r => if GuildForumChannel_id r =? k then row else r) rows = rows.
Proof.
  induction rows as [|x rows IH]; [done|]. simpl. intros Hnot.
  apply not_elem_of_cons in Hnot as [Hx Hrows].
  destruct (Z.eqb_spec (GuildForumChannel_id x) k); [congruence|].
  by rewrite IH.
Qed.

Lemma overwrite_keys (k : Z) (row : GuildForumChannel) (rows : list GuildForumChannel) :
  GuildForumChannel_id row = k →
  map GuildForumChannel_id
    (map (fun r => if GuildForumChannel_id r =? k then row else r) rows)
  = map GuildForumChannel_id rows.
Proof.
  intros Hk. induction rows as [|x rows IH]; [done|]. simpl. rewrite IH. f_equal.
  destruct (Z.eqb_spec (GuildForumChannel_id x) k); congruence.
Qed.

Lemma find_overwrite (g g' : Z) (old new : GuildForumChannel)
    (rows : list GuildForumChannel) :
  NoDup (map GuildForumChannel_id rows) →
  List.find (fun r => GuildForumChannel_guild_id r =? g) rows = Some old →
  GuildForumChannel_guild_id new = g →
  List.find (fun r => GuildForumChannel_guild_id r =? g')
    (map (fun r => if GuildForumChannel_id r =? GuildForumChannel_id old then new else r)
       rows)
  = if decide (g' = g) then Some new
    else List.find (fun r => GuildForumChannel_guild_id r =? g') rows.
Proof.
  intros Hnodup Hfind Hguild.
  induction rows as [|x rows IH]; [done|].
  simpl in *. apply NoDup_cons in Hnodup as [Hx Hnodup].
  destruct (Z.eqb_spec (GuildForumChannel_guild_id x) g) as [Hxg|Hxg].
  - injection Hfind as ->. rewrite Z.eqb_refl.
    rewrite overwrite_absent by done.
    destruct (decide (g' = g)) as [->|Hne].
    + by rewrite Hguild, Z.eqb_refl.
    + destruct (Z.eqb_spec (GuildForumChannel_guild_id new) g'); [congruence|].
      by destruct (Z.eqb_spec (GuildForumChannel_guild_id old) g'); [congruence|].
  - destruct (Z.eqb_spec (GuildForumChannel_id x) (GuildForumChannel_id old)) as [Hxid|Hxid].
    + exfalso. apply Hx. rewrite Hxid.
      apply find_holds in Hfind as [_ Hin]. by apply list_elem_of_fmap_2.
    + rewrite (IH Hnodup Hfind).
      destruct (decide (g' = g)) as [->|Hne].
      * by destruct (Z.eqb_spec (GuildForumChannel_guild_id x) g).
      * done.
Qed.

Lemma next_primary_key_fresh (rows : list GuildForumChannel) :
  next_primary_key rows ∉ map GuildForumChannel_id rows.
Proof.
  assert (Hmax : ∀ k, k ∈ map GuildForumChannel_id rows →
                      k ≤ fold_right Z.max 0 (map GuildForumChannel_id rows)).
  { induction rows as [|x rows IH]; simpl; intros k Hk.
    - by apply elem_of_nil in Hk.
    - apply elem_of_cons in Hk as [->|Hk]; [lia|]. specialize (IH k Hk). lia. }
  intros Hin. apply Hmax in Hin. unfold next_primary_key in Hin. lia.
Qed.

(** ** Traces *)

Lemma store_then_dict_reads (t1 t2 : list Event) :
  reads_only t1 = true → store_then_dict (t1 ++ t2) = store_then_dict t2.
Proof.
  induction t1 as [|e t1 IH]; [done|]. simpl. intros [He Ht]%andb_prop.
  destruct e; try discriminate. simpl. by apply IH.
Qed.

Lemma no_store_write_reads (t : list Event) :
  reads_only t = true → forallb (fun e => negb (is_store_write e)) t = true.
Proof.
  induction t as [|e t IH]; [done|]. simpl. intros [He Ht]%andb_prop.
  destruct e; try discriminate. simpl. by apply IH.
Qed.

(** ** The writes of the registry *)

Lemma add_forum_channel_to_db_run (guild_id channel_id : Z) (w : World) :
  primary_keys_unique (database_manager (self w)) →
  coherent (self w) →
  let r := add_forum_channel_to_db guild_id channel_id w in
  result_of r = inr tt
  ∧ trace_of r = [EvRead ForumChannelTable; EvWrite ForumChannelTable;
                  EvWrite ForumChannelDict]
  ∧ primary_keys_unique (database_manager (self (world_of r)))
  ∧ coherent (self (world_of r))
  ∧ guild (world_of r) = guild w
  ∧ ∃ row,
      GuildForumChannel_guild_id row = guild_id
      ∧ GuildForumChannel_channel_id row = channel_id
      ∧ List.find (fun r => GuildForumChannel_guild_id r =? guild_id)
          (guild_forum_channel_rows (database_manager (self (world_of r)))) = Some row
      ∧ forum_channels (self (world_of r)) !! guild_id = Some row.
Proof.
  intros Hkeys [Hchannels Hthreads]. cbn zeta.
  unfold add_forum_channel_to_db, bind, select_forum_channel, result_of, world_of,
    trace_of.
  simpl.
  destruct (List.find _ _) as [old|] eqn:Hfind; simpl.
  - apply find_holds in Hfind as Hold. destruct Hold as [Hguild%Z.eqb_eq _].
    set (new := {| GuildForumChannel_id := GuildForumChannel_id old;
                   GuildForumChannel_guild_id := GuildForumChannel_guild_id old;
                   GuildForumChannel_channel_id := channel_id |}).
    assert (Hover : ∀ g', List.find (fun r => GuildForumChannel_guild_id r =? g')
              (map (fun r => if GuildForumChannel_id r =? GuildForumChannel_id old
                             then new else r)
                 (guild_forum_channel_rows (database_manager (self w))))
            = if decide (g' = guild_id) then Some new
              else List.find (fun r => GuildForumChannel_guild_id r =? g')
                     (guild_forum_channel_rows (database_manager (self w)))).
    { intros g'. by apply find_overwrite. }
    split; [done|]. split; [done|]. split.
    { unfold primary_keys_unique. simpl. by rewrite overwrite_keys. }
    split.
    { split; simpl; [|done]. fold new. intros g' c' Hlook. rewrite Hover.
      apply lookup_insert_Some in Hlook as [[<- <-]|[Hne Hlook]].
      - by rewrite decide_True.
      - rewrite decide_False by done. by apply Hchannels. }
    split; [done|]. exists new. fold new. rewrite Hover, decide_True by done.
    by rewrite lookup_insert_eq.
  - set (new := {| GuildForumChannel_id := next_primary_key _;
                   GuildForumChannel_guild_id := guild_id;
                   GuildForumChannel_channel_id := channel_id |}).
    split; [done|]. split; [done|]. split.
    { unfold primary_keys_unique. simpl. rewrite map_app. apply NoDup_app.
      split; [done|]. split; [|apply NoDup_singleton].
      intros k Hk Hk'. apply list_elem_of_singleton in Hk'. subst k.
      by apply next_primary_key_fresh in Hk. }
    split.
    { split; simpl; [|done]. intros g' c' Hlook.
      apply lookup_insert_Some in Hlook as [[<- <-]|[Hne Hlook]].
      - rewrite find_app_None by done. unfold new. simpl. by rewrite Z.eqb_refl.
      - apply find_app_Some. by apply Hchannels. }
    split; [done|]. exists new. split; [done|]. split; [done|].
    rewrite find_app_None by done. unfold new at 1. simpl. rewrite Z.eqb_refl.
    by rewrite lookup_insert_eq.
Qed.

Lemma get_forum_channel_total (guild_id : Z) (w : World) :
  ∃ cfg t, get_forum_channel guild_id w = (inr cfg, w, t) ∧ reads_only t = true.
Proof.
  eexists _, _. split.
  - apply read_only_run; [apply get_forum_channel_read_only|].
    apply get_forum_channel_result.
  - apply get_forum_channel_read_only.
Qed.

Lemma delete_thread_from_db_run (thread_id : Z) (w : World) :
  ∃ t,
    delete_thread_from_db thread_id w
    = (inr tt,
       match List.find (fun r => ProblemThreads_thread_id r =? thread_id)
               (problem_threads_rows (database_manager (self w))) with
       | Some _ => without_thread thread_id w
       | None => w
       end, t)
    ∧ store_then_dict t = true.
Proof.
  unfold delete_thread_from_db, bind, select_thread_by_thread_id, delete_problem_thread,
    problem_threads_contains, problem_threads_del.
  simpl. destruct (List.find _ _) as [row|] eqn:Hfind; simpl.
  - apply find_holds in Hfind as [->%Z.eqb_eq _].
    case_bool_decide as Hpresent; simpl.
    + eexists. split; reflexivity.
    + eexists. split.
      * unfold without_thread.
        rewrite (delete_id (problem_threads (self w)) thread_id)
          by (by apply eq_None_not_Some).
        reflexivity.
      * reflexivity.
  - eexists. split; reflexivity.
Qed.

Lemma get_thread_by_thread_id_miss (thread_id : Z) (w : World) :
  problem_threads (self w) !! thread_id = None →
  trace_of (get_thread_by_thread_id thread_id w)
  = [EvRead ProblemThreadsDict; EvRead ProblemThreadsTable].
Proof.
  intros Hdict.
  unfold get_thread_by_thread_id, bind, problem_threads_get, select_thread_by_thread_id,
    trace_of.
  simpl. rewrite Hdict. simpl. by destruct (List.find _ _).
Qed.

Section Writes.
Context (env : Env).

Lemma create_thread_in_db_records (problem_frontend_id : PyVal) (guild_id thread_id : Z)
    (w : World) (cfg : GuildForumChannel) (p : Problem) (tags : list TopicTags) :
  result_of (get_forum_channel guild_id w) = inr (Some cfg) →
  get_problem_with_frontend_id env problem_frontend_id = Some (p, tags) →
  existsb (fun r => ProblemThreads_thread_id r =? thread_id)
    (problem_threads_rows (database_manager (self w))) = false →
  problem_threads (self w) !! thread_id = None →
  ∃ t,
    create_thread_in_db env problem_frontend_id guild_id thread_id w
    = (inr tt,
       with_thread {| ProblemThreads_thread_id := thread_id;
                      ProblemThreads_problem_db_id := Problem_id p;
                      ProblemThreads_forum_channel_db_id := GuildForumChannel_id cfg |} w,
       t ++ [EvWrite ProblemThreadsTable; EvRead ProblemThreadsDict;
             EvRead ProblemThreadsTable; EvWrite ProblemThreadsDict])
    ∧ reads_only t = true.
Proof.
  intros Hcfg Hstore Hfresh Hdict.
  exists (trace_of (get_forum_channel guild_id w)).
  split; [|apply get_forum_channel_read_only].
  unfold create_thread_in_db, create_thread_instance.
  erewrite bind_runs; cycle 1.
  { run_read get_forum_channel_read_only Hcfg. rewrite Hstore. reflexivity. }
  { cbn beta iota.
    eapply bind_runs.
    { unfold insert_problem_thread. simpl. rewrite Hfresh. reflexivity. }
    cbn beta.
    eapply bind_runs.
    { apply read_only_run; [apply get_thread_by_thread_id_read_only|].
      rewrite get_thread_by_thread_id_result. simpl. rewrite Hdict.
      rewrite find_app_None by (by apply find_existsb). simpl.
      by rewrite Z.eqb_refl. }
    cbn beta iota. reflexivity. }
  rewrite get_thread_by_thread_id_miss by done.
  by rewrite app_nil_r.
Qed.
Lemma create_thread_in_db_cases (problem_frontend_id : PyVal) (guild_id thread_id : Z)
    (w : World) :
  coherent (self w) →
  (∃ e t, create_thread_in_db env problem_frontend_id guild_id thread_id w = (inl e, w, t)
          ∧ reads_only t = true)
  ∨ (∃ row t,
       ProblemThreads_thread_id row = thread_id
       ∧ existsb (fun r => ProblemThreads_thread_id r =? thread_id)
           (problem_threads_rows (database_manager (self w))) = false
       ∧ problem_threads (self w) !! thread_id = None
       ∧ create_thread_in_db env problem_frontend_id guild_id thread_id w
         = (inr tt, with_thread row w, t)
       ∧ store_then_dict t = true).
Proof.
  intros [_ Hthreads].
  destruct (get_forum_channel_total guild_id w) as (cfg & t1 & Hrun & Ht1).
  destruct cfg as [cfg|].
  - destruct (get_problem_with_frontend_id env problem_frontend_id) as [[p tags]|]
      eqn:Hstore.
    + destruct (existsb (fun r => ProblemThreads_thread_id r =? thread_id)
                  (problem_threads_rows (database_manager (self w)))) eqn:Hfresh.
      * left. eexists _, _. split.
        -- unfold create_thread_in_db, create_thread_instance.
           eapply bind_runs.
           { eapply bind_runs; [exact Hrun|]. cbn beta iota. rewrite Hstore. reflexivity. }
           cbn beta iota. eapply bind_fails.
           unfold insert_problem_thread. simpl. rewrite Hfresh. reflexivity.
        -- rewrite !app_nil_r. exact Ht1.
      * right.
        assert (Hdict : problem_threads (self w) !! thread_id = None).
        { destruct (problem_threads (self w) !! thread_id) as [cached|] eqn:Hcached;
            [|done].
          apply Hthreads in Hcached. apply find_existsb in Hfresh. congruence. }
        assert (Hcfg : result_of (get_forum_channel guild_id w) = inr (Some cfg)).
        { by rewrite Hrun. }
        destruct (create_thread_in_db_records _ _ _ _ _ _ _ Hcfg Hstore Hfresh Hdict)
          as (t & Hcreate & Ht).
        exists {| ProblemThreads_thread_id := thread_id;
                  ProblemThreads_problem_db_id := Problem_id p;
                  ProblemThreads_forum_channel_db_id := GuildForumChannel_id cfg |}.
        eexists. split; [done|]. split; [done|]. split; [done|].
        split; [exact Hcreate|]. by rewrite store_then_dict_reads.
    + left. eexists _, _. split.
      * unfold create_thread_in_db, create_thread_instance.
        eapply bind_runs.
        { eapply bind_runs; [exact Hrun|]. cbn beta iota. rewrite Hstore. reflexivity. }
        cbn beta iota. reflexivity.
      * rewrite !app_nil_r. exact Ht1.
  - left. eexists _, _. split.
    + unfold create_thread_in_db, create_thread_instance.
      eapply bind_fails. eapply bind_runs; [exact Hrun|]. cbn beta iota. reflexivity.
    + rewrite !app_nil_r. exact Ht1.
Qed.

End Writes.

Lemma reads_only_store_then_dict (t : list Event) :
  reads_only t = true → store_then_dict t = true.
Proof.
  intros Ht. rewrite <- (app_nil_r t). by rewrite store_then_dict_reads.
Qed.

Lemma coherent_not_recorded (thread_id : Z) (w : World) :
  coherent (self w) →
  List.find (fun r => ProblemThreads_thread_id r =? thread_id)
    (problem_threads_rows (database_manager (self w))) = None →
  problem_threads (self w) !! thread_id = None.
Proof.
  intros [_ Hthreads] Hfind.
  destruct (problem_threads (self w) !! thread_id) as [cached|] eqn:Hcached; [|done].
  apply Hthreads in Hcached. congruence.
Qed.

Lemma coherent_with_thread (row : ProblemThreads) (w : World) :
  coherent (self w) →
  existsb (fun r => ProblemThreads_thread_id r =? ProblemThreads_thread_id row)
    (problem_threads_rows (database_manager (self w))) = false →
  coherent (self (with_thread row w)).
Proof.
  intros [Hchannels Hthreads] Hfresh%find_existsb. split; [done|]. simpl.
  intros t p Hlook. apply lookup_insert_Some in Hlook as [[<- <-]|[Hne Hlook]].
  - rewrite find_app_None by done. simpl. by rewrite Z.eqb_refl.
  - apply find_app_Some. by apply Hthreads.
Qed.

Lemma coherent_without_thread (thread_id : Z) (w : World) :
  coherent (self w) → coherent (self (without_thread thread_id w)).
Proof.
  intros [Hchannels Hthreads]. split; [done|]. simpl.
  intros t p Hlook. apply lookup_delete_Some in Hlook as [Hne Hlook].
  rewrite find_filter_other by done. by apply Hthreads.
Qed.

Lemma dict_first_get_forum_channel (guild_id : Z) (w : World) :
  dict_first (trace_of (get_forum_channel guild_id w)) = true.
Proof.
  unfold get_forum_channel, bind, forum_channels_get, select_forum_channel, trace_of.
  simpl. destruct (forum_channels (self w) !! guild_id); [done|].
  simpl. by destruct (List.find _ _).
Qed.

Lemma dict_first_get_thread_by_thread_id (thread_id : Z) (w : World) :
  dict_first (trace_of (get_thread_by_thread_id thread_id w)) = true.
Proof.
  unfold get_thread_by_thread_id, bind, problem_threads_get, select_thread_by_thread_id,
    trace_of.
  simpl. destruct (problem_threads (self w) !! thread_id); [done|].
  simpl. by destruct (List.find _ _).
Qed.

Section Registry.
Context (env : Env).

Lemma no_dict_read_get_thread_by_problem_id (problem_frontend_id : PyVal) (guild_id : Z)
    (w : World) :
  no_dict_read (trace_of (get_thread_by_problem_id env problem_frontend_id guild_id w))
  = true.
Proof.
  unfold get_thread_by_problem_id, trace_of.
  destruct (get_problem_with_frontend_id env problem_frontend_id) as [[problem tags]|];
    [|done].
  unfold bind, select_forum_channel, select_thread. simpl.
  destruct (List.find _ (guild_forum_channel_rows _)); [|done].
  simpl. by destruct (List.find _ _).
Qed.

(** C8 (amended).  From a registry whose primary keys are unique and whose
    dictionaries agree with the tables, each of [add_forum_channel_to_db],
    [create_thread_in_db] and [delete_thread_from_db] writes the table
    before the dictionary, leaves dictionaries that agree with the tables
    (and a failed [create_thread_in_db] leaves the world untouched), and
    what was written can be read back from the table and from the
    dictionary.  [get_forum_channel] and [get_thread_by_thread_id] read the
    dictionary first and return its entry when it has one;
    [get_thread_by_problem_id] reads the tables only. *)
Theorem registry_writes_through (guild_id channel_id thread_id : Z)
    (problem_frontend_id : PyVal) (w : World) :
  primary_keys_unique (database_manager (self w)) →
  coherent (self w) →
  let set := add_forum_channel_to_db guild_id channel_id w in
  let record := create_thread_in_db env problem_frontend_id guild_id thread_id w in
  let remove := delete_thread_from_db thread_id w in
  (result_of set = inr tt
   ∧ store_then_dict (trace_of set) = true
   ∧ primary_keys_unique (database_manager (self (world_of set)))
   ∧ coherent (self (world_of set))
   ∧ ∃ row,
       GuildForumChannel_guild_id row = guild_id
       ∧ GuildForumChannel_channel_id row = channel_id
       ∧ List.find (fun r => GuildForumChannel_guild_id r =? guild_id)
           (guild_forum_channel_rows (database_manager (self (world_of set)))) = Some row
       ∧ forum_channels (self (world_of set)) !! guild_id = Some row)
  ∧ (store_then_dict (trace_of record) = true
     ∧ primary_keys_unique (database_manager (self (world_of record)))
     ∧ coherent (self (world_of record))
     ∧ (∀ e, result_of record = inl e → world_of record = w)
     ∧ (result_of record = inr tt →
        ∃ row,
          ProblemThreads_thread_id row = thread_id
          ∧ List.find (fun r => ProblemThreads_thread_id r =? thread_id)
              (problem_threads_rows (database_manager (self (world_of record))))
            = Some row
          ∧ problem_threads (self (world_of record)) !! thread_id = Some row))
  ∧ (result_of remove = inr tt
     ∧ store_then_dict (trace_of remove) = true
     ∧ primary_keys_unique (database_manager (self (world_of remove)))
     ∧ coherent (self (world_of remove))
     ∧ List.find (fun r => ProblemThreads_thread_id r =? thread_id)
         (problem_threads_rows (database_manager (self (world_of remove)))) = None
     ∧ problem_threads (self (world_of remove)) !! thread_id = None)
  ∧ dict_first (trace_of (get_forum_channel guild_id w)) = true
  ∧ (∀ c, forum_channels (self w) !! guild_id = Some c →
          result_of (get_forum_channel guild_id w) = inr (Some c))
  ∧ dict_first (trace_of (get_thread_by_thread_id thread_id w)) = true
  ∧ (∀ p, problem_threads (self w) !! thread_id = Some p →
          result_of (get_thread_by_thread_id thread_id w) = inr (Some p))
  ∧ no_dict_read (trace_of (get_thread_by_problem_id env problem_frontend_id guild_id w))
    = true.
Proof.
  intros Hkeys Hcoh. cbn zeta.
  split; [|split; [|split]].
  - destruct (add_forum_channel_to_db_run guild_id channel_id w Hkeys Hcoh)
      as (Hres & Htrace & Hkeys' & Hcoh' & _ & Hrow).
    rewrite Htrace. auto.
  - destruct (create_thread_in_db_cases env problem_frontend_id guild_id thread_id w Hcoh)
      as [(e & t & Hrun & Ht)|(row & t & Hid & Hfresh & Hdict & Hrun & Ht)];
      rewrite Hrun; unfold result_of, world_of, trace_of; simpl.
    + split; [by apply reads_only_store_then_dict|]. split; [done|]. split; [done|].
      split; [done|]. discriminate.
    + split; [done|]. split; [done|]. split.
      { apply (coherent_with_thread row w Hcoh). by rewrite Hid. }
      split; [discriminate|]. intros _. exists row. split; [done|].
      rewrite <- Hid. rewrite lookup_insert_eq. split; [|done].
      rewrite find_app_None by (apply find_existsb; by rewrite Hid).
      simpl. by rewrite Z.eqb_refl.
  - destruct (delete_thread_from_db_run thread_id w) as (t & Hrun & Ht).
    rewrite Hrun. unfold result_of, world_of, trace_of. simpl.
    split; [done|]. split; [done|].
    destruct (List.find _ _) as [row|] eqn:Hfind.
    + split; [done|]. split; [by apply coherent_without_thread|].
      simpl. split; [apply find_filter_self|apply lookup_delete_eq].
    + split; [done|]. split; [done|]. split; [done|].
      by apply coherent_not_recorded.
  - split; [apply dict_first_get_forum_channel|].
    split; [intros c Hc; by rewrite get_forum_channel_result, Hc|].
    split; [apply dict_first_get_thread_by_thread_id|].
    split; [intros p Hp; by rewrite get_thread_by_thread_id_result, Hp|].
    apply no_dict_read_get_thread_by_problem_id.
Qed.

End Registry.

(** ** Thread creation *)

Lemma create_tags_run (channel : ForumChannel) (names : list string) (w : World) :
  ∃ w',
    for_each names (create_tag channel) w
    = (inr tt, w', map (EvCreateTag (ForumChannel_id channel)) names)
    ∧ self w' = self w
    ∧ Guild_id (guild w') = Guild_id (guild w)
    ∧ Guild_next_id (guild w') = Guild_next_id (guild w) + Z.of_nat (length names).
Proof.
  revert w. induction names as [|name names IH]; intros w.
  - exists w. repeat split. simpl. lia.
  - destruct (IH (world_of (create_tag channel name w))) as (w' & Hrun & Hself & Hid & Hnext).
    exists w'. split.
    + exact (bind_runs (create_tag channel name)
               (fun _ => for_each names (create_tag channel)) w tt _
               [EvCreateTag (ForumChannel_id channel) name] _ _ _ eq_refl Hrun).
    + split; [done|]. split; [done|]. rewrite Hnext. simpl length.
      unfold world_of, create_tag. simpl. lia.
Qed.

Lemma fresh_not_recorded (rows : list ProblemThreads) (k t : Z) :
  Forall (fun r => ProblemThreads_thread_id r < k) rows → k ≤ t →
  existsb (fun r => ProblemThreads_thread_id r =? t) rows = false.
Proof.
  intros Hrows Hk. induction Hrows as [|r rows Hr _ IH]; [done|]. simpl.
  rewrite IH. destruct (Z.eqb_spec (ProblemThreads_thread_id r) t); [lia|done].
Qed.

Lemma reads_only_no_create_tag (t : list Event) (channel_id : Z) (name : string) :
  reads_only t = true → EvCreateTag channel_id name ∉ t.
Proof.
  intros Ht Hin. unfold reads_only in Ht.
  rewrite forallb_forall in Ht. apply list_elem_of_In in Hin. by apply Ht in Hin.
Qed.

Section Creation.
Context (env : Env).

Lemma create_thread_run (channel : ForumChannel) (problem : Problem)
    (problem_tags : list TopicTags) (bot : Bot) (w : World)
    (problem_frontend_id premium : PyVal) (embed : Embed) (cfg : GuildForumChannel)
    (p : Problem) (ptags : list TopicTags) :
  getattr problem "problem_frontend_id" = inr problem_frontend_id →
  getattr problem "premium" = inr premium →
  get_problem_desc_embed env problem problem_tags bot = inr embed →
  result_of (get_forum_channel (Guild_id (guild w)) w) = inr (Some cfg) →
  get_problem_with_frontend_id env problem_frontend_id = Some (p, ptags) →
  coherent (self w) →
  ids_fresh w →
  let missing :=
    elements (canonical_tags ∖
              list_to_set (map ForumTag_name (ForumChannel_available_tags channel))) in
  let new_id := Guild_next_id (guild w) + Z.of_nat (length missing) in
  let created :=
    {| Thread_id := new_id;
       Thread_parent_id := ForumChannel_id channel;
       Thread_name := py_str problem_frontend_id +:+ ". " +:+ Problem_title problem;
       Thread_applied_tags :=
         filter (fun tag => ForumTag_name tag ∈
                   ({[ "LeetCode";
                       get_difficulty_str_repr env (Problem_difficulty problem) ]}
                    : gset string))
           (ForumChannel_available_tags channel) |} in
  let starter :=
    {| Message_content :=
         if py_truthy premium then (Problem_url problem +:+ LF) +:+ premium_disclaimer
         else Problem_url problem +:+ LF;
       Message_embed := embed |} in
  let row :=
    {| ProblemThreads_thread_id := new_id;
       ProblemThreads_problem_db_id := Problem_id p;
       ProblemThreads_forum_channel_db_id := GuildForumChannel_id cfg |} in
  ∃ w' t,
    _create_thread env channel problem problem_tags bot w
    = (inr {| thread := created; message := starter |}, w', t)
    ∧ self w' = self (with_thread row w)
    ∧ Guild_id (guild w') = Guild_id (guild w)
    ∧ Guild_channels (guild w') !! new_id = Some (IsThread created)
    ∧ Guild_next_id (guild w') = new_id + 1
    ∧ (∀ name, EvCreateTag (ForumChannel_id channel) name ∈ t ↔ name ∈ missing).
Proof.
  intros Hid Hpremium Hembed Hcfg Hstore Hcoh Hfresh. cbn zeta.
  set (missing := elements _).
  destruct (create_tags_run channel missing w) as (w1 & Hrun1 & Hself1 & Hgid1 & Hnext1).
  set (new_id := Guild_next_id (guild w) + Z.of_nat (length missing)).
  set (created := {| Thread_id := new_id |}).
  set (w2 := set_guild {| Guild_id := Guild_id (guild w1);
                          Guild_channels := <[new_id := IsThread created]>
                                              (Guild_channels (guild w1));
                          Guild_next_id := new_id + 1 |} w1).
  assert (Hrows : existsb (fun r => ProblemThreads_thread_id r =? new_id)
                    (problem_threads_rows (database_manager (self w2))) = false).
  { simpl. rewrite Hself1. apply (fresh_not_recorded _ _ _ Hfresh). unfold new_id. lia. }
  assert (Hdict : problem_threads (self w2) !! new_id = None).
  { simpl. rewrite Hself1. apply coherent_not_recorded; [done|].
    apply find_existsb. simpl in Hrows. by rewrite Hself1 in Hrows. }
  assert (Hcfg2 : result_of (get_forum_channel (Guild_id (guild w1)) w2) = inr (Some cfg)).
  { rewrite get_forum_channel_result. rewrite get_forum_channel_result in Hcfg.
    simpl. by rewrite Hself1, Hgid1. }
  destruct (create_thread_in_db_records env _ _ new_id w2 _ _ _ Hcfg2 Hstore Hrows Hdict)
    as (t3 & Hrun3 & Ht3).
  eexists _, _. split; [|split; [|split; [|split; [|split]]]].
  - unfold _create_thread.
    run_lift Hid. run_lift Hpremium. run_lift Hembed.
    eapply bind_runs; [exact Hrun1|]. cbn beta.
    eapply bind_runs.
    { unfold create_thread. rewrite Hnext1. reflexivity. }
    cbn beta.
    eapply bind_runs; [apply guild_id_of_run|]. cbn beta.
    eapply bind_runs; [exact Hrun3|]. cbn beta.
    reflexivity.
  - unfold with_thread. simpl. by rewrite Hself1.
  - simpl. done.
  - simpl. apply lookup_insert_eq.
  - simpl. done.
  - intros name. rewrite !app_nil_l, !app_nil_r, !elem_of_app.
    split.
    + intros [Hin|[Hin|[Hin|Hin]]].
      * apply list_elem_of_fmap in Hin as (name' & [= ->] & Hin). done.
      * apply list_elem_of_singleton in Hin. discriminate.
      * by apply reads_only_no_create_tag in Hin.
      * repeat (apply elem_of_cons in Hin as [Hin|Hin]; [discriminate|]).
        by apply elem_of_nil in Hin.
    + intros Hin. left. apply list_elem_of_fmap. by exists name.
Qed.

(** The tags of the thread [_create_thread] creates are chosen among the
    tags the forum had before the call; the tags the call creates are the
    canonical ones the forum did not have; so no tag it creates is applied. *)
Lemma applied_tags_are_earlier_tags (channel : ForumChannel) (problem : Problem)
    (problem_tags : list TopicTags) (bot : Bot) (w : World)
    (problem_frontend_id premium : PyVal) (embed : Embed) (cfg : GuildForumChannel)
    (p : Problem) (ptags : list TopicTags) :
  getattr problem "problem_frontend_id" = inr problem_frontend_id →
  getattr problem "premium" = inr premium →
  get_problem_desc_embed env problem problem_tags bot = inr embed →
  result_of (get_forum_channel (Guild_id (guild w)) w) = inr (Some cfg) →
  get_problem_with_frontend_id env problem_frontend_id = Some (p, ptags) →
  coherent (self w) →
  ids_fresh w →
  let r := _create_thread env channel problem problem_tags bot w in
  let label := get_difficulty_str_repr env (Problem_difficulty problem) in
  ∃ created,
    result_of r = inr created
    ∧ (∀ name, EvCreateTag (ForumChannel_id channel) name ∈ trace_of r
               ↔ name ∈ canonical_tags
                 ∧ name ∉ map ForumTag_name (ForumChannel_available_tags channel))
    ∧ (∀ tag, tag ∈ Thread_applied_tags (thread created)
              ↔ tag ∈ ForumChannel_available_tags channel
                ∧ (ForumTag_name tag = "LeetCode" ∨ ForumTag_name tag = label))
    ∧ (∀ tag name, tag ∈ Thread_applied_tags (thread created) →
                   EvCreateTag (ForumChannel_id channel) name ∈ trace_of r →
                   ForumTag_name tag ≠ name).
Proof.
  intros Hid Hpremium Hembed Hcfg Hstore Hcoh Hfresh. cbn zeta.
  destruct (create_thread_run channel problem problem_tags bot w _ _ _ _ _ _
              Hid Hpremium Hembed Hcfg Hstore Hcoh Hfresh)
    as (w' & t & Hrun & _ & _ & _ & _ & Htags).
  rewrite Hrun. unfold result_of, trace_of. simpl.
  eexists. split; [reflexivity|]. simpl.
  assert (Hcreated : ∀ name, EvCreateTag (ForumChannel_id channel) name ∈ t
            ↔ name ∈ canonical_tags
              ∧ name ∉ map ForumTag_name (ForumChannel_available_tags channel)).
  { intros name. rewrite Htags, elem_of_elements, elem_of_difference.
    by rewrite elem_of_list_to_set. }
  assert (Happlied : ∀ tag,
            tag ∈ filter (fun tag => ForumTag_name tag ∈
                            ({[ "LeetCode";
                                get_difficulty_str_repr env (Problem_difficulty problem) ]}
                             : gset string))
                    (ForumChannel_available_tags channel)
            ↔ tag ∈ ForumChannel_available_tags channel
              ∧ (ForumTag_name tag = "LeetCode"
                 ∨ ForumTag_name tag
                   = get_difficulty_str_repr env (Problem_difficulty problem))).
  { intros tag. rewrite list_elem_of_filter, elem_of_union, !elem_of_singleton. tauto. }
  split; [exact Hcreated|]. split; [exact Happlied|].
  intros tag name [Hin _]%Happlied [_ Hnot]%Hcreated Heq.
  apply Hnot. rewrite <- Heq. by apply list_elem_of_fmap_2.
Qed.

End Creation.

Lemma append_eq_self (s d : string) : s +:+ d = s → d = "".
Proof.
  induction s as [|c s IH]; [done|]. rewrite append_cons. intros [= H]. by apply IH.
Qed.

Lemma bind_inr_inv {A B : Type} (m : M A) (f : A → M B) w b w2 t :
  bind m f w = (inr b, w2, t) →
  ∃ a w1 t1 t2, m w = (inr a, w1, t1) ∧ f a w1 = (inr b, w2, t2) ∧ t = t1 ++ t2.
Proof.
  unfold bind. destruct (m w) as [[[e|a] w1] t1]; [done|].
  destruct (f a w1) as [[r w2'] t2] eqn:Hf. intros [= -> -> <-].
  by exists a, w1, t1, t2.
Qed.

Lemma lift_inr_inv {A : Type} (r : Exn + A) (a : A) w w' t :
  lift r w = (inr a, w', t) → r = inr a.
Proof. unfold lift. by intros [= ->]. Qed.

Section CreatedThread.
Context (env : Env).

Lemma create_thread_inv (channel : ForumChannel) (problem : Problem)
    (problem_tags : list TopicTags) (bot : Bot) (w w' : World)
    (created : ThreadWithMessage) (t : list Event) :
  _create_thread env channel problem problem_tags bot w = (inr created, w', t) →
  has_title_and_body problem created.
Proof.
  unfold _create_thread. intros Hrun.
  apply bind_inr_inv in Hrun as (pfid & w1 & t1 & t1' & Hid%lift_inr_inv & Hrun & ->).
  apply bind_inr_inv in Hrun as (premium & w2 & t2 & t2' & Hpremium%lift_inr_inv & Hrun & ->).
  apply bind_inr_inv in Hrun as (embed & w3 & t3 & t3' & _ & Hrun & ->).
  apply bind_inr_inv in Hrun as ([] & w4 & t4 & t4' & _ & Hrun & ->).
  apply bind_inr_inv in Hrun as (twm & w5 & t5 & t5' & Hcreate & Hrun & ->).
  apply bind_inr_inv in Hrun as (gid & w6 & t6 & t6' & _ & Hrun & ->).
  apply bind_inr_inv in Hrun as ([] & w7 & t7 & t7' & _ & Hrun & ->).
  injection Hrun as -> _ _.
  injection Hcreate as <- _ _.
  exists pfid, premium. simpl. split; [done|]. split; [done|]. split; [done|].
  split; [done|].
  destruct (py_truthy premium); [done|]. split; [|done].
  intros Heq. symmetry in Heq. by apply append_eq_self in Heq.
Qed.

Lemma reconcile_create_inv (problem : Problem * list TopicTags) (bot : Bot)
    (is_daily : bool) (w : World) (created : ThreadWithMessage) :
  result_of (reopen_or_create_problem_thread env problem bot is_daily w)
  = inr (inl created, CREATE) →
  ∃ channel w1 w2 t,
    _create_thread env channel problem.1 problem.2 bot w1 = (inr created, w2, t).
Proof.
  intros Hres.
  pose proof (run_eta (reopen_or_create_problem_thread env problem bot is_daily) w) as Hrun.
  rewrite Hres in Hrun. clear Hres. revert Hrun.
  generalize (world_of (reopen_or_create_problem_thread env problem bot is_daily w)).
  generalize (trace_of (reopen_or_create_problem_thread env problem bot is_daily w)).
  intros t w' Hrun. unfold reopen_or_create_problem_thread in Hrun.
  apply bind_inr_inv in Hrun as (gid & w1 & t1 & t1' & _ & Hrun & ->).
  apply bind_inr_inv in Hrun as (channel & w2 & t2 & t2' & _ & Hrun & ->).
  destruct channel as [channel|]; [|done].
  apply bind_inr_inv in Hrun as (resolved & w3 & t3 & t3' & _ & Hrun & ->).
  destruct resolved as [[forum_channel| |]|]; try done.
  apply bind_inr_inv in Hrun as (pfid & w4 & t4 & t4' & _ & Hrun & ->).
  apply bind_inr_inv in Hrun as (forum_thread & w5 & t5 & t5' & _ & Hrun & ->).
  destruct forum_thread as [forum_thread|].
  - apply bind_inr_inv in Hrun as (thread_channel & w6 & t6 & t6' & _ & Hrun & ->).
    destruct thread_channel as [[| |]|]; try done.
    apply bind_inr_inv in Hrun as ([] & w7 & t7 & t7' & _ & Hrun & ->).
    apply bind_inr_inv in Hrun as (twm & w8 & t8 & t8' & Hcreate & Hrun & ->).
    injection Hrun as -> _ _. by exists forum_channel, w7, w8, t8.
  - apply bind_inr_inv in Hrun as (twm & w6 & t6 & t6' & Hcreate & Hrun & ->).
    injection Hrun as -> _ _. by exists forum_channel, w5, w6, t6.
Qed.

(** C7.  Whenever [reopen_or_create_problem_thread] returns a thread with
    [CREATE], and whenever [_create_thread] returns a thread, the name of
    that thread is the external id as [f"{...}"] prints it, then ". ", then
    the title, and its starter message is the problem URL and a newline,
    followed by the premium disclaimer exactly when [problem.premium] is
    true.  And [_create_thread] does return a thread, live in the guild
    afterwards, when the two attributes can be read on the problem, the
    embed can be built, the guild is configured, the problem is in the
    store, and the registry is coherent and holds no id the platform has
    yet to hand out. *)
Theorem created_thread_title_and_body (problem : Problem) (problem_tags : list TopicTags)
    (bot : Bot) :
  (∀ is_daily w created,
     result_of (reopen_or_create_problem_thread env (problem, problem_tags) bot is_daily w)
     = inr (inl created, CREATE) →
     has_title_and_body problem created)
  ∧ (∀ channel w created,
       result_of (_create_thread env channel problem problem_tags bot w) = inr created →
       has_title_and_body problem created)
  ∧ (∀ channel w problem_frontend_id premium embed cfg p ptags,
       getattr problem "problem_frontend_id" = inr problem_frontend_id →
       getattr problem "premium" = inr premium →
       get_problem_desc_embed env problem problem_tags bot = inr embed →
       result_of (get_forum_channel (Guild_id (guild w)) w) = inr (Some cfg) →
       get_problem_with_frontend_id env problem_frontend_id = Some (p, ptags) →
       coherent (self w) →
       ids_fresh w →
       let r := _create_thread env channel problem problem_tags bot w in
       ∃ created,
         result_of r = inr created
         ∧ has_title_and_body problem created
         ∧ Guild_channels (guild (world_of r)) !! Thread_id (thread created)
           = Some (IsThread (thread created))).
Proof.
  split; [|split].
  - intros is_daily w created Hres.
    apply reconcile_create_inv in Hres as (channel & w1 & w2 & t & Hrun).
    by apply create_thread_inv in Hrun.
  - intros channel w created Hres.
    pose proof (run_eta (_create_thread env channel problem problem_tags bot) w) as Hrun.
    rewrite Hres in Hrun. by apply create_thread_inv in Hrun.
  - intros channel w problem_frontend_id premium embed cfg p ptags
      Hid Hpremium Hembed Hcfg Hstore Hcoh Hfresh. cbn zeta.
    destruct (create_thread_run env channel problem problem_tags bot w _ _ _ _ _ _
                Hid Hpremium Hembed Hcfg Hstore Hcoh Hfresh)
      as (w' & t & Hrun & _ & _ & Hlive & _ & _).
    rewrite Hrun. unfold result_of, world_of. simpl.
    eexists. split; [reflexivity|]. split; [|exact Hlive].
    by apply create_thread_inv in Hrun.
Qed.

End CreatedThread.

(** ** The reconciler: a recorded thread that is gone *)

Lemma find_is_Some {A : Type} (f : A → bool) (l : list A) (x : A) :
  x ∈ l → f x = true → is_Some (List.find f l).
Proof.
  intros Hin Hf. destruct (List.find f l) eqn:Hfind; [by eexists|].
  apply list_elem_of_In in Hin. by rewrite (List.find_none _ _ Hfind _ Hin) in Hf.
Qed.

Lemma find_None_forall {A : Type} (f : A → bool) (l : list A) :
  (∀ x, x ∈ l → f x = false) → List.find f l = None.
Proof.
  induction l as [|y l IH]; [done|]. intros Hall. simpl.
  rewrite (Hall y) by apply list_elem_of_here.
  apply IH. intros x Hx. apply Hall. by apply list_elem_of_further.
Qed.

Lemma ids_fresh_without_thread (thread_id : Z) (w : World) :
  ids_fresh w → ids_fresh (without_thread thread_id w).
Proof.
  unfold ids_fresh. simpl. rewrite !Forall_forall. intros Hfresh r Hr.
  apply Hfresh. apply list_elem_of_In. apply list_elem_of_In in Hr.
  by apply List.filter_In in Hr as [Hr _].
Qed.

Section Recreate.
Context (env : Env).

Lemma configured_row (guild_id : Z) (w : World) (channel : GuildForumChannel) :
  coherent (self w) →
  result_of (get_forum_channel guild_id w) = inr (Some channel) →
  List.find (fun r => GuildForumChannel_guild_id r =? guild_id)
    (guild_forum_channel_rows (database_manager (self w))) = Some channel.
Proof.
  intros [Hchannels _]. rewrite get_forum_channel_result. intros [= Hres].
  destruct (forum_channels (self w) !! guild_id) as [c|] eqn:Hdict; [|done].
  injection Hres as ->. by apply Hchannels.
Qed.

(** For a problem object on which [problem_frontend_id] and [premium] can
    be read and a bot for which the embed can be built (the section on the
    declared [Problem] model has the other cases): when the
    guild is configured with a live forum, a thread is recorded for the
    problem, and the recorded thread id no longer resolves,
    [reopen_or_create_problem_thread] returns a newly created thread with
    [CREATE]; afterwards neither the table nor the dictionary
    has a record with the stale thread id, both have the record of the new
    thread, the lookup by problem finds the new record, and the registry
    again is coherent, has at most one record per problem and forum
    configuration, and holds no id the platform has yet to hand out.  From
    any later world with this registry in which the forum and the new
    thread are live, the next call returns that thread with [REOPEN] and
    changes nothing. *)
Lemma reconcile_recreates_stale_thread (problem : Problem * list TopicTags) (bot : Bot)
    (is_daily : bool) (w : World) (channel : GuildForumChannel)
    (forum_channel : ForumChannel) (problem_frontend_id premium : PyVal) (embed : Embed)
    (stale : ProblemThreads) :
  coherent (self w) →
  ids_fresh w →
  one_thread_per_pair (problem_threads_rows (database_manager (self w))) →
  result_of (get_forum_channel (Guild_id (guild w)) w) = inr (Some channel) →
  result_of (try_get_channel (GuildForumChannel_channel_id channel) w)
    = inr (Some (IsForumChannel forum_channel)) →
  getattr problem.1 "problem_frontend_id" = inr problem_frontend_id →
  getattr problem.1 "premium" = inr premium →
  get_problem_desc_embed env problem.1 problem.2 bot = inr embed →
  result_of (get_thread_by_problem_id env problem_frontend_id (Guild_id (guild w)) w)
    = inr (Some stale) →
  result_of (try_get_channel (ProblemThreads_thread_id stale) w) = inr None →
  let r := reopen_or_create_problem_thread env problem bot is_daily w in
  let after := self (world_of r) in
  ∃ created row,
    result_of r = inr (inl created, CREATE)
    ∧ List.find (fun x => ProblemThreads_thread_id x =? ProblemThreads_thread_id stale)
        (problem_threads_rows (database_manager after)) = None
    ∧ problem_threads after !! ProblemThreads_thread_id stale = None
    ∧ ProblemThreads_thread_id row = Thread_id (thread created)
    ∧ Thread_id (thread created) ≠ ProblemThreads_thread_id stale
    ∧ List.find (fun x => ProblemThreads_thread_id x =? Thread_id (thread created))
        (problem_threads_rows (database_manager after)) = Some row
    ∧ problem_threads after !! Thread_id (thread created) = Some row
    ∧ result_of (get_thread_by_problem_id env problem_frontend_id (Guild_id (guild w))
                   (world_of r)) = inr (Some row)
    ∧ result_of (try_get_channel (Thread_id (thread created)) (world_of r))
      = inr (Some (IsThread (thread created)))
    ∧ coherent after
    ∧ one_thread_per_pair (problem_threads_rows (database_manager after))
    ∧ ids_fresh (world_of r)
    ∧ ∀ (later : World) (forum_channel' : ForumChannel) (live : Thread),
        self later = after →
        Guild_id (guild later) = Guild_id (guild w) →
        result_of (try_get_channel (GuildForumChannel_channel_id channel) later)
          = inr (Some (IsForumChannel forum_channel')) →
        result_of (try_get_channel (Thread_id (thread created)) later)
          = inr (Some (IsThread live)) →
        let r' := reopen_or_create_problem_thread env problem bot is_daily later in
        result_of r' = inr (inr live, REOPEN)
        ∧ world_of r' = later
        ∧ no_writes (trace_of r') = true.
Proof.
  intros Hcoh Hfresh Hpair Hchannel Hforum Hid Hpremium Hembed Hrecord Hgone. cbn zeta.
  pose proof (configured_row _ _ _ Hcoh Hchannel) as Hrow.
  pose proof Hrecord as Hfound. rewrite get_thread_by_problem_id_result in Hfound.
  destruct (get_problem_with_frontend_id env problem_frontend_id) as [[p ptags]|]
    eqn:Hstore; [|done].
  rewrite Hrow in Hfound. injection Hfound as Hfound.
  apply find_holds in Hfound as Hstale. destruct Hstale as [Hmatch Hin].
  apply andb_prop in Hmatch as [Hp%Z.eqb_eq Hc%Z.eqb_eq].
  set (tid := ProblemThreads_thread_id stale) in *.
  (* the stale record is deleted *)
  destruct (delete_thread_from_db_run tid w) as (t1 & Hdelete & _).
  destruct (find_is_Some (fun r => ProblemThreads_thread_id r =? tid) _ stale Hin
              (Z.eqb_refl _)) as [found Hfind].
  rewrite Hfind in Hdelete.
  set (w1 := without_thread tid w) in *.
  (* a thread is created and recorded *)
  assert (Hchannel1 : result_of (get_forum_channel (Guild_id (guild w1)) w1)
                      = inr (Some channel)).
  { rewrite get_forum_channel_result. rewrite get_forum_channel_result in Hchannel.
    exact Hchannel. }
  destruct (create_thread_run env forum_channel problem.1 problem.2 bot w1 _ _ _ _ _ _
              Hid Hpremium Hembed Hchannel1 Hstore
              (coherent_without_thread tid w Hcoh) (ids_fresh_without_thread tid w Hfresh))
    as (w2 & t2 & Hcreate & Hself & Hguild & Hlive & Hnext & _).
  set (missing := elements _) in *.
  set (new_id := Guild_next_id (guild w1) + Z.of_nat (length missing)) in *.
  set (created := {| thread := {| Thread_id := new_id |} |}) in *.
  set (row := {| ProblemThreads_thread_id := new_id |}) in *.
  assert (Hrun : ∃ t, reopen_or_create_problem_thread env problem bot is_daily w
                      = (inr (inl created, CREATE), w2, t)).
  { eexists. unfold reopen_or_create_problem_thread.
    eapply bind_runs; [ apply guild_id_of_run | cbn beta ].
    run_read get_forum_channel_read_only Hchannel.
    run_read try_get_channel_read_only Hforum.
    run_lift Hid.
    run_read (get_thread_by_problem_id_read_only env) Hrecord.
    run_read try_get_channel_read_only Hgone.
    eapply bind_runs; [exact Hdelete|]. cbn beta.
    eapply bind_runs; [exact Hcreate|]. cbn beta.
    reflexivity. }
  destruct Hrun as [t Hrun]. rewrite Hrun. unfold result_of at 1, world_of. simpl.
  unfold ids_fresh. rewrite Hnext, Hself.
  assert (Hnew : tid < new_id).
  { pose proof Hfresh as Hall. unfold ids_fresh in Hall. rewrite Forall_forall in Hall.
    apply Hall in Hin. unfold new_id. simpl. fold tid in Hin. lia. }
  assert (Hold : List.find (fun x => ProblemThreads_thread_id x =? new_id)
                   (problem_threads_rows (database_manager (self w1))) = None).
  { apply find_existsb.
    apply (fresh_not_recorded _ _ _ (ids_fresh_without_thread tid w Hfresh)).
    unfold new_id, w1. simpl. lia. }
  assert (Hkept : ∀ other,
            other ∈ problem_threads_rows (database_manager (self w1)) →
            other ∈ problem_threads_rows (database_manager (self w))
            ∧ ProblemThreads_thread_id other ≠ tid).
  { intros other Hin'. apply list_elem_of_In, List.filter_In in Hin' as [Hin' Hne].
    split; [by apply list_elem_of_In|]. intros Heq. by rewrite Heq, Z.eqb_refl in Hne. }
  assert (Hsingle : ∀ other,
            other ∈ problem_threads_rows (database_manager (self w1)) →
            ProblemThreads_problem_db_id other = Problem_id p →
            ProblemThreads_forum_channel_db_id other = GuildForumChannel_id channel →
            False).
  { intros other [Hin' Hne]%Hkept Hp' Hc'.
    assert (other = stale) as -> by (apply Hpair; congruence). done. }
  assert (Hby_problem :
    List.find (fun r => (ProblemThreads_problem_db_id r =? Problem_id p)
                        && (ProblemThreads_forum_channel_db_id r =?
                            GuildForumChannel_id channel))
      (problem_threads_rows (database_manager (self (with_thread row w1)))) = Some row).
  { simpl. rewrite find_app_None.
    - simpl. by rewrite !Z.eqb_refl.
    - apply find_None_forall. intros other Hin'.
      apply andb_false_iff.
      destruct (Z.eqb_spec (ProblemThreads_problem_db_id other) (Problem_id p))
        as [Hp'|]; [|by left].
      destruct (Z.eqb_spec (ProblemThreads_forum_channel_db_id other)
                  (GuildForumChannel_id channel)) as [Hc'|]; [|by right].
      destruct (Hsingle other Hin' Hp' Hc'). }
  exists created, row. simpl.
  split; [done|]. split.
  { rewrite find_app_None by apply find_filter_self. simpl.
    destruct (Z.eqb_spec new_id tid); [lia|done]. }
  split.
  { rewrite lookup_insert_ne by lia. apply lookup_delete_eq. }
  split; [done|]. split; [lia|]. split.
  { rewrite find_app_None by exact Hold. simpl. by rewrite Z.eqb_refl. }
  split; [apply lookup_insert_eq|]. split.
  { rewrite get_thread_by_problem_id_result, Hstore. rewrite Hself. simpl.
    simpl in Hrow. rewrite Hrow. simpl in Hby_problem. by rewrite Hby_problem. }
  split; [by rewrite <- Hlive|]. split.
  { apply (coherent_with_thread row w1); [by apply coherent_without_thread|].
    by apply find_existsb. }
  split.
  { intros r1 r2 Hr1 Hr2 Hsame_problem Hsame_channel.
    apply elem_of_app in Hr1 as [Hr1|Hr1%list_elem_of_singleton];
      apply elem_of_app in Hr2 as [Hr2|Hr2%list_elem_of_singleton]; subst.
    - apply Hpair; [by apply Hkept|by apply Hkept|done|done].
    - destruct (Hsingle r1 Hr1); done.
    - destruct (Hsingle r2 Hr2); done.
    - done. }
  split.
  { apply Forall_app. split.
    - pose proof (ids_fresh_without_thread tid w Hfresh) as Hall.
      unfold ids_fresh in Hall. fold w1 in Hall.
      apply (Forall_impl _ _ _ Hall). intros r Hr. unfold new_id. lia.
    - apply Forall_singleton. simpl. lia. }
  intros later forum_channel' live Hlater Hsame Hforum' Hlive'. cbn zeta.
  assert (Hchannel' : result_of (get_forum_channel (Guild_id (guild later)) later)
                      = inr (Some channel)).
  { rewrite get_forum_channel_result, Hlater, Hsame. simpl.
    by rewrite get_forum_channel_result in Hchannel. }
  assert (Hrecord' : result_of (get_thread_by_problem_id env problem_frontend_id
                                  (Guild_id (guild later)) later) = inr (Some row)).
  { rewrite get_thread_by_problem_id_result, Hstore, Hlater, Hsame. simpl.
    simpl in Hrow. rewrite Hrow. simpl in Hby_problem. by rewrite Hby_problem. }
  destruct (reopen_run env problem bot is_daily later _ _ _ _ _ Hchannel' Hforum' Hid
              Hrecord' Hlive') as (t' & Hrun' & Ht').
  rewrite Hrun'. unfold result_of, world_of, trace_of. simpl.
  auto using reads_only_no_writes.
Qed.

End Recreate.

(** ** The reconciler: no thread recorded yet *)

Section FirstThread.
Context (env : Env).

Lemma reconcile_creates_first_thread (problem : Problem * list TopicTags) (bot : Bot)
    (is_daily : bool) (w : World) (channel : GuildForumChannel)
    (forum_channel : ForumChannel) (problem_frontend_id premium : PyVal) (embed : Embed)
    (p : Problem) (ptags : list TopicTags) :
  coherent (self w) →
  ids_fresh w →
  result_of (get_forum_channel (Guild_id (guild w)) w) = inr (Some channel) →
  result_of (try_get_channel (GuildForumChannel_channel_id channel) w)
    = inr (Some (IsForumChannel forum_channel)) →
  getattr problem.1 "problem_frontend_id" = inr problem_frontend_id →
  getattr problem.1 "premium" = inr premium →
  get_problem_desc_embed env problem.1 problem.2 bot = inr embed →
  get_problem_with_frontend_id env problem_frontend_id = Some (p, ptags) →
  result_of (get_thread_by_problem_id env problem_frontend_id (Guild_id (guild w)) w)
    = inr None →
  let r := reopen_or_create_problem_thread env problem bot is_daily w in
  ∃ created,
    result_of r = inr (inl created, CREATE)
    ∧ self (world_of r)
      = self (with_thread
                {| ProblemThreads_thread_id := Thread_id (thread created);
                   ProblemThreads_problem_db_id := Problem_id p;
                   ProblemThreads_forum_channel_db_id := GuildForumChannel_id channel |} w)
    ∧ result_of (try_get_channel (Thread_id (thread created)) (world_of r))
      = inr (Some (IsThread (thread created)))
    ∧ coherent (self (world_of r)).
Proof.
  intros Hcoh Hfresh Hchannel Hforum Hid Hpremium Hembed Hstore Hrecord. cbn zeta.
  destruct (create_thread_run env forum_channel problem.1 problem.2 bot w _ _ _ _ _ _
              Hid Hpremium Hembed Hchannel Hstore Hcoh Hfresh)
    as (w2 & t2 & Hcreate & Hself & _ & Hlive & _ & _).
  set (missing := elements _) in *.
  set (new_id := Guild_next_id (guild w) + Z.of_nat (length missing)) in *.
  set (created := {| thread := {| Thread_id := new_id |} |}) in *.
  assert (Hrun : ∃ t, reopen_or_create_problem_thread env problem bot is_daily w
                      = (inr (inl created, CREATE), w2, t)).
  { eexists. unfold reopen_or_create_problem_thread.
    eapply bind_runs; [ apply guild_id_of_run | cbn beta ].
    run_read get_forum_channel_read_only Hchannel.
    run_read try_get_channel_read_only Hforum.
    run_lift Hid.
    run_read (get_thread_by_problem_id_read_only env) Hrecord.
    eapply bind_runs; [exact Hcreate|]. cbn beta.
    reflexivity. }
  destruct Hrun as [t Hrun]. rewrite Hrun. unfold result_of, world_of. simpl.
  exists created. split; [reflexivity|]. simpl. split; [exact Hself|].
  split; [by rewrite Hlive|].
  rewrite Hself. apply coherent_with_thread; [done|]. simpl.
  apply (fresh_not_recorded _ _ _ Hfresh). lia.
Qed.

End FirstThread.

(** Problem 1 ("Two Sum", Easy) in guild 42 with no thread recorded and a
    forum that has the four tags: a thread "1. Two Sum" tagged LeetCode and
    Easy is created, (guild 42's configuration, problem 1, the new thread
    id) is recorded, and [CREATE] is returned. *)
Example two_sum_first_thread :
  let r :=
    reopen_or_create_problem_thread env0 (two_sum_patched, [array_tag]) bot0 false
      (world_fresh all_tags) in
  ∃ created,
    result_of r = inr (inl created, CREATE)
    ∧ Thread_name (thread created) = "1. Two Sum"
    ∧ Thread_applied_tags (thread created) = [tag 11 "LeetCode"; tag 12 "Easy"]
    ∧ problem_threads_rows (database_manager (self (world_of r)))
      = [ {| ProblemThreads_thread_id := Thread_id (thread created);
             ProblemThreads_problem_db_id := 1;
             ProblemThreads_forum_channel_db_id := 1 |} ].
Proof. cbn zeta. eexists. repeat split. Qed.

(** ** The declared [Problem] model against the reads of the manager *)

Lemma problems_insert_unique (p : Problem) (rows rows' : list Problem) :
  problems_unique rows → problems_insert p rows = inr rows' → problems_unique rows'.
Proof.
  unfold problems_unique, problems_insert. intros Hrows.
  destruct (existsb _ rows) eqn:Hexists; [done|]. intros [= <-].
  rewrite map_app. apply NoDup_app. split; [done|]. split; [|apply NoDup_singleton].
  intros k Hk Hk'. apply list_elem_of_singleton in Hk'. subst k.
  apply list_elem_of_fmap in Hk as (r & Hr & Hin).
  apply list_elem_of_In in Hin.
  assert (Hfalse : existsb (fun r => Problem_problem_id r =? Problem_problem_id p) rows
                   = true).
  { apply existsb_exists. exists r. split; [done|]. rewrite Hr. apply Z.eqb_refl. }
  congruence.
Qed.

(** C6.  What the code does for an instance built by the declared class:
    the external id is there as [problem_id], and inserts keep it unique;
    [problem_frontend_id] and [premium] are not attributes of the instance,
    so [_create_thread] raises [AttributeError] at its first read, for every
    such problem, and so does the reconciler for problem 1 in a configured
    guild whose thread is live. *)
Theorem declared_problem_lacks_read_attributes (id : Z) (title : string) (problem_id : Z)
    (url : string) (difficulty : Z) (description : option string) (tags : list TopicTags) :
  let problem := Problem_init id title problem_id url difficulty description tags in
  getattr problem "problem_id" = inr (VInt problem_id)
  ∧ (∀ rows rows', problems_unique rows → problems_insert problem rows = inr rows' →
                   problems_unique rows')
  ∧ getattr problem "problem_frontend_id" = inl (AttributeError "problem_frontend_id")
  ∧ getattr problem "premium" = inl (AttributeError "premium")
  ∧ (∀ env channel problem_tags bot w,
       _create_thread env channel problem problem_tags bot w
       = (inl (AttributeError "problem_frontend_id"), w, []))
  ∧ result_of (reopen_or_create_problem_thread (env_of two_sum) (two_sum, [array_tag])
                 bot0 false world_live)
    = inl (AttributeError "problem_frontend_id").
Proof.
  cbn zeta. split; [reflexivity|]. split; [apply problems_insert_unique|].
  repeat split.
Qed.

(** ** The reconciler on the declared [Problem] model *)

Section DeclaredProblem.
Context (env : Env).

Lemma declared_problem_stops_reconciler (id : Z) (title : string) (problem_id : Z)
    (url : string) (difficulty : Z) (description : option string) (tags : list TopicTags)
    (problem_tags : list TopicTags) (bot : Bot) (is_daily : bool) (w : World)
    (channel : GuildForumChannel) (forum_channel : ForumChannel) :
  result_of (get_forum_channel (Guild_id (guild w)) w) = inr (Some channel) →
  result_of (try_get_channel (GuildForumChannel_channel_id channel) w)
    = inr (Some (IsForumChannel forum_channel)) →
  reopen_or_create_problem_thread env
    (Problem_init id title problem_id url difficulty description tags, problem_tags)
    bot is_daily w
  = (inl (AttributeError "problem_frontend_id"), w,
     trace_of (get_forum_channel (Guild_id (guild w)) w)).
Proof.
  intros Hchannel Hforum.
  unfold reopen_or_create_problem_thread.
  rewrite <- (app_nil_l (trace_of _)).
  eapply bind_runs; [apply guild_id_of_run|]. cbn beta.
  rewrite <- (app_nil_r (trace_of _)).
  run_read get_forum_channel_read_only Hchannel.
  rewrite <- (app_nil_l []).
  run_read try_get_channel_read_only Hforum.
  reflexivity.
Qed.

(** C1.  What the code does for a problem object as the declared class
    builds it, in a guild whose configured channel is a live forum,
    whatever thread is recorded and live: it raises [AttributeError] at the
    read of [problem_frontend_id], which comes before the lookup of the
    record, so the thread table is not read and no thread is returned with
    [REOPEN]. *)
Theorem reconcile_does_not_reopen_for_declared_problem (id : Z) (title : string)
    (problem_id : Z) (url : string) (difficulty : Z) (description : option string)
    (tags : list TopicTags) (problem_tags : list TopicTags) (bot : Bot) (is_daily : bool)
    (w : World) (channel : GuildForumChannel) (forum_channel : ForumChannel) :
  result_of (get_forum_channel (Guild_id (guild w)) w) = inr (Some channel) →
  result_of (try_get_channel (GuildForumChannel_channel_id channel) w)
    = inr (Some (IsForumChannel forum_channel)) →
  let problem := Problem_init id title problem_id url difficulty description tags in
  let r := reopen_or_create_problem_thread env (problem, problem_tags) bot is_daily w in
  result_of r = inl (AttributeError "problem_frontend_id")
  ∧ (∀ live, result_of r ≠ inr (inr live, REOPEN))
  ∧ world_of r = w
  ∧ reads_only (trace_of r) = true
  ∧ EvRead ProblemThreadsTable ∉ trace_of r.
Proof.
  intros Hchannel Hforum. cbn zeta.
  rewrite (declared_problem_stops_reconciler _ _ _ _ _ _ _ _ _ _ _ _ _ Hchannel Hforum).
  unfold result_of at 1 2, world_of at 1, trace_of at 1 3. simpl.
  split; [done|]. split; [done|]. split; [done|].
  split; [apply get_forum_channel_read_only|].
  unfold get_forum_channel, bind, forum_channels_get, select_forum_channel, trace_of.
  simpl. destruct (forum_channels (self w) !! Guild_id (guild w)); simpl.
  - intros Hin. apply list_elem_of_singleton in Hin. discriminate.
  - destruct (List.find _ _); simpl; intros Hin;
      repeat (apply elem_of_cons in Hin as [Hin|Hin]; [discriminate|]);
      by apply elem_of_nil in Hin.
Qed.

(** C2.  What the code does in a guild whose configured channel is a live
    forum when the recorded thread is gone.  For a problem object as the
    declared class builds it, [AttributeError] is raised at the read of
    [problem_frontend_id]: the stale record is not deleted and nothing is
    created.  For an object on which that attribute can be read, the stale
    record is deleted first; when then [premium] cannot be read, or the
    embed cannot be built, the call raises that error: the record is gone,
    no thread is created or recorded, and [CREATE] is not returned. *)
Theorem reconcile_does_not_replace_stale_thread (bot : Bot) (is_daily : bool) (w : World)
    (channel : GuildForumChannel) (forum_channel : ForumChannel) :
  result_of (get_forum_channel (Guild_id (guild w)) w) = inr (Some channel) →
  result_of (try_get_channel (GuildForumChannel_channel_id channel) w)
    = inr (Some (IsForumChannel forum_channel)) →
  (∀ id title problem_id url difficulty description tags problem_tags,
     let problem := Problem_init id title problem_id url difficulty description tags in
     let r := reopen_or_create_problem_thread env (problem, problem_tags) bot is_daily w in
     result_of r = inl (AttributeError "problem_frontend_id")
     ∧ world_of r = w
     ∧ ∀ created, result_of r ≠ inr (inl created, CREATE))
  ∧ (∀ problem problem_tags problem_frontend_id stale e,
       getattr problem "problem_frontend_id" = inr problem_frontend_id →
       result_of (get_thread_by_problem_id env problem_frontend_id (Guild_id (guild w)) w)
       = inr (Some stale) →
       result_of (try_get_channel (ProblemThreads_thread_id stale) w) = inr None →
       getattr problem "premium" = inl e
       ∨ (∃ premium, getattr problem "premium" = inr premium)
         ∧ get_problem_desc_embed env problem problem_tags bot = inl e →
       let r :=
         reopen_or_create_problem_thread env (problem, problem_tags) bot is_daily w in
       result_of r = inl e
       ∧ world_of r = without_thread (ProblemThreads_thread_id stale) w
       ∧ List.find (fun r => ProblemThreads_thread_id r =? ProblemThreads_thread_id stale)
           (problem_threads_rows (database_manager (self (world_of r)))) = None
       ∧ problem_threads (self (world_of r)) !! ProblemThreads_thread_id stale = None
       ∧ guild (world_of r) = guild w
       ∧ ∀ created, result_of r ≠ inr (inl created, CREATE)).
Proof.
  intros Hchannel Hforum. split.
  - intros id title problem_id url difficulty description tags problem_tags. cbn zeta.
    rewrite (declared_problem_stops_reconciler _ _ _ _ _ _ _ _ _ _ _ _ _ Hchannel Hforum).
    by unfold result_of, world_of.
  - intros problem problem_tags pfid stale e Hid Hrecord Hgone Hfails. cbn zeta.
    assert (Hrow : is_Some (List.find (fun r => ProblemThreads_thread_id r =?
                                                ProblemThreads_thread_id stale)
                              (problem_threads_rows (database_manager (self w))))).
    { rewrite get_thread_by_problem_id_result in Hrecord.
      destruct (get_problem_with_frontend_id env pfid) as [[p ptags]|]; [|done].
      destruct (List.find _ (guild_forum_channel_rows _)) as [cfg|]; [|done].
      injection Hrecord as Hrecord. apply find_holds in Hrecord as [_ Hin].
      apply (find_is_Some _ _ stale Hin). apply Z.eqb_refl. }
    destruct (delete_thread_from_db_run (ProblemThreads_thread_id stale) w)
      as (t & Hdelete & _).
    destruct Hrow as [row Hrow]. rewrite Hrow in Hdelete.
    assert (Hcreate : ∃ t',
              _create_thread env forum_channel problem problem_tags bot
                (without_thread (ProblemThreads_thread_id stale) w)
              = (inl e, without_thread (ProblemThreads_thread_id stale) w, t')).
    { unfold _create_thread.
      destruct Hfails as [Hpremium|[[premium Hpremium] Hembed]]; eexists.
      - run_lift Hid. eapply bind_fails. unfold lift. by rewrite Hpremium.
      - run_lift Hid. run_lift Hpremium. eapply bind_fails. unfold lift.
        by rewrite Hembed. }
    destruct Hcreate as [t' Hcreate].
    assert (Hrun : ∃ t'',
              reopen_or_create_problem_thread env (problem, problem_tags) bot is_daily w
              = (inl e, without_thread (ProblemThreads_thread_id stale) w, t'')).
    { eexists. unfold reopen_or_create_problem_thread.
      eapply bind_runs; [apply guild_id_of_run|]. cbn beta.
      run_read get_forum_channel_read_only Hchannel.
      run_read try_get_channel_read_only Hforum.
      run_lift Hid.
      run_read (get_thread_by_problem_id_read_only env) Hrecord.
      run_read try_get_channel_read_only Hgone.
      eapply bind_runs; [exact Hdelete|]. cbn beta.
      eapply bind_fails. exact Hcreate. }
    destruct Hrun as [t'' ->]. unfold result_of, world_of. simpl.
    split; [done|]. split; [done|]. split; [apply find_filter_self|].
    split; [apply lookup_delete_eq|]. done.
Qed.

End DeclaredProblem.

(** ** The tags of a created thread *)

(** C4.  What the code does in guild 42 for the Easy problem 1: in a forum
    that has no tag yet, the four canonical tags are created and the thread
    is created with no applied tag; in a forum that has only "LeetCode", the
    three other tags are created and the thread carries "LeetCode" alone; in
    a forum that already has the four tags, no tag is created and the
    thread carries "LeetCode" and "Easy". *)
Theorem created_thread_misses_new_tags :
  let run tags :=
    reopen_or_create_problem_thread env0 (two_sum_patched, [array_tag]) bot0 false
      (world_fresh tags) in
  let created_tags tags : gset string :=
    list_to_set (omap (fun e => match e with EvCreateTag _ name => Some name | _ => None end)
                   (trace_of (run tags))) in
  let applied tags :=
    match result_of (run tags) with
    | inr (inl created, CREATE) => Some (Thread_applied_tags (thread created))
    | _ => None
    end in
  (created_tags [] = canonical_tags ∧ applied [] = Some [])
  ∧ (created_tags [tag 11 "LeetCode"] = {[ "Easy"; "Medium"; "Hard" ]}
     ∧ applied [tag 11 "LeetCode"] = Some [tag 11 "LeetCode"])
  ∧ (created_tags all_tags = ∅
     ∧ applied all_tags = Some [tag 11 "LeetCode"; tag 12 "Easy"]).
Proof.
  cbn zeta. repeat split; vm_compute; reflexivity.
Qed.

(** C8, as stated, fails on the lookup by problem: for problem 1 in guild
    42, with thread 500 recorded and cached, [get_thread_by_problem_id]
    returns the record after reading the two tables and no dictionary. *)
Lemma lookup_by_problem_reads_no_dictionary :
  let r := get_thread_by_problem_id env0 (VInt 1) 42 world_live in
  problem_threads (self world_live) !! 500 = Some record500
  ∧ result_of r = inr (Some record500)
  ∧ trace_of r = [EvRead ForumChannelTable; EvRead ProblemThreadsTable]
  ∧ dict_first (trace_of r) = false
  ∧ ¬ (∀ env problem_frontend_id guild_id w,
         dict_first (trace_of (get_thread_by_problem_id env problem_frontend_id guild_id w))
         = true).
Proof.
  cbn zeta. split; [reflexivity|]. split; [reflexivity|]. split; [reflexivity|].
  split; [reflexivity|].
  intros Hall. specialize (Hall env0 (VInt 1) 42 world_live). discriminate.
Qed.

(** ** The theorems at concrete worlds *)

Lemma coherent_world_stale : coherent (self world_stale).
Proof. unfold coherent. apply (bool_decide_unpack _). vm_compute. exact I. Defined.

Lemma keys_world_stale : primary_keys_unique (database_manager (self world_stale)).
Proof. unfold primary_keys_unique. apply (bool_decide_unpack _). vm_compute. exact I. Defined.

Lemma fresh_world_stale : ids_fresh world_stale.
Proof. unfold ids_fresh. apply (bool_decide_unpack _). vm_compute. exact I. Defined.

Lemma pairs_world_stale :
  one_thread_per_pair (problem_threads_rows (database_manager (self world_stale))).
Proof.
  intros r1 r2 H1 H2 _ _. simpl in H1, H2.
  apply list_elem_of_singleton in H1, H2. congruence.
Defined.

Lemma embed_two_sum :
  ∃ embed, get_problem_desc_embed env0 two_sum_patched [array_tag] bot0 = inr embed.
Proof. eexists. vm_compute. reflexivity. Defined.

(** At [world_live], with both attributes assigned on problem 1: thread 500
    is reopened, twice. *)
Lemma reconcile_reopens_live_thread_witness :
  result_of (get_forum_channel 42 world_live) = inr (Some config42)
  ∧ result_of (try_get_channel 100 world_live)
    = inr (Some (IsForumChannel (forum_with all_tags)))
  ∧ getattr two_sum_patched "problem_frontend_id" = inr (VInt 1)
  ∧ result_of (get_thread_by_problem_id env0 (VInt 1) 42 world_live) = inr (Some record500)
  ∧ result_of (try_get_channel 500 world_live) = inr (Some (IsThread thread500))
  ∧ let first :=
      reopen_or_create_problem_thread env0 (two_sum_patched, [array_tag]) bot0 false
        world_live in
    result_of first = inr (inr thread500, REOPEN)
    ∧ world_of first = world_live
    ∧ no_writes (trace_of first) = true
    ∧ result_of (reopen_or_create_problem_thread env0 (two_sum_patched, [array_tag]) bot0
                   false (world_of first))
      = inr (inr thread500, REOPEN).
Proof.
  assert (H1 : result_of (get_forum_channel (Guild_id (guild world_live)) world_live)
               = inr (Some config42)) by reflexivity.
  assert (H2 : result_of (try_get_channel (GuildForumChannel_channel_id config42) world_live)
               = inr (Some (IsForumChannel (forum_with all_tags)))) by reflexivity.
  assert (H3 : getattr (two_sum_patched, [array_tag]).1 "problem_frontend_id"
               = inr (VInt 1)) by reflexivity.
  assert (H4 : result_of (get_thread_by_problem_id env0 (VInt 1)
                            (Guild_id (guild world_live)) world_live)
               = inr (Some record500)) by reflexivity.
  assert (H5 : result_of (try_get_channel (ProblemThreads_thread_id record500) world_live)
               = inr (Some (IsThread thread500))) by reflexivity.
  destruct (reconcile_reopens_live_thread env0 (two_sum_patched, [array_tag]) bot0 false
              world_live config42 (forum_with all_tags) (VInt 1) record500 thread500
              H1 H2 H3 H4 H5)
    as (Hfirst & Hworld & _ & Hwrites & Hsecond & _).
  repeat split; assumption.
Defined.

(** C3 at [world_unconfigured]. *)
Lemma reconcile_not_configured_witness :
  forum_channels (self world_unconfigured) !! 42 = None
  ∧ List.find (fun r => GuildForumChannel_guild_id r =? 42)
      (guild_forum_channel_rows (database_manager (self world_unconfigured))) = None
  ∧ let r :=
      reopen_or_create_problem_thread env0 (two_sum_patched, [array_tag]) bot0 false
        world_unconfigured in
    result_of r = inl (ForumChannelNotFound not_configured_msg)
    ∧ world_of r = world_unconfigured
    ∧ no_writes (trace_of r) = true.
Proof.
  assert (H1 : forum_channels (self world_unconfigured)
               !! Guild_id (guild world_unconfigured) = None) by reflexivity.
  assert (H2 : List.find (fun r => GuildForumChannel_guild_id r =?
                                   Guild_id (guild world_unconfigured))
                 (guild_forum_channel_rows (database_manager (self world_unconfigured)))
               = None) by reflexivity.
  destruct (reconcile_not_configured env0 (two_sum_patched, [array_tag]) bot0 false
              world_unconfigured H1 H2)
    as (_ & Hresult & Hworld & _ & Hwrites).
  repeat split; assumption.
Defined.

(** C5 at [world_channel_gone] (the channel id does not resolve). *)
Lemma reconcile_channel_invalid_witness :
  result_of (get_forum_channel 42 world_channel_gone) = inr (Some config42)
  ∧ result_of (try_get_channel 100 world_channel_gone) = inr None
  ∧ is_forum None = false
  ∧ let r :=
      reopen_or_create_problem_thread env0 (two_sum_patched, [array_tag]) bot0 false
        world_channel_gone in
    result_of r = inl (ForumChannelNotFound channel_invalid_msg)
    ∧ world_of r = world_channel_gone
    ∧ no_writes (trace_of r) = true.
Proof.
  assert (H1 : result_of (get_forum_channel (Guild_id (guild world_channel_gone))
                            world_channel_gone) = inr (Some config42)) by reflexivity.
  assert (H2 : result_of (try_get_channel (GuildForumChannel_channel_id config42)
                            world_channel_gone) = inr None) by reflexivity.
  assert (H3 : is_forum None = false) by reflexivity.
  destruct (reconcile_channel_invalid env0 (two_sum_patched, [array_tag]) bot0 false
              world_channel_gone config42 None H1 H2 H3)
    as (Hresult & _ & _ & Hworld & _ & Hwrites).
  repeat split; assumption.
Defined.

(** C10 with [preview_len = 5], on plain and on accented text. *)
Lemma parse_problem_desc_cases_witness :
  0 ≤ preview_len env0
  ∧ parse_problem_desc env0 "" = "No description available."
  ∧ parse_problem_desc env0 "abcde" = "abcde"
  ∧ parse_problem_desc env0 "abcdef" = "abcde..."
  ∧ parse_problem_desc env0 "ééé" = "ééé"
  ∧ parse_problem_desc env0 "x ≤ y ≤ z" = "x ≤ y..."
  ∧ py_len "x ≤ y ≤ z" = 9%nat.
Proof.
  assert (H : 0 ≤ preview_len env0) by (simpl; lia).
  split; [exact H|].
  split; [exact (proj1 (parse_problem_desc_cases env0 "" H) eq_refl)|].
  split.
  { apply (proj1 (proj2 (parse_problem_desc_cases env0 "abcde" H))); [done|simpl; lia]. }
  split.
  { apply (proj1 (proj2 (proj2 (parse_problem_desc_cases env0 "abcdef" H)))). simpl. lia. }
  split.
  { apply (proj1 (proj2 (parse_problem_desc_cases env0 "ééé" H)));
      [done|vm_compute; discriminate]. }
  split.
  { apply (proj1 (proj2 (proj2 (parse_problem_desc_cases env0 "x ≤ y ≤ z" H)))).
    vm_compute. reflexivity. }
  exact (proj1 (proj2 (proj2 (proj2 (parse_problem_desc_cases env0 "x ≤ y ≤ z" H)))
                  [120; 32; 8804; 32; 121; 32; 8804; 32; 122]%N
                  ltac:(repeat constructor) eq_refl)).
Defined.

(** At [world_stale], with both attributes assigned on problem 1: thread 500
    is gone; a thread is created, and the next call reopens it. *)
Lemma reconcile_recreates_stale_thread_witness :
  coherent (self world_stale)
  ∧ ids_fresh world_stale
  ∧ one_thread_per_pair (problem_threads_rows (database_manager (self world_stale)))
  ∧ result_of (get_forum_channel 42 world_stale) = inr (Some config42)
  ∧ result_of (try_get_channel 100 world_stale)
    = inr (Some (IsForumChannel (forum_with all_tags)))
  ∧ getattr two_sum_patched "problem_frontend_id" = inr (VInt 1)
  ∧ getattr two_sum_patched "premium" = inr (VBool false)
  ∧ (∃ embed, get_problem_desc_embed env0 two_sum_patched [array_tag] bot0 = inr embed)
  ∧ result_of (get_thread_by_problem_id env0 (VInt 1) 42 world_stale) = inr (Some record500)
  ∧ result_of (try_get_channel 500 world_stale) = inr None
  ∧ let r :=
      reopen_or_create_problem_thread env0 (two_sum_patched, [array_tag]) bot0 false
        world_stale in
    ∃ created,
      result_of r = inr (inl created, CREATE)
      ∧ problem_threads (self (world_of r)) !! 500 = None
      ∧ is_Some (problem_threads (self (world_of r)) !! Thread_id (thread created))
      ∧ result_of (reopen_or_create_problem_thread env0 (two_sum_patched, [array_tag]) bot0
                     false (world_of r))
        = inr (inr (thread created), REOPEN).
Proof.
  assert (H1 : result_of (get_forum_channel (Guild_id (guild world_stale)) world_stale)
               = inr (Some config42)) by reflexivity.
  assert (H2 : result_of (try_get_channel (GuildForumChannel_channel_id config42) world_stale)
               = inr (Some (IsForumChannel (forum_with all_tags)))) by reflexivity.
  assert (H3 : getattr (two_sum_patched, [array_tag]).1 "problem_frontend_id"
               = inr (VInt 1)) by reflexivity.
  assert (H4 : getattr (two_sum_patched, [array_tag]).1 "premium" = inr (VBool false))
    by reflexivity.
  destruct embed_two_sum as [embed H5].
  assert (H6 : result_of (get_thread_by_problem_id env0 (VInt 1)
                            (Guild_id (guild world_stale)) world_stale)
               = inr (Some record500)) by reflexivity.
  assert (H7 : result_of (try_get_channel (ProblemThreads_thread_id record500) world_stale)
               = inr None) by reflexivity.
  destruct (reconcile_recreates_stale_thread env0 (two_sum_patched, [array_tag]) bot0 false
              world_stale config42 (forum_with all_tags) (VInt 1) (VBool false) embed
              record500 coherent_world_stale fresh_world_stale pairs_world_stale
              H1 H2 H3 H4 H5 H6 H7)
    as (created & row & Hcreate & _ & Hgone & _ & _ & _ & Hcached & _ & Hlive & _ & _
        & _ & Hnext).
  repeat (split; [first [assumption | exact coherent_world_stale
                        | exact fresh_world_stale | exact pairs_world_stale
                        | by exists embed]|]).
  cbn zeta. exists created. split; [exact Hcreate|]. split; [exact Hgone|].
  split; [by rewrite Hcached|].
  apply (Hnext _ (forum_with all_tags) (thread created) eq_refl eq_refl);
    [|exact Hlive].
  vm_compute. reflexivity.
Defined.

(** C7 at [world_stale], for problem 1 in forum 100. *)
Lemma created_thread_title_and_body_witness :
  getattr two_sum_patched "problem_frontend_id" = inr (VInt 1)
  ∧ getattr two_sum_patched "premium" = inr (VBool false)
  ∧ (∃ embed, get_problem_desc_embed env0 two_sum_patched [array_tag] bot0 = inr embed)
  ∧ result_of (get_forum_channel 42 world_stale) = inr (Some config42)
  ∧ get_problem_with_frontend_id env0 (VInt 1) = Some (two_sum_patched, [array_tag])
  ∧ coherent (self world_stale)
  ∧ ids_fresh world_stale
  ∧ ∃ created,
      result_of (_create_thread env0 (forum_with all_tags) two_sum_patched [array_tag] bot0
                   world_stale) = inr created
      ∧ has_title_and_body two_sum_patched created
      ∧ Thread_name (thread created) = "1. Two Sum"
      ∧ Message_content (message created) = "https://leetcode.com/problems/two-sum/" +:+ LF.
Proof.
  assert (H1 : getattr two_sum_patched "problem_frontend_id" = inr (VInt 1))
    by reflexivity.
  assert (H2 : getattr two_sum_patched "premium" = inr (VBool false)) by reflexivity.
  destruct embed_two_sum as [embed H3].
  assert (H4 : result_of (get_forum_channel (Guild_id (guild world_stale)) world_stale)
               = inr (Some config42)) by reflexivity.
  assert (H5 : get_problem_with_frontend_id env0 (VInt 1)
               = Some (two_sum_patched, [array_tag])) by reflexivity.
  destruct (proj2 (proj2 (created_thread_title_and_body env0 two_sum_patched [array_tag]
                            bot0))
              (forum_with all_tags) world_stale (VInt 1) (VBool false) embed config42
              two_sum_patched [array_tag] H1 H2 H3 H4 H5
              coherent_world_stale fresh_world_stale)
    as (created & Hcreated & Hshape & _).
  repeat (split; [first [assumption | exact coherent_world_stale
                        | exact fresh_world_stale | by exists embed]|]).
  exists created. split; [exact Hcreated|]. split; [exact Hshape|].
  destruct Hshape as (pfid & premium & Hid & Hpremium & Hname & Hbody & _).
  rewrite H1 in Hid. injection Hid as <-.
  rewrite H2 in Hpremium. injection Hpremium as <-.
  split; [exact Hname|exact Hbody].
Defined.

(** C8 at [world_stale]: guild 42 is pointed at channel 777, thread 600 is
    recorded, thread 500 is deleted. *)
Lemma registry_writes_through_witness :
  primary_keys_unique (database_manager (self world_stale))
  ∧ coherent (self world_stale)
  ∧ coherent (self (world_of (add_forum_channel_to_db 42 777 world_stale)))
  ∧ coherent (self (world_of (create_thread_in_db env0 (VInt 1) 42 600 world_stale)))
  ∧ coherent (self (world_of (delete_thread_from_db 500 world_stale)))
  ∧ problem_threads (self (world_of (delete_thread_from_db 500 world_stale))) !! 500 = None
  ∧ store_then_dict (trace_of (create_thread_in_db env0 (VInt 1) 42 600 world_stale)) = true.
Proof.
  destruct (registry_writes_through env0 42 777 600 (VInt 1) world_stale
              keys_world_stale coherent_world_stale)
    as ((_ & _ & _ & Hset & _) & (Horder & _ & Hrecord & _) & _).
  destruct (registry_writes_through env0 42 777 500 (VInt 1) world_stale
              keys_world_stale coherent_world_stale)
    as (_ & _ & (_ & _ & _ & Hremove & _ & Hgone) & _).
  split; [exact keys_world_stale|]. split; [exact coherent_world_stale|].
  split; [exact Hset|]. split; [exact Hrecord|]. split; [exact Hremove|].
  split; [exact Hgone|exact Horder].
Defined.

(** C1 at [world_live]: thread 500 is recorded for problem 1 and is live,
    and problem 1 is the object the declared class builds. *)
Lemma reconcile_does_not_reopen_for_declared_problem_witness :
  result_of (get_forum_channel 42 world_live) = inr (Some config42)
  ∧ result_of (try_get_channel 100 world_live)
    = inr (Some (IsForumChannel (forum_with all_tags)))
  ∧ record500 ∈ problem_threads_rows (database_manager (self world_live))
  ∧ ProblemThreads_problem_db_id record500 = Problem_id two_sum
  ∧ result_of (try_get_channel 500 world_live) = inr (Some (IsThread thread500))
  ∧ let r :=
      reopen_or_create_problem_thread (env_of two_sum) (two_sum, [array_tag]) bot0 false
        world_live in
    result_of r = inl (AttributeError "problem_frontend_id")
    ∧ result_of r ≠ inr (inr thread500, REOPEN)
    ∧ world_of r = world_live.
Proof.
  assert (H1 : result_of (get_forum_channel (Guild_id (guild world_live)) world_live)
               = inr (Some config42)) by reflexivity.
  assert (H2 : result_of (try_get_channel (GuildForumChannel_channel_id config42) world_live)
               = inr (Some (IsForumChannel (forum_with all_tags)))) by reflexivity.
  destruct (reconcile_does_not_reopen_for_declared_problem (env_of two_sum)
              1 "Two Sum" 1 "https://leetcode.com/problems/two-sum/" 1
              (Some "Given an array of integers ...") [] [array_tag] bot0 false
              world_live config42 (forum_with all_tags) H1 H2)
    as (Hres & Hno & Hworld & _).
  split; [exact H1|]. split; [exact H2|]. split; [apply list_elem_of_here|].
  split; [reflexivity|]. split; [reflexivity|].
  split; [exact Hres|]. split; [exact (Hno thread500)|exact Hworld].
Defined.

(** C2 at [world_stale], where thread 500 is recorded and gone: for the
    object the declared class builds, and for the object with both
    attributes and a bot that has not cached the developer. *)
Lemma reconcile_does_not_replace_stale_thread_witness :
  result_of (get_forum_channel 42 world_stale) = inr (Some config42)
  ∧ result_of (try_get_channel 100 world_stale)
    = inr (Some (IsForumChannel (forum_with all_tags)))
  ∧ result_of (try_get_channel 500 world_stale) = inr None
  ∧ (let r :=
       reopen_or_create_problem_thread (env_of two_sum) (two_sum, [array_tag]) bot0 false
         world_stale in
     result_of r = inl (AttributeError "problem_frontend_id")
     ∧ world_of r = world_stale)
  ∧ getattr two_sum_patched "problem_frontend_id" = inr (VInt 1)
  ∧ result_of (get_thread_by_problem_id env0 (VInt 1) 42 world_stale) = inr (Some record500)
  ∧ getattr two_sum_patched "premium" = inr (VBool false)
  ∧ get_problem_desc_embed env0 two_sum_patched [array_tag] bot_without_dev
    = inl AssertionError
  ∧ (let r :=
       reopen_or_create_problem_thread env0 (two_sum_patched, [array_tag]) bot_without_dev
         false world_stale in
     result_of r = inl AssertionError
     ∧ problem_threads_rows (database_manager (self (world_of r))) = []
     ∧ problem_threads (self (world_of r)) !! 500 = None
     ∧ guild (world_of r) = guild world_stale).
Proof.
  assert (H1 : result_of (get_forum_channel (Guild_id (guild world_stale)) world_stale)
               = inr (Some config42)) by reflexivity.
  assert (H2 : result_of (try_get_channel (GuildForumChannel_channel_id config42) world_stale)
               = inr (Some (IsForumChannel (forum_with all_tags)))) by reflexivity.
  assert (H3 : result_of (try_get_channel (ProblemThreads_thread_id record500) world_stale)
               = inr None) by reflexivity.
  assert (H4 : getattr two_sum_patched "problem_frontend_id" = inr (VInt 1))
    by reflexivity.
  assert (H5 : result_of (get_thread_by_problem_id env0 (VInt 1)
                            (Guild_id (guild world_stale)) world_stale)
               = inr (Some record500)) by reflexivity.
  assert (H6 : getattr two_sum_patched "premium" = inr (VBool false)) by reflexivity.
  assert (H7 : get_problem_desc_embed env0 two_sum_patched [array_tag] bot_without_dev
               = inl AssertionError) by reflexivity.
  destruct (proj1 (reconcile_does_not_replace_stale_thread (env_of two_sum) bot0 false
                     world_stale config42 (forum_with all_tags) H1 H2)
              1 "Two Sum" 1 "https://leetcode.com/problems/two-sum/" 1
              (Some "Given an array of integers ...") [] [array_tag])
    as (Hres & Hworld & _).
  destruct (proj2 (reconcile_does_not_replace_stale_thread env0 bot_without_dev false
                     world_stale config42 (forum_with all_tags) H1 H2)
              two_sum_patched [array_tag] (VInt 1) record500 AssertionError H4 H5 H3
              (or_intror (conj (ex_intro _ (VBool false) H6) H7)))
    as (Hres' & Hworld' & _ & Hdict & Hguild & _).
  split; [exact H1|]. split; [exact H2|]. split; [exact H3|].
  split; [split; [exact Hres|exact Hworld]|].
  split; [exact H4|]. split; [exact H5|]. split; [exact H6|]. split; [exact H7|].
  cbn zeta. split; [exact Hres'|]. split; [by rewrite Hworld'|].
  split; [exact Hdict|exact Hguild].
Defined.

(** * Further properties *)

(** ** The forum channel of a guild *)

Lemma find_overwritten (g : Z) (old new : GuildForumChannel) (rows : list GuildForumChannel) :
  List.find (fun r => GuildForumChannel_guild_id r =? g) rows = Some old →
  GuildForumChannel_guild_id new = g →
  List.find (fun r => GuildForumChannel_guild_id r =? g)
    (map (fun r => if GuildForumChannel_id r =? GuildForumChannel_id old then new else r)
       rows) = Some new.
Proof.
  intros Hfind Hguild. induction rows as [|x rows IH]; [done|]. simpl in *.
  destruct (Z.eqb_spec (GuildForumChannel_guild_id x) g) as [Hx|Hx].
  - injection Hfind as ->. by rewrite Z.eqb_refl, Hguild, Z.eqb_refl.
  - destruct (GuildForumChannel_id x =? GuildForumChannel_id old).
    + by rewrite Hguild, Z.eqb_refl.
    + destruct (Z.eqb_spec (GuildForumChannel_guild_id x) g); [done|]. by apply IH.
Qed.

Lemma overwrite_twice (k : Z) (new : GuildForumChannel) (rows : list GuildForumChannel) :
  GuildForumChannel_id new = k →
  map (fun r => if GuildForumChannel_id r =? k then new else r)
    (map (fun r => if GuildForumChannel_id r =? k then new else r) rows)
  = map (fun r => if GuildForumChannel_id r =? k then new else r) rows.
Proof.
  intros Hk. rewrite map_map. apply map_ext. intros x.
  destruct (Z.eqb_spec (GuildForumChannel_id x) k) as [Hx|Hx].
  - by rewrite Hk, Z.eqb_refl.
  - by destruct (Z.eqb_spec (GuildForumChannel_id x) k).
Qed.

(** What [add_forum_channel_to_db] leaves, in each of its two branches. *)
Lemma add_forum_channel_to_db_world (guild_id channel_id : Z) (w : World) :
  let rows := guild_forum_channel_rows (database_manager (self w)) in
  let threads := problem_threads_rows (database_manager (self w)) in
  world_of (add_forum_channel_to_db guild_id channel_id w)
  = match List.find (fun r => GuildForumChannel_guild_id r =? guild_id) rows with
    | Some old =>
      let new := {| GuildForumChannel_id := GuildForumChannel_id old;
                    GuildForumChannel_guild_id := GuildForumChannel_guild_id old;
                    GuildForumChannel_channel_id := channel_id |} in
      {| self :=
           {| database_manager :=
                {| guild_forum_channel_rows :=
                     map (fun r => if GuildForumChannel_id r =? GuildForumChannel_id old
                                   then new else r) rows;
                   problem_threads_rows := threads |};
              problem_threads := problem_threads (self w);
              forum_channels := <[guild_id := new]> (forum_channels (self w)) |};
         guild := guild w |}
    | None =>
      let new := {| GuildForumChannel_id := next_primary_key rows;
                    GuildForumChannel_guild_id := guild_id;
                    GuildForumChannel_channel_id := channel_id |} in
      {| self :=
           {| database_manager :=
                {| guild_forum_channel_rows := rows ++ [new];
                   problem_threads_rows := threads |};
              problem_threads := problem_threads (self w);
              forum_channels := <[guild_id := new]> (forum_channels (self w)) |};
         guild := guild w |}
    end.
Proof.
  cbn zeta.
  unfold add_forum_channel_to_db, bind, select_forum_channel, world_of. simpl.
  by destruct (List.find _ _).
Qed.

(** X1.  Whatever the registry held, after [add_forum_channel_to_db] the
    lookup of the guild returns a configuration with the channel that was
    set; a second call with another channel replaces it and adds no row. *)
Theorem forum_channel_set_then_get (guild_id channel_id channel_id' : Z) (w : World) :
  let w1 := world_of (add_forum_channel_to_db guild_id channel_id w) in
  let w2 := world_of (add_forum_channel_to_db guild_id channel_id' w1) in
  (∃ row, result_of (get_forum_channel guild_id w1) = inr (Some row)
          ∧ GuildForumChannel_guild_id row = guild_id
          ∧ GuildForumChannel_channel_id row = channel_id)
  ∧ (∃ row, result_of (get_forum_channel guild_id w2) = inr (Some row)
            ∧ GuildForumChannel_guild_id row = guild_id
            ∧ GuildForumChannel_channel_id row = channel_id')
  ∧ length (guild_forum_channel_rows (database_manager (self w2)))
    = length (guild_forum_channel_rows (database_manager (self w1))).
Proof.
  cbn zeta.
  assert (Hget : ∀ c w0,
            ∃ row, result_of (get_forum_channel guild_id
                                (world_of (add_forum_channel_to_db guild_id c w0)))
                   = inr (Some row)
                   ∧ GuildForumChannel_guild_id row = guild_id
                   ∧ GuildForumChannel_channel_id row = c
                   ∧ List.find (fun r => GuildForumChannel_guild_id r =? guild_id)
                       (guild_forum_channel_rows
                          (database_manager
                             (self (world_of (add_forum_channel_to_db guild_id c w0)))))
                     = Some row).
  { intros c w0. rewrite get_forum_channel_result, add_forum_channel_to_db_world.
    cbn zeta.
    destruct (List.find _ _) as [old|] eqn:Hfind; simpl; rewrite lookup_insert_eq.
    - apply find_holds in Hfind as Hold. destruct Hold as [Hguild%Z.eqb_eq _].
      eexists. split; [done|]. split; [done|]. split; [done|].
      by apply find_overwritten.
    - eexists. split; [done|]. split; [done|]. split; [done|].
      rewrite find_app_None by done. simpl. by rewrite Z.eqb_refl. }
  split; [|split].
  - destruct (Hget channel_id w) as (row & ? & ? & ? & _). by exists row.
  - destruct (Hget channel_id' (world_of (add_forum_channel_to_db guild_id channel_id w)))
      as (row & ? & ? & ? & _). by exists row.
  - destruct (Hget channel_id w) as (row & _ & _ & _ & Hfind).
    rewrite (add_forum_channel_to_db_world guild_id channel_id'). cbn zeta.
    rewrite Hfind. simpl. by rewrite length_map.
Qed.

(** X2.  [add_forum_channel_to_db] is an upsert: a second call with the
    same guild and channel leaves the world the first call left. *)
Theorem add_forum_channel_to_db_idempotent (guild_id channel_id : Z) (w : World) :
  let w1 := world_of (add_forum_channel_to_db guild_id channel_id w) in
  world_of (add_forum_channel_to_db guild_id channel_id w1) = w1.
Proof.
  cbn zeta. rewrite (add_forum_channel_to_db_world guild_id channel_id w). cbn zeta.
  destruct (List.find _ _) as [old|] eqn:Hfind.
  - apply find_holds in Hfind as Hold. destruct Hold as [Hguild%Z.eqb_eq _].
    rewrite add_forum_channel_to_db_world. cbn zeta. simpl.
    rewrite (find_overwritten guild_id old
               {| GuildForumChannel_id := GuildForumChannel_id old;
                  GuildForumChannel_guild_id := GuildForumChannel_guild_id old;
                  GuildForumChannel_channel_id := channel_id |} _ Hfind Hguild).
    simpl. rewrite overwrite_twice by done. by rewrite insert_insert_eq.
  - rewrite add_forum_channel_to_db_world. cbn zeta. simpl.
    rewrite find_app_None by done. simpl. rewrite Z.eqb_refl. simpl.
    rewrite map_app. simpl. rewrite Z.eqb_refl.
    rewrite overwrite_absent by apply next_primary_key_fresh.
    by rewrite insert_insert_eq.
Qed.

Lemma overwrite_guild_ids (old new : GuildForumChannel) (rows : list GuildForumChannel) :
  NoDup (map GuildForumChannel_id rows) →
  old ∈ rows →
  GuildForumChannel_guild_id new = GuildForumChannel_guild_id old →
  map GuildForumChannel_guild_id
    (map (fun r => if GuildForumChannel_id r =? GuildForumChannel_id old then new else r)
       rows)
  = map GuildForumChannel_guild_id rows.
Proof.
  intros Hnodup Hin Hguild. induction rows as [|x rows IH]; [done|].
  simpl in *. apply NoDup_cons in Hnodup as [Hx Hnodup].
  apply elem_of_cons in Hin as [->|Hin].
  - rewrite Z.eqb_refl, Hguild. f_equal.
    rewrite overwrite_absent by done. done.
  - destruct (Z.eqb_spec (GuildForumChannel_id x) (GuildForumChannel_id old)) as [Heq|_].
    + exfalso. apply Hx. rewrite Heq. by apply list_elem_of_fmap_2.
    + f_equal. by apply IH.
Qed.

(** [add_forum_channel_to_db] touches the forum channels only. *)
Lemma add_forum_channel_to_db_keeps_threads (guild_id channel_id : Z) (w : World) :
  let w1 := world_of (add_forum_channel_to_db guild_id channel_id w) in
  problem_threads_rows (database_manager (self w1))
  = problem_threads_rows (database_manager (self w))
  ∧ problem_threads (self w1) = problem_threads (self w)
  ∧ guild w1 = guild w.
Proof.
  cbn zeta. rewrite add_forum_channel_to_db_world. cbn zeta.
  by destruct (List.find (fun r => GuildForumChannel_guild_id r =? guild_id)
                 (guild_forum_channel_rows (database_manager (self w)))).
Qed.

Section ForumChannelFrame.
Context (env : Env).

(** X3.  With unique primary keys, [add_forum_channel_to_db] for one guild
    changes nothing for another guild: its configuration reads as before,
    and so does the lookup of its threads by problem; the thread table, the
    thread dictionary and the platform are untouched. *)
Theorem add_forum_channel_to_db_other_guild (guild_id channel_id guild_id' : Z)
    (problem_frontend_id : PyVal) (w : World) :
  primary_keys_unique (database_manager (self w)) →
  guild_id' ≠ guild_id →
  let w1 := world_of (add_forum_channel_to_db guild_id channel_id w) in
  result_of (get_forum_channel guild_id' w1) = result_of (get_forum_channel guild_id' w)
  ∧ result_of (get_thread_by_problem_id env problem_frontend_id guild_id' w1)
    = result_of (get_thread_by_problem_id env problem_frontend_id guild_id' w)
  ∧ problem_threads_rows (database_manager (self w1))
    = problem_threads_rows (database_manager (self w))
  ∧ problem_threads (self w1) = problem_threads (self w)
  ∧ guild w1 = guild w.
Proof.
  intros Hkeys Hne. cbn zeta.
  assert (Hrows : List.find (fun r => GuildForumChannel_guild_id r =? guild_id')
            (guild_forum_channel_rows
               (database_manager
                  (self (world_of (add_forum_channel_to_db guild_id channel_id w)))))
          = List.find (fun r => GuildForumChannel_guild_id r =? guild_id')
              (guild_forum_channel_rows (database_manager (self w)))).
  { rewrite add_forum_channel_to_db_world. cbn zeta.
    destruct (List.find (fun r => GuildForumChannel_guild_id r =? guild_id)
                (guild_forum_channel_rows (database_manager (self w))))
      as [old|] eqn:Hfind; simpl.
    - apply find_holds in Hfind as Hold. destruct Hold as [Hguild%Z.eqb_eq _].
      rewrite (find_overwrite guild_id guild_id' old
                 {| GuildForumChannel_id := GuildForumChannel_id old;
                    GuildForumChannel_guild_id := GuildForumChannel_guild_id old;
                    GuildForumChannel_channel_id := channel_id |} _ Hkeys Hfind Hguild).
      by rewrite decide_False.
    - destruct (List.find (fun r => GuildForumChannel_guild_id r =? guild_id')
                  (guild_forum_channel_rows (database_manager (self w))))
        as [other|] eqn:Hother.
      + by apply find_app_Some.
      + rewrite find_app_None by done. simpl.
        by destruct (Z.eqb_spec guild_id guild_id'); [congruence|]. }
  destruct (add_forum_channel_to_db_keeps_threads guild_id channel_id w)
    as (Hthreads & Hdict & Hguild).
  split; [|split; [|done]].
  - rewrite !get_forum_channel_result, Hrows.
    rewrite add_forum_channel_to_db_world. cbn zeta.
    destruct (List.find (fun r => GuildForumChannel_guild_id r =? guild_id)
                (guild_forum_channel_rows (database_manager (self w)))); simpl;
      by rewrite lookup_insert_ne.
  - by rewrite !get_thread_by_problem_id_result, Hrows, Hthreads.
Qed.

(** X4.  For a guild that is configured, [add_forum_channel_to_db] keeps
    the primary key of its row, so the threads recorded for the guild stay
    attached to it: the lookup by problem returns what it returned before
    the channel was changed. *)
Theorem recorded_threads_follow_the_guild (guild_id channel_id : Z)
    (problem_frontend_id : PyVal) (w : World) (old : GuildForumChannel) :
  List.find (fun r => GuildForumChannel_guild_id r =? guild_id)
    (guild_forum_channel_rows (database_manager (self w))) = Some old →
  let w1 := world_of (add_forum_channel_to_db guild_id channel_id w) in
  (∃ new, result_of (get_forum_channel guild_id w1) = inr (Some new)
          ∧ GuildForumChannel_id new = GuildForumChannel_id old
          ∧ GuildForumChannel_channel_id new = channel_id)
  ∧ result_of (get_thread_by_problem_id env problem_frontend_id guild_id w1)
    = result_of (get_thread_by_problem_id env problem_frontend_id guild_id w).
Proof.
  intros Hfind. cbn zeta.
  apply find_holds in Hfind as Hold. destruct Hold as [Hguild%Z.eqb_eq _].
  rewrite get_forum_channel_result, !get_thread_by_problem_id_result.
  rewrite add_forum_channel_to_db_world. cbn zeta. rewrite Hfind. simpl.
  rewrite lookup_insert_eq.
  rewrite (find_overwritten guild_id old
             {| GuildForumChannel_id := GuildForumChannel_id old;
                GuildForumChannel_guild_id := GuildForumChannel_guild_id old;
                GuildForumChannel_channel_id := channel_id |} _ Hfind Hguild).
  split; [by eexists|]. done.
Qed.

End ForumChannelFrame.

(** X5.  [add_forum_channel_to_db] keeps one row per guild: from a table
    with unique primary keys and unique guild ids it leaves such a table,
    with one row more exactly when the guild had none. *)
Theorem add_forum_channel_to_db_one_row_per_guild (guild_id channel_id : Z) (w : World) :
  let rows := guild_forum_channel_rows (database_manager (self w)) in
  let rows' :=
    guild_forum_channel_rows
      (database_manager (self (world_of (add_forum_channel_to_db guild_id channel_id w)))) in
  NoDup (map GuildForumChannel_id rows) →
  NoDup (map GuildForumChannel_guild_id rows) →
  NoDup (map GuildForumChannel_id rows')
  ∧ NoDup (map GuildForumChannel_guild_id rows')
  ∧ (guild_id ∈ map GuildForumChannel_guild_id rows → length rows' = length rows)
  ∧ (guild_id ∉ map GuildForumChannel_guild_id rows → length rows' = S (length rows)).
Proof.
  cbn zeta. intros Hkeys Hguilds.
  rewrite add_forum_channel_to_db_world. cbn zeta.
  destruct (List.find _ _) as [old|] eqn:Hfind; simpl.
  - apply find_holds in Hfind as [Hguild%Z.eqb_eq Hin].
    rewrite overwrite_keys by done. rewrite overwrite_guild_ids by done.
    split; [done|]. split; [done|]. rewrite length_map. split; [done|].
    intros Hnot. exfalso. apply Hnot. rewrite <- Hguild. by apply list_elem_of_fmap_2.
  - rewrite !map_app, length_app. simpl.
    assert (Hnone : guild_id ∉ map GuildForumChannel_guild_id
                                 (guild_forum_channel_rows (database_manager (self w)))).
    { intros (r & Hr & Hin)%list_elem_of_fmap.
      apply list_elem_of_In in Hin.
      pose proof (List.find_none _ _ Hfind r Hin) as Hfalse. simpl in Hfalse.
      rewrite <- Hr in Hfalse. by rewrite Z.eqb_refl in Hfalse. }
    split.
    { apply NoDup_app. split; [done|]. split; [|apply NoDup_singleton].
      intros k Hk Hk'. apply list_elem_of_singleton in Hk'. subst k.
      by apply next_primary_key_fresh in Hk. }
    split.
    { apply NoDup_app. split; [done|]. split; [|apply NoDup_singleton].
      intros k Hk Hk'. apply list_elem_of_singleton in Hk'. by subst k. }
    split; [done|]. intros _. lia.
Qed.

(** X3 at [world_stale]: configuring guild 43 leaves guild 42 as it was. *)
Lemma add_forum_channel_to_db_other_guild_witness :
  primary_keys_unique (database_manager (self world_stale))
  ∧ 42 ≠ 43
  ∧ let w1 := world_of (add_forum_channel_to_db 43 101 world_stale) in
    result_of (get_forum_channel 42 w1) = inr (Some config42)
    ∧ result_of (get_thread_by_problem_id env0 (VInt 1) 42 w1) = inr (Some record500).
Proof.
  assert (Hne : 42 ≠ 43) by lia.
  destruct (add_forum_channel_to_db_other_guild env0 43 101 42 (VInt 1) world_stale
              keys_world_stale Hne) as (H1 & H2 & _).
  split; [exact keys_world_stale|]. split; [exact Hne|]. split; [exact H1|exact H2].
Defined.

(** X4 at [world_live]: guild 42 moves to forum 101 and keeps thread 500. *)
Lemma recorded_threads_follow_the_guild_witness :
  List.find (fun r => GuildForumChannel_guild_id r =? 42)
    (guild_forum_channel_rows (database_manager (self world_live))) = Some config42
  ∧ let w1 := world_of (add_forum_channel_to_db 42 101 world_live) in
    result_of (get_thread_by_problem_id env0 (VInt 1) 42 w1) = inr (Some record500).
Proof.
  assert (H : List.find (fun r => GuildForumChannel_guild_id r =? 42)
                (guild_forum_channel_rows (database_manager (self world_live)))
              = Some config42) by reflexivity.
  split; [exact H|].
  exact (proj2 (recorded_threads_follow_the_guild env0 42 101 (VInt 1) world_live
                  config42 H)).
Defined.

(** X5 at [world_stale], for a guild that has a row and for one that has
    none. *)
Lemma add_forum_channel_to_db_one_row_per_guild_witness :
  let rows := guild_forum_channel_rows (database_manager (self world_stale)) in
  NoDup (map GuildForumChannel_id rows)
  ∧ NoDup (map GuildForumChannel_guild_id rows)
  ∧ length (guild_forum_channel_rows
              (database_manager (self (world_of (add_forum_channel_to_db 42 101 world_stale)))))
    = 1%nat
  ∧ length (guild_forum_channel_rows
              (database_manager (self (world_of (add_forum_channel_to_db 43 101 world_stale)))))
    = 2%nat.
Proof.
  cbn zeta.
  assert (Hguilds : NoDup (map GuildForumChannel_guild_id
                             (guild_forum_channel_rows
                                (database_manager (self world_stale))))).
  { apply (bool_decide_unpack _). vm_compute. exact I. }
  split; [exact keys_world_stale|]. split; [exact Hguilds|]. split.
  - apply (add_forum_channel_to_db_one_row_per_guild 42 101 world_stale
             keys_world_stale Hguilds).
    apply (bool_decide_unpack _). vm_compute. exact I.
  - apply (add_forum_channel_to_db_one_row_per_guild 43 101 world_stale
             keys_world_stale Hguilds).
    apply (bool_decide_unpack _). vm_compute. exact I.
Defined.

(** ** Thread records *)

Section ThreadRecords.
Context (env : Env).

(** Every run of [create_thread_in_db]: the three ways it fails, each
    before anything is written, and what it leaves when it returns. *)
Lemma create_thread_in_db_run (problem_frontend_id : PyVal) (guild_id thread_id : Z)
    (w : World) :
  let r := create_thread_in_db env problem_frontend_id guild_id thread_id w in
  match result_of (get_forum_channel guild_id w) with
  | inr (Some cfg) =>
    match get_problem_with_frontend_id env problem_frontend_id with
    | Some (p, _) =>
      let row := {| ProblemThreads_thread_id := thread_id;
                    ProblemThreads_problem_db_id := Problem_id p;
                    ProblemThreads_forum_channel_db_id := GuildForumChannel_id cfg |} in
      if existsb (fun r => ProblemThreads_thread_id r =? thread_id)
           (problem_threads_rows (database_manager (self w)))
      then result_of r = inl IntegrityError
           ∧ world_of r = w ∧ reads_only (trace_of r) = true
      else
        result_of r = inr tt
        ∧ world_of r
          = {| self :=
                 {| database_manager :=
                      {| guild_forum_channel_rows :=
                           guild_forum_channel_rows (database_manager (self w));
                         problem_threads_rows :=
                           problem_threads_rows (database_manager (self w)) ++ [row] |};
                    problem_threads :=
                      <[thread_id := default row (problem_threads (self w) !! thread_id)]>
                        (problem_threads (self w));
                    forum_channels := forum_channels (self w) |};
               guild := guild w |}
    | None =>
      result_of r
      = inl (ValueError
               ("Could not create ProblemThreads instance for problem ID " +:+
                py_str problem_frontend_id +:+ " in guild " +:+ pretty guild_id +:+
                " with thread ID " +:+ pretty thread_id +:+ "."))
      ∧ world_of r = w ∧ reads_only (trace_of r) = true
    end
  | _ =>
    result_of r
    = inl (ForumChannelNotFound
             ("Forum channel for guild " +:+ pretty guild_id +:+ " not found."))
    ∧ world_of r = w ∧ reads_only (trace_of r) = true
  end.
Proof.
  cbn zeta.
  destruct (get_forum_channel_total guild_id w) as (cfg & t1 & Hrun & Ht1).
  rewrite Hrun. unfold result_of at 1. simpl.
  destruct cfg as [cfg|].
  - destruct (get_problem_with_frontend_id env problem_frontend_id) as [[p tags]|]
      eqn:Hstore.
    + destruct (existsb (fun r => ProblemThreads_thread_id r =? thread_id)
                  (problem_threads_rows (database_manager (self w)))) eqn:Hfresh.
      * assert (∃ t, create_thread_in_db env problem_frontend_id guild_id thread_id w
                     = (inl IntegrityError, w, t) ∧ reads_only t = true)
          as (t & -> & Ht); [|done].
        eexists. split.
        -- unfold create_thread_in_db, create_thread_instance.
           eapply bind_runs.
           { eapply bind_runs; [exact Hrun|]. cbn beta iota. rewrite Hstore. reflexivity. }
           cbn beta iota. eapply bind_fails.
           unfold insert_problem_thread. simpl. rewrite Hfresh. reflexivity.
        -- rewrite !app_nil_r. exact Ht1.
      * assert (∃ t, create_thread_in_db env problem_frontend_id guild_id thread_id w
                     = (inr tt,
                        set_problem_threads
                          (<[thread_id :=
                               default {| ProblemThreads_thread_id := thread_id;
                                          ProblemThreads_problem_db_id := Problem_id p;
                                          ProblemThreads_forum_channel_db_id :=
                                            GuildForumChannel_id cfg |}
                                 (problem_threads (self w) !! thread_id)]>
                             (problem_threads (self w)))
                          (set_database
                             {| guild_forum_channel_rows :=
                                  guild_forum_channel_rows (database_manager (self w));
                                problem_threads_rows :=
                                  problem_threads_rows (database_manager (self w)) ++
                                  [{| ProblemThreads_thread_id := thread_id;
                                      ProblemThreads_problem_db_id := Problem_id p;
                                      ProblemThreads_forum_channel_db_id :=
                                        GuildForumChannel_id cfg |}] |} w), t))
          as (t & ->); [|done].
        eexists.
        unfold create_thread_in_db, create_thread_instance.
        eapply bind_runs.
        { eapply bind_runs; [exact Hrun|]. cbn beta iota. rewrite Hstore. reflexivity. }
        cbn beta iota. eapply bind_runs.
        { unfold insert_problem_thread. simpl. rewrite Hfresh. reflexivity. }
        cbn beta. eapply bind_runs.
        { apply read_only_run; [apply get_thread_by_thread_id_read_only|].
          rewrite get_thread_by_thread_id_result. simpl.
          rewrite find_app_None by (by apply find_existsb). simpl.
          rewrite Z.eqb_refl.
          instantiate (1 := Some (default _ (problem_threads (self w) !! thread_id))).
          by destruct (problem_threads (self w) !! thread_id). }
        cbn beta iota. reflexivity.
    + assert (∃ t, create_thread_in_db env problem_frontend_id guild_id thread_id w
                   = (inl (ValueError
                             ("Could not create ProblemThreads instance for problem ID " +:+
                              py_str problem_frontend_id +:+ " in guild " +:+
                              pretty guild_id +:+ " with thread ID " +:+
                              pretty thread_id +:+ ".")), w, t)
                     ∧ reads_only t = true)
        as (t & -> & Ht); [|done].
      eexists. split.
      * unfold create_thread_in_db, create_thread_instance.
        eapply bind_runs.
        { eapply bind_runs; [exact Hrun|]. cbn beta iota. rewrite Hstore. reflexivity. }
        cbn beta iota. reflexivity.
      * rewrite !app_nil_r. exact Ht1.
  - assert (∃ t, create_thread_in_db env problem_frontend_id guild_id thread_id w
                 = (inl (ForumChannelNotFound
                           ("Forum channel for guild " +:+ pretty guild_id +:+
                            " not found.")), w, t)
                   ∧ reads_only t = true)
      as (t & -> & Ht); [|done].
    eexists. split.
    + unfold create_thread_in_db, create_thread_instance.
      eapply bind_fails. eapply bind_runs; [exact Hrun|]. cbn beta iota. reflexivity.
    + rewrite !app_nil_r. exact Ht1.
Qed.

(** X6.  [create_thread_in_db] fails before it writes: in a guild without
    a configuration it raises [ForumChannelNotFound] whatever the problem
    is, for an unknown problem [ValueError]; every failure leaves the
    registry and the platform as they were and has only read; and the
    assertion on the row just added never fails. *)
Theorem create_thread_in_db_fails_before_writing (problem_frontend_id : PyVal)
    (guild_id thread_id : Z) (w : World) :
  let r := create_thread_in_db env problem_frontend_id guild_id thread_id w in
  (result_of (get_forum_channel guild_id w) = inr None →
   result_of r
   = inl (ForumChannelNotFound
            ("Forum channel for guild " +:+ pretty guild_id +:+ " not found.")))
  ∧ (∀ cfg, result_of (get_forum_channel guild_id w) = inr (Some cfg) →
            get_problem_with_frontend_id env problem_frontend_id = None →
            result_of r
            = inl (ValueError
                     ("Could not create ProblemThreads instance for problem ID " +:+
                      py_str problem_frontend_id +:+ " in guild " +:+ pretty guild_id +:+
                      " with thread ID " +:+ pretty thread_id +:+ ".")))
  ∧ (∀ e, result_of r = inl e →
          e ≠ AssertionError ∧ world_of r = w ∧ reads_only (trace_of r) = true).
Proof.
  cbn zeta.
  pose proof (create_thread_in_db_run problem_frontend_id guild_id thread_id w) as Hrun.
  cbn zeta in Hrun.
  destruct (result_of (get_forum_channel guild_id w)) as [e0|[cfg|]].
  - destruct Hrun as (Hres & Hw & Ht). split; [done|]. split; [done|].
    intros e He. rewrite Hres in He. by injection He as <-.
  - split; [done|]. split.
    + intros cfg' _ Hstore. rewrite Hstore in Hrun. by destruct Hrun.
    + intros e He.
      destruct (get_problem_with_frontend_id env problem_frontend_id) as [[p tags]|].
      * destruct (existsb _ _).
        -- destruct Hrun as (Hres & Hw & Ht). rewrite Hres in He. by injection He as <-.
        -- destruct Hrun as (Hres & _). congruence.
      * destruct Hrun as (Hres & Hw & Ht). rewrite Hres in He. by injection He as <-.
  - destruct Hrun as (Hres & Hw & Ht). split; [done|]. split; [done|].
    intros e He. rewrite Hres in He. by injection He as <-.
Qed.

(** X7.  When the dictionary already holds an entry under the thread id
    and the table has no such row, [create_thread_in_db] adds the row to
    the table and stores the old entry back: the lookup by thread id keeps
    returning the old entry, and the registry is not coherent unless the
    old entry is the new row. *)
Theorem create_thread_in_db_keeps_cached_entry (problem_frontend_id : PyVal)
    (guild_id thread_id : Z) (w : World) (old : ProblemThreads) :
  problem_threads (self w) !! thread_id = Some old →
  let r := create_thread_in_db env problem_frontend_id guild_id thread_id w in
  result_of r = inr tt →
  ∃ row,
    List.find (fun r => ProblemThreads_thread_id r =? thread_id)
      (problem_threads_rows (database_manager (self (world_of r)))) = Some row
    ∧ ProblemThreads_thread_id row = thread_id
    ∧ result_of (get_thread_by_thread_id thread_id (world_of r)) = inr (Some old)
    ∧ (old ≠ row → ¬ coherent (self (world_of r))).
Proof.
  intros Hold. cbn zeta. intros Hok.
  pose proof (create_thread_in_db_run problem_frontend_id guild_id thread_id w) as Hrun.
  cbn zeta in Hrun.
  destruct (result_of (get_forum_channel guild_id w)) as [e0|[cfg|]];
    [destruct Hrun as (Hres & _); congruence| |destruct Hrun as (Hres & _); congruence].
  destruct (get_problem_with_frontend_id env problem_frontend_id) as [[p tags]|];
    [|destruct Hrun as (Hres & _); congruence].
  destruct (existsb _ _) eqn:Hfresh; [destruct Hrun as (Hres & _); congruence|].
  destruct Hrun as (_ & ->). rewrite Hold. simpl.
  eexists. split.
  { rewrite find_app_None by (by apply find_existsb). simpl. by rewrite Z.eqb_refl. }
  split; [done|]. split.
  { rewrite get_thread_by_thread_id_result. simpl. by rewrite lookup_insert_eq. }
  intros Hne [_ Hthreads]. simpl in Hthreads.
  specialize (Hthreads thread_id old (lookup_insert_eq _ _ _)). simpl in Hthreads.
  rewrite find_app_None in Hthreads by (by apply find_existsb).
  simpl in Hthreads. rewrite Z.eqb_refl in Hthreads. congruence.
Qed.

(** X8.  In a coherent registry that has no thread for the problem in the
    guild, the thread that [create_thread_in_db] records is the one the
    lookup by problem and the lookup by thread id return afterwards. *)
Theorem recorded_thread_is_found (problem_frontend_id : PyVal) (guild_id thread_id : Z)
    (w : World) :
  coherent (self w) →
  result_of (get_thread_by_problem_id env problem_frontend_id guild_id w) = inr None →
  let r := create_thread_in_db env problem_frontend_id guild_id thread_id w in
  result_of r = inr tt →
  ∃ row,
    ProblemThreads_thread_id row = thread_id
    ∧ result_of (get_thread_by_problem_id env problem_frontend_id guild_id (world_of r))
      = inr (Some row)
    ∧ result_of (get_thread_by_thread_id thread_id (world_of r)) = inr (Some row).
Proof.
  intros Hcoh Hnone. cbn zeta. intros Hok.
  pose proof (create_thread_in_db_run problem_frontend_id guild_id thread_id w) as Hrun.
  cbn zeta in Hrun.
  rewrite get_forum_channel_result in Hrun.
  rewrite get_thread_by_problem_id_result in Hnone.
  assert (Hcfg : match forum_channels (self w) !! guild_id with
                 | Some c => Some c
                 | None => List.find (fun r => GuildForumChannel_guild_id r =? guild_id)
                             (guild_forum_channel_rows (database_manager (self w)))
                 end
                 = List.find (fun r => GuildForumChannel_guild_id r =? guild_id)
                     (guild_forum_channel_rows (database_manager (self w)))).
  { destruct (forum_channels (self w) !! guild_id) as [c|] eqn:Hc; [|done].
    symmetry. by apply (proj1 Hcoh). }
  rewrite Hcfg in Hrun.
  destruct (List.find (fun r => GuildForumChannel_guild_id r =? guild_id)
              (guild_forum_channel_rows (database_manager (self w)))) as [cfg|] eqn:Hfind;
    [|destruct Hrun as (Hres & _); congruence].
  destruct (get_problem_with_frontend_id env problem_frontend_id) as [[p tags]|]
    eqn:Hstore; [|destruct Hrun as (Hres & _); congruence].
  destruct (existsb _ _) eqn:Hfresh; [destruct Hrun as (Hres & _); congruence|].
  destruct Hrun as (_ & ->).
  rewrite (coherent_not_recorded thread_id w Hcoh) by (by apply find_existsb).
  simpl. eexists. split; [|split].
  2: { rewrite get_thread_by_problem_id_result, Hstore. simpl. rewrite Hfind.
       injection Hnone as Hnone. rewrite find_app_None by done. simpl.
       by rewrite !Z.eqb_refl. }
  - done.
  - rewrite get_thread_by_thread_id_result. simpl. by rewrite lookup_insert_eq.
Qed.

End ThreadRecords.

(** X9.  After [delete_thread_from_db] the lookup of the thread id finds
    nothing exactly when the table had a row for it or the dictionary had
    no entry: an entry without a row is left where it is.  Other thread ids
    are looked up as before. *)
Theorem delete_then_lookup (thread_id : Z) (w : World) :
  let w' := world_of (delete_thread_from_db thread_id w) in
  (result_of (get_thread_by_thread_id thread_id w') = inr None
   ↔ is_Some (List.find (fun r => ProblemThreads_thread_id r =? thread_id)
                (problem_threads_rows (database_manager (self w))))
     ∨ problem_threads (self w) !! thread_id = None)
  ∧ (∀ thread_id', thread_id' ≠ thread_id →
       result_of (get_thread_by_thread_id thread_id' w')
       = result_of (get_thread_by_thread_id thread_id' w)).
Proof.
  cbn zeta. destruct (delete_thread_from_db_run thread_id w) as (t & -> & _).
  unfold world_of. simpl. rewrite !get_thread_by_thread_id_result.
  destruct (List.find (fun r => ProblemThreads_thread_id r =? thread_id)
              (problem_threads_rows (database_manager (self w)))) as [row|] eqn:Hfind.
  - split.
    + simpl. rewrite lookup_delete_eq, find_filter_self. split; [by left; eexists|done].
    + intros t' Hne. rewrite !get_thread_by_thread_id_result. simpl.
      rewrite lookup_delete_ne by done. by rewrite find_filter_other by done.
  - split; [|done]. rewrite Hfind.
    destruct (problem_threads (self w) !! thread_id) as [p|]; split.
    + discriminate.
    + intros [[? [=]]|[=]].
    + by right.
    + done.
Qed.

Lemma coherent_world_fresh : coherent (self (world_fresh all_tags)).
Proof. unfold coherent. apply (bool_decide_unpack _). vm_compute. exact I. Defined.

(** X6 at [world_unconfigured] and, for the unknown problem 2, at
    [world_fresh]. *)
Lemma create_thread_in_db_fails_before_writing_witness :
  result_of (get_forum_channel 42 world_unconfigured) = inr None
  ∧ result_of (create_thread_in_db env0 (VInt 1) 42 500 world_unconfigured)
    = inl (ForumChannelNotFound "Forum channel for guild 42 not found.")
  ∧ result_of (get_forum_channel 42 (world_fresh all_tags)) = inr (Some config42)
  ∧ get_problem_with_frontend_id env0 (VInt 2) = None
  ∧ result_of (create_thread_in_db env0 (VInt 2) 42 500 (world_fresh all_tags))
    = inl (ValueError
             "Could not create ProblemThreads instance for problem ID 2 in guild 42 with thread ID 500.").
Proof.
  assert (H1 : result_of (get_forum_channel 42 world_unconfigured) = inr None)
    by reflexivity.
  assert (H2 : result_of (get_forum_channel 42 (world_fresh all_tags))
               = inr (Some config42)) by reflexivity.
  assert (H3 : get_problem_with_frontend_id env0 (VInt 2) = None) by reflexivity.
  split; [exact H1|]. split.
  { exact (proj1 (create_thread_in_db_fails_before_writing env0 (VInt 1) 42 500
                    world_unconfigured) H1). }
  split; [exact H2|]. split; [exact H3|].
  exact (proj1 (proj2 (create_thread_in_db_fails_before_writing env0 (VInt 2) 42 500
                         (world_fresh all_tags))) config42 H2 H3).
Defined.

(** X7 at [world_orphan_entry]. *)
Lemma create_thread_in_db_keeps_cached_entry_witness :
  problem_threads (self world_orphan_entry) !! 500 = Some record500_old
  ∧ let r := create_thread_in_db env0 (VInt 1) 42 500 world_orphan_entry in
    result_of r = inr tt
    ∧ result_of (get_thread_by_thread_id 500 (world_of r)) = inr (Some record500_old)
    ∧ ¬ coherent (self (world_of r)).
Proof.
  assert (H1 : problem_threads (self world_orphan_entry) !! 500 = Some record500_old)
    by reflexivity.
  assert (H2 : result_of (create_thread_in_db env0 (VInt 1) 42 500 world_orphan_entry)
               = inr tt) by reflexivity.
  destruct (create_thread_in_db_keeps_cached_entry env0 (VInt 1) 42 500
              world_orphan_entry record500_old H1 H2)
    as (row & Hfind & _ & Hget & Hnot).
  split; [exact H1|]. split; [exact H2|]. split; [exact Hget|].
  apply Hnot. intros <-. vm_compute in Hfind. discriminate Hfind.
Defined.

(** X8 at [world_fresh]: thread 500 is recorded for problem 1. *)
Lemma recorded_thread_is_found_witness :
  coherent (self (world_fresh all_tags))
  ∧ result_of (get_thread_by_problem_id env0 (VInt 1) 42 (world_fresh all_tags)) = inr None
  ∧ let r := create_thread_in_db env0 (VInt 1) 42 500 (world_fresh all_tags) in
    result_of r = inr tt
    ∧ ∃ row,
        ProblemThreads_thread_id row = 500
        ∧ result_of (get_thread_by_problem_id env0 (VInt 1) 42 (world_of r))
          = inr (Some row).
Proof.
  assert (H1 : result_of (get_thread_by_problem_id env0 (VInt 1) 42 (world_fresh all_tags))
               = inr None) by reflexivity.
  assert (H2 : result_of (create_thread_in_db env0 (VInt 1) 42 500 (world_fresh all_tags))
               = inr tt) by reflexivity.
  destruct (recorded_thread_is_found env0 (VInt 1) 42 500 (world_fresh all_tags)
              coherent_world_fresh H1 H2) as (row & Hid & Hfound & _).
  split; [exact coherent_world_fresh|]. split; [exact H1|]. split; [exact H2|].
  by exists row.
Defined.

(** ** Loading the dictionaries *)

Lemma find_unique {V : Type} (key : V → Z) (rows : list V) (row : V) :
  NoDup (map key rows) → row ∈ rows →
  List.find (fun r => key r =? key row) rows = Some row.
Proof.
  induction rows as [|x rows IH]; intros Hnodup Hin; [by apply elem_of_nil in Hin|].
  simpl in *. apply NoDup_cons in Hnodup as [Hx Hnodup].
  apply elem_of_cons in Hin as [->|Hin]; [by rewrite Z.eqb_refl|].
  destruct (Z.eqb_spec (key x) (key row)) as [Heq|_]; [|by apply IH].
  exfalso. apply Hx. rewrite Heq. by apply list_elem_of_fmap_2.
Qed.

(** The dictionary after [d[key(r)] = r] for every row, in order. *)
Lemma load_lookup_notin {V : Type} (key : V → Z) (rows : list V) (d : gmap Z V) (k : Z) :
  k ∉ map key rows →
  foldl (fun d r => <[key r := r]> d) d rows !! k = d !! k.
Proof.
  revert d. induction rows as [|x rows IH]; intros d Hnot; [done|].
  simpl in *. apply not_elem_of_cons in Hnot as [Hne Hnot].
  rewrite IH by done. by rewrite lookup_insert_ne.
Qed.

Lemma load_lookup_in {V : Type} (key : V → Z) (rows : list V) (d : gmap Z V) (row : V) :
  NoDup (map key rows) → row ∈ rows →
  foldl (fun d r => <[key r := r]> d) d rows !! key row = Some row.
Proof.
  revert d. induction rows as [|x rows IH]; intros d Hnodup Hin;
    [by apply elem_of_nil in Hin|].
  simpl in *. apply NoDup_cons in Hnodup as [Hx Hnodup].
  apply elem_of_cons in Hin as [->|Hin]; [|by apply IH].
  rewrite load_lookup_notin by done. by rewrite lookup_insert_eq.
Qed.

Lemma forallb_map_const {A : Type} (f : Event → bool) (e : Event) (l : list A) :
  f e = true → forallb f (map (fun _ => e) l) = true.
Proof. intros He. induction l as [|x l IH]; [done|]. simpl. by rewrite He, IH. Qed.

Lemma load_threads_run (rows : list ProblemThreads) (w : World) :
  for_each rows
    (fun problem_thread =>
       problem_threads_set (ProblemThreads_thread_id problem_thread) problem_thread) w
  = (inr tt,
     {| self := {| database_manager := database_manager (self w);
                   problem_threads :=
                     foldl (fun d r => <[ProblemThreads_thread_id r := r]> d)
                       (problem_threads (self w)) rows;
                   forum_channels := forum_channels (self w) |};
        guild := guild w |},
     map (fun _ => EvWrite ProblemThreadsDict) rows).
Proof.
  revert w. induction rows as [|x rows IH]; intros w.
  - by destruct w as [[db d fc] g].
  - simpl. eapply (bind_runs _ _ _ _ _ [_]); [reflexivity|]. by rewrite IH.
Qed.

Lemma load_forum_channels_run (rows : list GuildForumChannel) (w : World) :
  for_each rows
    (fun forum_channel =>
       forum_channels_set (GuildForumChannel_guild_id forum_channel) forum_channel) w
  = (inr tt,
     {| self := {| database_manager := database_manager (self w);
                   problem_threads := problem_threads (self w);
                   forum_channels :=
                     foldl (fun d r => <[GuildForumChannel_guild_id r := r]> d)
                       (forum_channels (self w)) rows |};
        guild := guild w |},
     map (fun _ => EvWrite ForumChannelDict) rows).
Proof.
  revert w. induction rows as [|x rows IH]; intros w.
  - by destruct w as [[db d fc] g].
  - simpl. eapply (bind_runs _ _ _ _ _ [_]); [reflexivity|]. by rewrite IH.
Qed.

Lemma init_cache_run (w : World) :
  init_cache w
  = (inr tt,
     {| self :=
          {| database_manager := database_manager (self w);
             problem_threads :=
               foldl (fun d r => <[ProblemThreads_thread_id r := r]> d)
                 (problem_threads (self w))
                 (problem_threads_rows (database_manager (self w)));
             forum_channels :=
               foldl (fun d r => <[GuildForumChannel_guild_id r := r]> d)
                 (forum_channels (self w))
                 (guild_forum_channel_rows (database_manager (self w))) |};
        guild := guild w |},
     EvRead ProblemThreadsTable ::
     map (fun _ => EvWrite ProblemThreadsDict)
       (problem_threads_rows (database_manager (self w))) ++
     EvRead ForumChannelTable ::
     map (fun _ => EvWrite ForumChannelDict)
       (guild_forum_channel_rows (database_manager (self w)))).
Proof.
  unfold init_cache.
  eapply (bind_runs _ _ _ _ _ [_]); [reflexivity|]. cbn beta.
  eapply bind_runs; [apply load_threads_run|]. cbn beta.
  eapply (bind_runs _ _ _ _ _ [_]); [reflexivity|]. cbn beta.
  by rewrite load_forum_channels_run.
Qed.

(** X10.  [init_cache] reads the two tables and writes the two dictionaries
    only.  When thread ids and guild ids are unique in the tables, every row
    is afterwards in its dictionary under its key; an entry whose key has no
    row stays as it was, since the dictionaries are not emptied. *)
Theorem init_cache_loads_every_row (w : World) :
  let threads := problem_threads_rows (database_manager (self w)) in
  let channels := guild_forum_channel_rows (database_manager (self w)) in
  let r := init_cache w in
  NoDup (map ProblemThreads_thread_id threads) →
  NoDup (map GuildForumChannel_guild_id channels) →
  result_of r = inr tt
  ∧ database_manager (self (world_of r)) = database_manager (self w)
  ∧ guild (world_of r) = guild w
  ∧ forallb (fun e => negb (is_store_write e)) (trace_of r) = true
  ∧ (∀ row, row ∈ threads →
       problem_threads (self (world_of r)) !! ProblemThreads_thread_id row = Some row)
  ∧ (∀ row, row ∈ channels →
       forum_channels (self (world_of r)) !! GuildForumChannel_guild_id row = Some row)
  ∧ (∀ t, t ∉ map ProblemThreads_thread_id threads →
       problem_threads (self (world_of r)) !! t = problem_threads (self w) !! t)
  ∧ (∀ g, g ∉ map GuildForumChannel_guild_id channels →
       forum_channels (self (world_of r)) !! g = forum_channels (self w) !! g).
Proof.
  cbn zeta. intros Hthreads Hchannels. rewrite init_cache_run.
  unfold result_of, world_of, trace_of. simpl.
  split; [done|]. split; [done|]. split; [done|]. split.
  { rewrite forallb_app. simpl. by rewrite !forallb_map_const. }
  split; [intros row Hrow; by apply load_lookup_in|].
  split; [intros row Hrow; by apply load_lookup_in|].
  split; [intros t Ht; by apply load_lookup_notin|].
  intros g Hg. by apply load_lookup_notin.
Qed.

(** X11.  [init_cache] keeps a registry coherent when thread ids and guild
    ids are unique in the tables; in particular the manager that [__init__]
    builds, with two empty dictionaries, is coherent after it, and every row
    is then returned from the dictionary. *)
Theorem init_cache_coherent (w : World) :
  NoDup (map ProblemThreads_thread_id (problem_threads_rows (database_manager (self w)))) →
  NoDup (map GuildForumChannel_guild_id
           (guild_forum_channel_rows (database_manager (self w)))) →
  coherent (self w) →
  let w' := world_of (init_cache w) in
  coherent (self w')
  ∧ (∀ row, row ∈ guild_forum_channel_rows (database_manager (self w)) →
       get_forum_channel (GuildForumChannel_guild_id row) w'
       = (inr (Some row), w', [EvRead ForumChannelDict]))
  ∧ (∀ row, row ∈ problem_threads_rows (database_manager (self w)) →
       get_thread_by_thread_id (ProblemThreads_thread_id row) w'
       = (inr (Some row), w', [EvRead ProblemThreadsDict])).
Proof.
  intros Hthreads Hchannels [Hfc Hpt]. cbn zeta. rewrite init_cache_run.
  unfold world_of. simpl. split; [split|split].
  - simpl. intros g c Hlook.
    destruct (decide (g ∈ map GuildForumChannel_guild_id
                            (guild_forum_channel_rows (database_manager (self w)))))
      as [Hin|Hnot].
    + apply list_elem_of_fmap in Hin as (row & -> & Hrow).
      rewrite load_lookup_in in Hlook by done. injection Hlook as <-.
      by apply find_unique.
    + rewrite load_lookup_notin in Hlook by done. by apply Hfc.
  - simpl. intros t p Hlook.
    destruct (decide (t ∈ map ProblemThreads_thread_id
                            (problem_threads_rows (database_manager (self w)))))
      as [Hin|Hnot].
    + apply list_elem_of_fmap in Hin as (row & -> & Hrow).
      rewrite load_lookup_in in Hlook by done. injection Hlook as <-.
      by apply find_unique.
    + rewrite load_lookup_notin in Hlook by done. by apply Hpt.
  - intros row Hrow.
    unfold get_forum_channel, bind, forum_channels_get. simpl.
    by rewrite load_lookup_in.
  - intros row Hrow.
    unfold get_thread_by_thread_id, bind, problem_threads_get. simpl.
    by rewrite load_lookup_in.
Qed.

Lemma thread_ids_world_restart :
  NoDup (map ProblemThreads_thread_id
           (problem_threads_rows (database_manager (self world_restart)))).
Proof. apply (bool_decide_unpack _). vm_compute. exact I. Defined.

Lemma guild_ids_world_restart :
  NoDup (map GuildForumChannel_guild_id
           (guild_forum_channel_rows (database_manager (self world_restart)))).
Proof. apply (bool_decide_unpack _). vm_compute. exact I. Defined.

(** X10 at [world_restart]. *)
Lemma init_cache_loads_every_row_witness :
  NoDup (map ProblemThreads_thread_id
           (problem_threads_rows (database_manager (self world_restart))))
  ∧ NoDup (map GuildForumChannel_guild_id
             (guild_forum_channel_rows (database_manager (self world_restart))))
  ∧ let r := init_cache world_restart in
    result_of r = inr tt
    ∧ problem_threads (self (world_of r)) !! 500 = Some record500
    ∧ forum_channels (self (world_of r)) !! 42 = Some config42.
Proof.
  destruct (init_cache_loads_every_row world_restart thread_ids_world_restart
              guild_ids_world_restart)
    as (Hres & _ & _ & _ & Hthreads & Hchannels & _).
  split; [exact thread_ids_world_restart|]. split; [exact guild_ids_world_restart|].
  split; [exact Hres|]. split.
  - apply (Hthreads record500). apply list_elem_of_here.
  - apply (Hchannels config42). apply list_elem_of_here.
Defined.

(** X11 at [world_restart]. *)
Lemma init_cache_coherent_witness :
  coherent (self world_restart)
  ∧ let w' := world_of (init_cache world_restart) in
    coherent (self w')
    ∧ get_forum_channel 42 w' = (inr (Some config42), w', [EvRead ForumChannelDict])
    ∧ get_thread_by_thread_id 500 w'
      = (inr (Some record500), w', [EvRead ProblemThreadsDict]).
Proof.
  assert (Hcoh : coherent (self world_restart)).
  { unfold coherent. apply (bool_decide_unpack _). vm_compute. exact I. }
  destruct (init_cache_coherent world_restart thread_ids_world_restart
              guild_ids_world_restart Hcoh) as (Hcoh' & Hchannels & Hthreads).
  split; [exact Hcoh|]. split; [exact Hcoh'|]. split.
  - apply (Hchannels config42). apply list_elem_of_here.
  - apply (Hthreads record500). apply list_elem_of_here.
Defined.

(** ** The cog: previews, ready events, two handlers *)

Section Previews.
Context (env : Env).

(** X12.  With a preview length that is not negative, the preview of a
    non-empty content is not empty, has at most [preview_len + 3]
    characters (code points, as [len] counts them), and is its own
    preview. *)
Theorem parse_problem_desc_bounded (content : string) :
  0 ≤ preview_len env →
  content ≠ "" →
  let preview := parse_problem_desc env content in
  preview ≠ ""
  ∧ Z.of_nat (py_len preview) ≤ preview_len env + 3
  ∧ parse_problem_desc env preview = preview.
Proof.
  intros Hlen Hne. cbn zeta.
  assert (Hshort : ∀ s, s ≠ "" → Z.of_nat (py_len s) ≤ preview_len env →
                        parse_problem_desc env s = s).
  { intros s Hs Hle. unfold parse_problem_desc, py_slice_to.
    destruct (String.eqb_spec s ""); [done|].
    destruct (Z.leb_spec 0 (preview_len env)); [|lia].
    destruct (Z.ltb_spec (preview_len env) (Z.of_nat (py_len s))); [lia|].
    rewrite py_take_whole by lia. apply append_empty_r. }
  assert (Hlong : ∀ s, preview_len env < Z.of_nat (py_len s) →
                       parse_problem_desc env s
                       = py_take (Z.to_nat (preview_len env)) s +:+ "...").
  { intros s Hlt. unfold parse_problem_desc, py_slice_to.
    destruct (String.eqb_spec s "") as [->|_]; [simpl in Hlt; lia|].
    destruct (Z.leb_spec 0 (preview_len env)); [|lia].
    by destruct (Z.ltb_spec (preview_len env) (Z.of_nat (py_len s))); [|lia]. }
  destruct (Z.le_gt_cases (Z.of_nat (py_len content)) (preview_len env))
    as [Hle|Hgt].
  - rewrite Hshort by done. split; [done|]. split; [lia|]. by apply Hshort.
  - rewrite Hlong by lia.
    set (first := py_take (Z.to_nat (preview_len env)) content).
    assert (Hfirst : py_len first = Z.to_nat (preview_len env)).
    { apply py_take_length. lia. }
    assert (Hout : py_len (first +:+ "...") = (Z.to_nat (preview_len env) + 3)%nat).
    { rewrite py_len_append, Hfirst. done. }
    split; [intros Heq; rewrite Heq in Hout; simpl in Hout; lia|].
    split; [lia|].
    rewrite Hlong by lia. rewrite <- Hfirst. by rewrite py_take_append.
Qed.

(** X13.  Any number of ready events start [weekly_cache_refresh] at most
    once and never raise: with [debug] on, or on a loop that is running,
    the loop is left as it was; otherwise the first event starts it and the
    later ones find it running. *)
Theorem ready_events_start_once (n : nat) (weekly_cache_refresh : Loop) :
  ∃ after,
    ready_events env n weekly_cache_refresh = inr after
    ∧ (debug env = true ∨ n = 0%nat ∨ is_running weekly_cache_refresh = true →
       after = weekly_cache_refresh)
    ∧ (debug env = false → n ≠ 0%nat → is_running weekly_cache_refresh = false →
       after = {| Loop_running := true;
                  Loop_starts := S (Loop_starts weekly_cache_refresh) |}).
Proof.
  assert (Hidle : ∀ m l, debug env = true ∨ is_running l = true →
                         ready_events env m l = inr l).
  { intros m l Hl. induction m as [|m IH]; [done|]. simpl.
    unfold on_ready. destruct Hl as [->| ->]; simpl; [done|].
    by rewrite andb_false_r. }
  destruct n as [|n].
  - exists weekly_cache_refresh. split; [done|]. split; [done|]. by intros _ [].
  - destruct (debug env) eqn:Hdebug.
    { exists weekly_cache_refresh. split; [apply Hidle; by left|]. split; done. }
    destruct (is_running weekly_cache_refresh) eqn:Hrun.
    { exists weekly_cache_refresh. split; [apply Hidle; by right|]. split; done. }
    eexists. split.
    + simpl. unfold on_ready, start. rewrite Hdebug, Hrun. simpl.
      unfold is_running in Hrun. rewrite Hrun. apply Hidle. by right.
    + split; [|done]. by intros [|[|]].
Qed.

End Previews.

(** X12 with [preview_len = 5], on accented text. *)
Lemma parse_problem_desc_bounded_witness :
  0 ≤ preview_len env0
  ∧ "éééééééé" ≠ ""
  ∧ parse_problem_desc env0 "éééééééé" = "ééééé..."
  ∧ parse_problem_desc env0 "ééééé..." = "ééééé...".
Proof.
  assert (H1 : 0 ≤ preview_len env0) by (simpl; lia).
  assert (H2 : "éééééééé" ≠ "") by discriminate.
  destruct (parse_problem_desc_bounded env0 "éééééééé" H1 H2) as (_ & _ & Hagain).
  split; [exact H1|]. split; [exact H2|]. split; [reflexivity|exact Hagain].
Defined.

Lemma add_forum_channel_to_db_returns (guild_id channel_id : Z) (w : World) :
  result_of (add_forum_channel_to_db guild_id channel_id w) = inr tt.
Proof.
  unfold add_forum_channel_to_db, bind, select_forum_channel, result_of. simpl.
  by destruct (List.find (fun r => GuildForumChannel_guild_id r =? guild_id)
                 (guild_forum_channel_rows (database_manager (self w)))).
Qed.

Lemma append_assoc (s t u : string) : (s +:+ t) +:+ u = s +:+ (t +:+ u).
Proof. induction s as [|c s IH]; [done|]. by rewrite !append_cons, IH. Qed.

Lemma confirmation_text (channel : ForumChannel) :
  "Thread channel set to " +:+ mention channel +:+ " for this server."
  = "Thread channel set to <#" +:+ pretty (ForumChannel_id channel) +:+
    "> for this server.".
Proof.
  unfold mention. rewrite !append_cons. do 22 f_equal.
  change (("<#" +:+ pretty (ForumChannel_id channel) +:+ ">") +:+ " for this server."
          = "<#" +:+ pretty (ForumChannel_id channel) +:+ "> for this server.").
  rewrite !append_cons. do 2 f_equal. change ("" +:+ ?x) with x.
  by rewrite append_assoc.
Qed.

Section HandlerProperties.
Context (env : Env) (exn_str : Exn → string).

(** X14.  The handler of [/set_forum_channel] defers and sends one
    follow-up.  In a guild it confirms with the mention of the channel, and
    the guild is then configured with the id of that channel; without a
    guild id the assertion fails, the follow-up is the error text, and the
    registry is not touched. *)
Theorem set_forum_channel_replies (guild_id : option Z) (channel : ForumChannel)
    (w : World) :
  match guild_id with
  | Some guild_id =>
    ∃ w' row,
      set_forum_channel exn_str (Some guild_id) channel w
      = ([Defer; Send ("Thread channel set to <#" +:+ pretty (ForumChannel_id channel) +:+
                       "> for this server.")], w')
      ∧ w' = world_of (add_forum_channel_to_db guild_id (ForumChannel_id channel) w)
      ∧ result_of (get_forum_channel guild_id w') = inr (Some row)
      ∧ GuildForumChannel_channel_id row = ForumChannel_id channel
  | None =>
    set_forum_channel exn_str None channel w
    = ([Defer; Send ("An error occurred while setting the thread channel: " +:+
                     exn_str AssertionError)], w)
  end.
Proof.
  destruct guild_id as [guild_id|]; [|done].
  pose proof (add_forum_channel_to_db_returns guild_id (ForumChannel_id channel) w) as Hres.
  assert (Hget : ∃ row,
            result_of (get_forum_channel guild_id
                         (world_of (add_forum_channel_to_db guild_id
                                      (ForumChannel_id channel) w)))
            = inr (Some row)
            ∧ GuildForumChannel_channel_id row = ForumChannel_id channel).
  { rewrite get_forum_channel_result, add_forum_channel_to_db_world. cbn zeta.
    destruct (List.find (fun r => GuildForumChannel_guild_id r =? guild_id)
                (guild_forum_channel_rows (database_manager (self w))));
      simpl; rewrite lookup_insert_eq; by eexists. }
  destruct Hget as (row & Hget & Hrow).
  exists (world_of (add_forum_channel_to_db guild_id (ForumChannel_id channel) w)), row.
  split; [|done].
  unfold set_forum_channel. rewrite confirmation_text.
  pose proof (run_eta (add_forum_channel_to_db guild_id (ForumChannel_id channel)) w)
    as Heta.
  rewrite Hres in Heta. by rewrite Heta at 1.
Qed.

(** X15.  The handler of [/desc] defers and sends one follow-up.  For an
    id the problem store does not know it says so; an embed is sent only
    when the store has the problem and [get_problem_desc_embed] builds the
    embed, and it then links to the problem; a problem object on which
    [problem_frontend_id] cannot be read gets the error text. *)
Theorem leetcode_desc_replies (bot : Bot) (id : Z) :
  ∃ reply,
    leetcode_desc env exn_str bot id = [Defer; reply]
    ∧ (get_problem_with_frontend_id env (VInt id) = None →
       reply = Send ("Problem with ID " +:+ pretty id +:+ " not found."))
    ∧ (∀ embed, reply = SendEmbed embed →
         ∃ problem tags,
           get_problem_with_frontend_id env (VInt id) = Some (problem, tags)
           ∧ get_problem_desc_embed env problem tags bot = inr embed
           ∧ Embed_url embed = Some (Problem_url problem))
    ∧ (∀ problem tags e,
         get_problem_with_frontend_id env (VInt id) = Some (problem, tags) →
         getattr problem "problem_frontend_id" = inl e →
         reply = Send ("An error occurred while fetching the problem: " +:+ exn_str e)).
Proof.
  unfold leetcode_desc.
  destruct (get_problem_with_frontend_id env (VInt id)) as [[problem tags]|].
  - destruct (get_problem_desc_embed env problem tags bot) as [e|embed] eqn:Hembed.
    + eexists. split; [done|]. split; [done|]. split; [done|].
      intros problem' tags' e' [= <- <-] Hattr.
      unfold get_problem_desc_embed in Hembed. rewrite Hattr in Hembed. congruence.
    + eexists. split; [done|]. split; [done|]. split.
      * intros embed' [= <-]. exists problem, tags. split; [done|]. split; [done|].
        unfold get_problem_desc_embed in Hembed.
        destruct (getattr problem "problem_frontend_id"); [done|].
        destruct (create_themed_embed _ _ _ _); [done|]. by injection Hembed as <-.
      * intros problem' tags' e' [= <- <-] Hattr.
        unfold get_problem_desc_embed in Hembed. by rewrite Hattr in Hembed.
  - eexists. split; [done|]. split; [done|]. split; [done|]. done.
Qed.

End HandlerProperties.

(** ** The embed of a problem *)

Section ProblemEmbed.
Context (env : Env).

Lemma embed_title_and_url (problem : Problem) (problem_tags : list TopicTags)
    (bot : Bot) (embed : Embed) (problem_frontend_id : PyVal) :
  getattr problem "problem_frontend_id" = inr problem_frontend_id →
  get_problem_desc_embed env problem problem_tags bot = inr embed →
  Embed_title embed = py_str problem_frontend_id +:+ ". " +:+ Problem_title problem
  ∧ Embed_url embed = Some (Problem_url problem).
Proof.
  unfold get_problem_desc_embed, create_themed_embed, add_std_footer.
  intros ->.
  destruct (Bot_user bot) as [user|].
  - destruct (Bot_users bot !! DEV_ID env) as [dev|]; [|done].
    destruct (User_avatar dev) as [dev_avatar|]; [|done].
    destruct (User_avatar user) as [user_avatar|]; [|done].
    by intros [= <-].
  - by intros [= <-].
Qed.

(** X16.  Whenever [get_problem_desc_embed] returns an embed, its title is
    the external id, ". " and the title of the problem, it links to the
    problem, its colour is the one of the difficulty and not the theme
    colour it was created with, and it has exactly the fields "Difficulty"
    and "Tags", in this order; author and footer are set exactly when the
    bot is logged in. *)
Theorem problem_embed_shape (problem : Problem) (problem_tags : list TopicTags)
    (bot : Bot) (embed : Embed) :
  get_problem_desc_embed env problem problem_tags bot = inr embed →
  (∃ problem_frontend_id,
     getattr problem "problem_frontend_id" = inr problem_frontend_id
     ∧ Embed_title embed = py_str problem_frontend_id +:+ ". " +:+ Problem_title problem)
  ∧ Embed_url embed = Some (Problem_url problem)
  ∧ Embed_color embed = get_embed_color env (Problem_difficulty problem)
  ∧ Embed_fields embed
    = [ {| field_name := "Difficulty";
           field_value := get_difficulty_str_repr env (Problem_difficulty problem);
           field_inline := true |};
        {| field_name := "Tags";
           field_value := String.concat ", " (map tag_name problem_tags);
           field_inline := true |} ]
  ∧ (is_Some (Embed_author embed) ↔ is_Some (Bot_user bot))
  ∧ (is_Some (Embed_footer embed) ↔ is_Some (Bot_user bot))
  ∧ (Bot_user bot = None → Embed_description embed = Problem_description problem).
Proof.
  unfold get_problem_desc_embed, create_themed_embed, add_std_footer.
  destruct (getattr problem "problem_frontend_id") as [e|v]; [done|].
  destruct (Bot_user bot) as [user|].
  - destruct (Bot_users bot !! DEV_ID env) as [dev|]; [|done].
    destruct (User_avatar dev) as [dev_avatar|]; [|done].
    destruct (User_avatar user) as [user_avatar|]; [|done].
    intros [= <-]. simpl. split; [by eexists|]. repeat (split; [done|]). done.
  - intros [= <-]. simpl. split; [by eexists|]. split; [done|]. split; [done|].
    split; [done|]. split; [by split; intros [? [=]]|].
    split; [by split; intros [? [=]]|]. done.
Qed.

(** X17.  [get_problem_desc_embed] fails in two ways only: with the error
    of reading [problem_frontend_id], whatever the bot is; and, when that
    attribute can be read, with [AssertionError] exactly when the bot is
    logged in and the developer is not among its users or the developer or
    the bot has no avatar.  A bot that is not logged in never makes it
    fail. *)
Theorem problem_embed_failure (problem : Problem) (problem_tags : list TopicTags)
    (bot : Bot) (e : Exn) :
  get_problem_desc_embed env problem problem_tags bot = inl e
  ↔ getattr problem "problem_frontend_id" = inl e
    ∨ ((∃ problem_frontend_id,
          getattr problem "problem_frontend_id" = inr problem_frontend_id)
       ∧ e = AssertionError
       ∧ ∃ user,
           Bot_user bot = Some user
           ∧ (User_avatar user = None
              ∨ match Bot_users bot !! DEV_ID env with
                | Some dev => User_avatar dev = None
                | None => True
                end)).
Proof.
  unfold get_problem_desc_embed, create_themed_embed, add_std_footer.
  destruct (getattr problem "problem_frontend_id") as [e0|v].
  - split; [intros [= ->]; by left|]. by intros [[= ->]|([? [=]] & _)].
  - destruct (Bot_user bot) as [user|].
    + destruct (Bot_users bot !! DEV_ID env) as [dev|].
      * destruct (User_avatar dev) as [dev_avatar|].
        -- destruct (User_avatar user) as [user_avatar|] eqn:Huser.
           ++ split; [done|]. intros [[=]|(_ & _ & user' & [= <-] & [Hnone|[=]])].
              congruence.
           ++ split; [|by intros [[=]|(_ & -> & _)]].
              intros [= <-]. right. split; [by eexists|]. split; [done|].
              exists user. split; [done|]. by left.
        -- split; [|by intros [[=]|(_ & -> & _)]].
           intros [= <-]. right. split; [by eexists|]. split; [done|].
           exists user. split; [done|]. by right.
      * split; [|by intros [[=]|(_ & -> & _)]].
        intros [= <-]. right. split; [by eexists|]. split; [done|].
        exists user. split; [done|]. by right.
    + split; [done|]. by intros [[=]|(_ & _ & user & [=] & _)].
Qed.

(** X18.  The starter message of a thread that [_create_thread] returns
    carries the embed of the problem, and the title of that embed is the
    name of the thread. *)
Theorem created_thread_embed (channel : ForumChannel) (problem : Problem)
    (problem_tags : list TopicTags) (bot : Bot) (w : World) (created : ThreadWithMessage) :
  result_of (_create_thread env channel problem problem_tags bot w) = inr created →
  get_problem_desc_embed env problem problem_tags bot
  = inr (Message_embed (message created))
  ∧ Embed_title (Message_embed (message created)) = Thread_name (thread created)
  ∧ Embed_url (Message_embed (message created)) = Some (Problem_url problem)
  ∧ Thread_parent_id (thread created) = ForumChannel_id channel.
Proof.
  intros Hres.
  pose proof (run_eta (_create_thread env channel problem problem_tags bot) w) as Hrun.
  rewrite Hres in Hrun. clear Hres. revert Hrun.
  generalize (world_of (_create_thread env channel problem problem_tags bot w)).
  generalize (trace_of (_create_thread env channel problem problem_tags bot w)).
  intros t w' Hrun. unfold _create_thread in Hrun.
  apply bind_inr_inv in Hrun as (pfid & w1 & t1 & t1' & Hid%lift_inr_inv & Hrun & ->).
  apply bind_inr_inv in Hrun as (premium & w2 & t2 & t2' & _ & Hrun & ->).
  apply bind_inr_inv in Hrun as (embed & w3 & t3 & t3' & Hembed%lift_inr_inv & Hrun & ->).
  apply bind_inr_inv in Hrun as ([] & w4 & t4 & t4' & _ & Hrun & ->).
  apply bind_inr_inv in Hrun as (twm & w5 & t5 & t5' & Hcreate & Hrun & ->).
  apply bind_inr_inv in Hrun as (gid & w6 & t6 & t6' & _ & Hrun & ->).
  apply bind_inr_inv in Hrun as ([] & w7 & t7 & t7' & _ & Hrun & ->).
  injection Hrun as -> _ _.
  injection Hcreate as <- _ _. simpl.
  split; [done|].
  destruct (embed_title_and_url problem problem_tags bot embed pfid Hid Hembed)
    as [Htitle Hurl].
  split; [done|]. split; [done|]. done.
Qed.

End ProblemEmbed.

(** X16 for problem 1 and a bot that is logged in. *)
Lemma problem_embed_shape_witness :
  ∃ embed,
    get_problem_desc_embed env0 two_sum_patched [array_tag] bot0 = inr embed
    ∧ Embed_url embed = Some "https://leetcode.com/problems/two-sum/"
    ∧ Embed_color embed = 65280
    ∧ is_Some (Embed_footer embed).
Proof.
  destruct embed_two_sum as [embed Hembed]. exists embed.
  destruct (problem_embed_shape env0 two_sum_patched [array_tag] bot0 embed Hembed)
    as (_ & Hurl & Hcolor & _ & _ & Hfooter & _).
  split; [exact Hembed|]. split; [exact Hurl|]. split; [exact Hcolor|].
  apply Hfooter. by eexists.
Defined.

(** X18 at [world_stale], for problem 1 in forum 100. *)
Lemma created_thread_embed_witness :
  ∃ created,
    result_of (_create_thread env0 (forum_with all_tags) two_sum_patched [array_tag] bot0
                 world_stale) = inr created
    ∧ Embed_title (Message_embed (message created)) = Thread_name (thread created)
    ∧ Thread_name (thread created) = "1. Two Sum".
Proof.
  assert (H1 : getattr two_sum_patched "problem_frontend_id" = inr (VInt 1))
    by reflexivity.
  assert (H2 : getattr two_sum_patched "premium" = inr (VBool false)) by reflexivity.
  destruct embed_two_sum as [embed H3].
  assert (H4 : result_of (get_forum_channel (Guild_id (guild world_stale)) world_stale)
               = inr (Some config42)) by reflexivity.
  assert (H5 : get_problem_with_frontend_id env0 (VInt 1)
               = Some (two_sum_patched, [array_tag])) by reflexivity.
  destruct (create_thread_run env0 (forum_with all_tags) two_sum_patched [array_tag] bot0
              world_stale (VInt 1) (VBool false) embed config42 two_sum_patched [array_tag]
              H1 H2 H3 H4 H5 coherent_world_stale fresh_world_stale)
    as (w' & t & Hrun & _).
  eexists. split; [by rewrite Hrun|]. split; [|done].
  eapply created_thread_embed. by rewrite Hrun.
Defined.

(** ** What the reconciler leaves alone *)

Lemma preserves_bind {A B : Type} (R : World → World → Prop) (m : M A) (f : A → M B) :
  (∀ w1 w2 w3, R w1 w2 → R w2 w3 → R w1 w3) →
  preserves R m → (∀ a, preserves R (f a)) → preserves R (bind m f).
Proof.
  intros Htrans Hm Hf w. unfold bind, world_of. specialize (Hm w). unfold world_of in Hm.
  destruct (m w) as [[[e|a] w1] t1]; simpl in *; [done|].
  specialize (Hf a w1). unfold world_of in Hf.
  destruct (f a w1) as [[r w2] t2]; simpl in *. by eapply Htrans.
Qed.

Lemma preserves_read_only {A : Type} (R : World → World → Prop) (m : M A) :
  (∀ w, R w w) → read_only m → preserves R m.
Proof. intros Hrefl Hm w. destruct (Hm w) as [-> _]. apply Hrefl. Qed.

Lemma preserves_for_each {A : Type} (R : World → World → Prop) (l : list A)
    (f : A → M unit) :
  (∀ w, R w w) → (∀ w1 w2 w3, R w1 w2 → R w2 w3 → R w1 w3) →
  (∀ a, preserves R (f a)) → preserves R (for_each l f).
Proof.
  intros Hrefl Htrans Hf. induction l as [|x l IH]; [intros w; apply Hrefl|].
  simpl. by apply preserves_bind.
Qed.

Lemma same_forum_channels_refl (w : World) : same_forum_channels w w.
Proof. done. Qed.

Lemma same_forum_channels_trans (w1 w2 w3 : World) :
  same_forum_channels w1 w2 → same_forum_channels w2 w3 → same_forum_channels w1 w3.
Proof. intros (H1 & H2 & H3) (H4 & H5 & H6). repeat split; congruence. Qed.

Tactic Notation "keeps_bind" "as" ident(x) :=
  apply preserves_bind; [exact same_forum_channels_trans| |intros x].

Ltac keeps_pure := intros ?; exact (same_forum_channels_refl _).

Ltac keeps_read lem :=
  apply preserves_read_only; [exact same_forum_channels_refl|apply lem].

Section Untouched.
Context (env : Env).

Lemma create_thread_in_db_keeps_forum_channels (problem_frontend_id : PyVal)
    (guild_id thread_id : Z) :
  preserves same_forum_channels
    (create_thread_in_db env problem_frontend_id guild_id thread_id).
Proof.
  intros w.
  pose proof (create_thread_in_db_run env problem_frontend_id guild_id thread_id w) as Hrun.
  cbn zeta in Hrun.
  destruct (result_of (get_forum_channel guild_id w)) as [e0|[cfg|]];
    [by destruct Hrun as (_ & -> & _)| |by destruct Hrun as (_ & -> & _)].
  destruct (get_problem_with_frontend_id env problem_frontend_id) as [[p tags]|];
    [|by destruct Hrun as (_ & -> & _)].
  destruct (existsb _ _); [by destruct Hrun as (_ & -> & _)|].
  by destruct Hrun as (_ & ->).
Qed.

Lemma delete_thread_from_db_keeps_forum_channels (thread_id : Z) :
  preserves same_forum_channels (delete_thread_from_db thread_id).
Proof.
  intros w. destruct (delete_thread_from_db_run thread_id w) as (t & -> & _).
  unfold world_of. simpl.
  by destruct (List.find (fun r => ProblemThreads_thread_id r =? thread_id)
                 (problem_threads_rows (database_manager (self w)))).
Qed.

Lemma create_tag_keeps_forum_channels (channel : ForumChannel) (name : string) :
  preserves same_forum_channels (create_tag channel name).
Proof. by intros w. Qed.

Lemma create_thread_keeps_forum_channels (channel : ForumChannel) (name content : string)
    (embed : Embed) (applied_tags : list ForumTag) :
  preserves same_forum_channels (create_thread channel name content embed applied_tags).
Proof. by intros w. Qed.

Lemma _create_thread_keeps_forum_channels (channel : ForumChannel) (problem : Problem)
    (problem_tags : list TopicTags) (bot : Bot) :
  preserves same_forum_channels (_create_thread env channel problem problem_tags bot).
Proof.
  unfold _create_thread.
  keeps_bind as problem_frontend_id; [keeps_pure|].
  keeps_bind as premium; [keeps_pure|].
  keeps_bind as thread_embed; [keeps_pure|].
  keeps_bind as u.
  { apply preserves_for_each;
      [exact same_forum_channels_refl|exact same_forum_channels_trans|].
    intros name. apply create_tag_keeps_forum_channels. }
  keeps_bind as created; [apply create_thread_keeps_forum_channels|].
  keeps_bind as guild_id; [keeps_pure|].
  keeps_bind as u'; [apply create_thread_in_db_keeps_forum_channels|]. keeps_pure.
Qed.

(** X19.  Whatever it returns or raises, [reopen_or_create_problem_thread]
    leaves the forum-channel table and the forum-channel dictionary as they
    were: the configuration of every guild reads as before the call. *)
Theorem reconcile_keeps_forum_channels (problem : Problem * list TopicTags) (bot : Bot)
    (is_daily : bool) (w : World) (guild_id : Z) :
  let w' := world_of (reopen_or_create_problem_thread env problem bot is_daily w) in
  same_forum_channels w w'
  ∧ result_of (get_forum_channel guild_id w') = result_of (get_forum_channel guild_id w).
Proof.
  cbn zeta.
  assert (Hkeeps : preserves same_forum_channels
                     (reopen_or_create_problem_thread env problem bot is_daily)).
  { unfold reopen_or_create_problem_thread.
    keeps_bind as gid; [keeps_pure|].
    keeps_bind as channel; [keeps_read get_forum_channel_read_only|].
    destruct channel as [channel|]; [|keeps_pure].
    keeps_bind as resolved; [keeps_pure|].
    destruct resolved as [[forum_channel| |]|]; try keeps_pure.
    keeps_bind as problem_frontend_id; [keeps_pure|].
    keeps_bind as forum_thread; [keeps_read get_thread_by_problem_id_read_only|].
    destruct forum_thread as [forum_thread|].
    - keeps_bind as live; [keeps_pure|].
      destruct live as [[| |]|]; try keeps_pure.
      keeps_bind as u; [apply delete_thread_from_db_keeps_forum_channels|].
      keeps_bind as created; [apply _create_thread_keeps_forum_channels|]. keeps_pure.
    - keeps_bind as created; [apply _create_thread_keeps_forum_channels|]. keeps_pure. }
  split; [apply Hkeeps|].
  destruct (Hkeeps w) as (Hrows & Hdict & _).
  by rewrite !get_forum_channel_result, Hrows, Hdict.
Qed.

End Untouched.

(** ** The outcomes of the reconciler *)

Lemma result_of_bind {A B : Type} (m : M A) (f : A → M B) (w : World) :
  result_of (bind m f w)
  = match result_of (m w) with
    | inl e => inl e
    | inr a => result_of (f a (world_of (m w)))
    end.
Proof.
  unfold bind, result_of, world_of. destruct (m w) as [[[e|a] w1] t1]; simpl; [done|].
  by destruct (f a w1) as [[r w2] t2].
Qed.

Lemma world_of_read_only {A : Type} (m : M A) (w : World) :
  read_only m → world_of (m w) = w.
Proof. intros Hm. by destruct (Hm w). Qed.

Lemma result_of_try_get_channel (channel_id : Z) (w : World) :
  result_of (try_get_channel channel_id w) = inr (Guild_channels (guild w) !! channel_id).
Proof. done. Qed.

Lemma world_of_try_get_channel (channel_id : Z) (w : World) :
  world_of (try_get_channel channel_id w) = w.
Proof. done. Qed.

Lemma result_of_guild_id_of (w : World) : result_of (guild_id_of w) = inr (Guild_id (guild w)).
Proof. done. Qed.

Lemma world_of_guild_id_of (w : World) : world_of (guild_id_of w) = w.
Proof. done. Qed.

Lemma result_of_lift {A : Type} (r : Exn + A) (w : World) : result_of (lift r w) = r.
Proof. done. Qed.

Lemma world_of_lift {A : Type} (r : Exn + A) (w : World) : world_of (lift r w) = w.
Proof. done. Qed.

Lemma getattr_raises (problem : Problem) (name : string) (e : Exn) :
  getattr problem name = inl e → e = AttributeError name.
Proof. unfold getattr. destruct (assoc _ _); [done|]. by intros [= <-]. Qed.

Section Outcomes.
Context (env : Env).

Lemma get_problem_desc_embed_raises (problem : Problem) (problem_tags : list TopicTags)
    (bot : Bot) (e : Exn) :
  get_problem_desc_embed env problem problem_tags bot = inl e →
  e = AttributeError "problem_frontend_id" ∨ e = AssertionError.
Proof.
  unfold get_problem_desc_embed, create_themed_embed, add_std_footer.
  destruct (getattr problem "problem_frontend_id") as [e0|v] eqn:Hid.
  - intros [= <-]. left. by apply getattr_raises in Hid.
  - destruct (Bot_user bot) as [user|]; [|done].
    destruct (Bot_users bot !! DEV_ID env) as [dev|]; [|intros [= <-]; by right].
    destruct (User_avatar dev); [|intros [= <-]; by right].
    destruct (User_avatar user); [done|intros [= <-]; by right].
Qed.

(** In a guild that is configured, [_create_thread] does not raise
    [ForumChannelNotFound]: the configuration is still there when the
    record is written. *)
Lemma _create_thread_raises (channel : ForumChannel) (problem : Problem)
    (problem_tags : list TopicTags) (bot : Bot) (w : World) (cfg : GuildForumChannel)
    (e : Exn) :
  result_of (get_forum_channel (Guild_id (guild w)) w) = inr (Some cfg) →
  result_of (_create_thread env channel problem problem_tags bot w) = inl e →
  (∃ attr, e = AttributeError attr) ∨ e = AssertionError
  ∨ (∃ msg, e = ValueError msg) ∨ e = IntegrityError.
Proof.
  intros Hcfg. unfold _create_thread.
  rewrite result_of_bind. change (result_of (lift ?r w)) with r.
  destruct (getattr problem "problem_frontend_id") as [e1|pfid] eqn:Hid.
  { intros [= <-]. left. apply getattr_raises in Hid. by eexists. }
  change (world_of (lift ?r w)) with w.
  rewrite result_of_bind. change (result_of (lift ?r w)) with r.
  destruct (getattr problem "premium") as [e2|premium] eqn:Hpremium.
  { intros [= <-]. left. apply getattr_raises in Hpremium. by eexists. }
  change (world_of (lift ?r w)) with w.
  rewrite result_of_bind. change (result_of (lift ?r w)) with r.
  destruct (get_problem_desc_embed env problem problem_tags bot) as [e3|embed] eqn:Hembed.
  { intros [= <-]. apply get_problem_desc_embed_raises in Hembed as [->| ->];
      [left; by eexists|by right; left]. }
  change (world_of (lift ?r w)) with w.
  rewrite result_of_bind.
  destruct (create_tags_run channel
              (elements (canonical_tags ∖
                 list_to_set (map ForumTag_name (ForumChannel_available_tags channel))))
              w) as (w1 & Hrun & Hself & Hgid & _).
  change (fun tag_name => create_tag channel tag_name) with (create_tag channel).
  rewrite Hrun. unfold result_of at 1, world_of at 1. cbn [fst snd].
  rewrite result_of_bind. unfold create_thread at 1 2, result_of at 1, world_of at 1.
  cbn [fst snd].
  rewrite result_of_bind. unfold guild_id_of at 1 2, result_of at 1, world_of at 1.
  cbn [fst snd].
  rewrite result_of_bind.
  match goal with
  | |- context [create_thread_in_db env pfid ?g ?t ?w5] =>
      pose proof (create_thread_in_db_run env pfid g t w5) as Hrec;
      assert (Hcfg5 : result_of (get_forum_channel g w5) = inr (Some cfg))
  end.
  { rewrite get_forum_channel_result in *. simpl. by rewrite Hself, Hgid. }
  cbn zeta in Hrec. rewrite Hcfg5 in Hrec.
  destruct (get_problem_with_frontend_id env pfid) as [[p ptags]|].
  - destruct (existsb _ _).
    + destruct Hrec as (-> & _). intros [= <-]. by right; right; right.
    + destruct Hrec as (-> & _). done.
  - destruct Hrec as (-> & _). intros [= <-]. right; right; left. by eexists.
Qed.

(** The result of the reconciler, from the results of the calls it makes. *)
Lemma reconcile_result (problem : Problem * list TopicTags) (bot : Bot) (is_daily : bool)
    (w : World) :
  result_of (reopen_or_create_problem_thread env problem bot is_daily w)
  = match result_of (get_forum_channel (Guild_id (guild w)) w) with
    | inr (Some channel) =>
      match Guild_channels (guild w) !! GuildForumChannel_channel_id channel with
      | Some (IsForumChannel forum_channel) =>
        match getattr problem.1 "problem_frontend_id" with
        | inl e => inl e
        | inr problem_frontend_id =>
          match result_of (get_thread_by_problem_id env problem_frontend_id
                             (Guild_id (guild w)) w) with
          | inr None =>
            match result_of (_create_thread env forum_channel problem.1 problem.2 bot w)
            with
            | inl e => inl e
            | inr created => inr (inl created, CREATE)
            end
          | inr (Some forum_thread) =>
            match Guild_channels (guild w) !! ProblemThreads_thread_id forum_thread with
            | None =>
              match result_of
                      (_create_thread env forum_channel problem.1 problem.2 bot
                         (world_of (delete_thread_from_db
                                      (ProblemThreads_thread_id forum_thread) w)))
              with
              | inl e => inl e
              | inr created => inr (inl created, CREATE)
              end
            | Some (IsThread live) => inr (inr live, REOPEN)
            | Some _ => inl AssertionError
            end
          | inl e => inl e
          end
        end
      | _ => inl (ForumChannelNotFound channel_invalid_msg)
      end
    | inr None => inl (ForumChannelNotFound not_configured_msg)
    | inl e => inl e
    end.
Proof.
  unfold reopen_or_create_problem_thread.
  rewrite result_of_bind, result_of_guild_id_of, world_of_guild_id_of.
  rewrite result_of_bind, (world_of_read_only _ _ (get_forum_channel_read_only _)).
  destruct (result_of (get_forum_channel (Guild_id (guild w)) w)) as [e|[channel|]];
    [done| |done].
  rewrite result_of_bind, result_of_try_get_channel, world_of_try_get_channel.
  destruct (Guild_channels (guild w) !! GuildForumChannel_channel_id channel)
    as [[forum_channel| |]|]; try done.
  rewrite result_of_bind, result_of_lift, world_of_lift.
  destruct (getattr problem.1 "problem_frontend_id") as [e|problem_frontend_id]; [done|].
  rewrite result_of_bind, (world_of_read_only _ _ (get_thread_by_problem_id_read_only _ _ _)).
  destruct (result_of (get_thread_by_problem_id env problem_frontend_id
                         (Guild_id (guild w)) w)) as [e|[forum_thread|]]; [done| |].
  - rewrite result_of_bind, result_of_try_get_channel, world_of_try_get_channel.
    destruct (Guild_channels (guild w) !! ProblemThreads_thread_id forum_thread)
      as [[| |]|]; try done.
    rewrite result_of_bind.
    destruct (delete_thread_from_db_run (ProblemThreads_thread_id forum_thread) w)
      as (t & Hrun & _).
    rewrite Hrun at 1. unfold result_of at 1. cbn [fst snd].
    rewrite result_of_bind.
    by destruct (result_of (_create_thread _ _ _ _ _ _)).
  - rewrite result_of_bind.
    by destruct (result_of (_create_thread _ _ _ _ _ _)).
Qed.

(** X20.  The [ForumChannelNotFound] exceptions of
    [reopen_or_create_problem_thread].  It raises one with the "not
    configured" message exactly when the guild has no configuration, and
    one with the "not a valid forum channel" message exactly when the guild
    has one whose channel id does not resolve to a forum.  No
    [ForumChannelNotFound] with another message comes out of it: the one
    [create_thread_instance] raises for a guild without a configuration is
    never reached, since the configuration found at the start is still
    there when the record is written.  (The calls to the platform raise
    exceptions of their own; they are not [ForumChannelNotFound].) *)
Theorem reconcile_forum_channel_not_found_messages (problem : Problem * list TopicTags)
    (bot : Bot) (is_daily : bool) (w : World) :
  let r := reopen_or_create_problem_thread env problem bot is_daily w in
  let configured := result_of (get_forum_channel (Guild_id (guild w)) w) in
  (result_of r = inl (ForumChannelNotFound not_configured_msg) ↔ configured = inr None)
  ∧ (result_of r = inl (ForumChannelNotFound channel_invalid_msg)
     ↔ ∃ channel,
         configured = inr (Some channel)
         ∧ is_forum (Guild_channels (guild w) !! GuildForumChannel_channel_id channel)
           = false)
  ∧ (∀ msg, result_of r = inl (ForumChannelNotFound msg) →
            msg = not_configured_msg ∨ msg = channel_invalid_msg).
Proof.
  cbn zeta.
  assert (Hother : ∀ e,
            (∃ attr, e = AttributeError attr) ∨ e = AssertionError
            ∨ (∃ msg, e = ValueError msg) ∨ e = IntegrityError →
            ∀ msg, e ≠ ForumChannelNotFound msg).
  { intros e [[? ->]|[->|[[? ->]| ->]]] msg; discriminate. }
  assert (Hcases : ∀ e,
            result_of (reopen_or_create_problem_thread env problem bot is_daily w)
            = inl e →
            match result_of (get_forum_channel (Guild_id (guild w)) w) with
            | inr None => e = ForumChannelNotFound not_configured_msg
            | inr (Some channel) =>
              if is_forum (Guild_channels (guild w)
                             !! GuildForumChannel_channel_id channel)
              then (∃ attr, e = AttributeError attr) ∨ e = AssertionError
                   ∨ (∃ msg, e = ValueError msg) ∨ e = IntegrityError
              else e = ForumChannelNotFound channel_invalid_msg
            | inl _ => False
            end).
  { intros e. rewrite reconcile_result.
    destruct (result_of (get_forum_channel (Guild_id (guild w)) w))
      as [e0|[channel|]] eqn:Hcfg.
    - by rewrite get_forum_channel_result in Hcfg.
    - destruct (Guild_channels (guild w) !! GuildForumChannel_channel_id channel)
        as [[forum_channel| |]|]; simpl; try by intros [= <-].
      destruct (getattr problem.1 "problem_frontend_id") as [e1|pfid] eqn:Hid.
      { intros [= <-]. apply getattr_raises in Hid. left. by eexists. }
      destruct (result_of (get_thread_by_problem_id env pfid (Guild_id (guild w)) w))
        as [e2|[forum_thread|]] eqn:Hthread.
      + by rewrite get_thread_by_problem_id_result in Hthread.
      + destruct (Guild_channels (guild w) !! ProblemThreads_thread_id forum_thread)
          as [[| |]|]; try done; try (intros [= <-]; by right; left).
        destruct (result_of (_create_thread _ _ _ _ _ _)) as [e3|created] eqn:Hcreate;
          [|done].
        intros [= <-]. eapply _create_thread_raises; [|exact Hcreate].
        destruct (delete_thread_from_db_keeps_forum_channels
                    (ProblemThreads_thread_id forum_thread) w) as (Hrows & Hdict & Hgid).
        rewrite get_forum_channel_result in *. by rewrite Hrows, Hdict, Hgid.
      + destruct (result_of (_create_thread _ _ _ _ _ _)) as [e3|created] eqn:Hcreate;
          [|done].
        intros [= <-]. by eapply _create_thread_raises.
    - by intros [= <-]. }
  split; [|split].
  - split.
    + intros Hres. apply Hcases in Hres.
      destruct (result_of (get_forum_channel (Guild_id (guild w)) w))
        as [e0|[channel|]]; [done| |done].
      destruct (is_forum _); [destruct (Hother _ Hres _ eq_refl)|]. by injection Hres.
    + intros Hnone. rewrite reconcile_result. by rewrite Hnone.
  - split.
    + intros Hres. apply Hcases in Hres.
      destruct (result_of (get_forum_channel (Guild_id (guild w)) w))
        as [e0|[channel|]]; [done| |by injection Hres].
      exists channel. split; [done|].
      destruct (is_forum _); [destruct (Hother _ Hres _ eq_refl)|done].
    + intros (channel & Hcfg & Hinvalid). rewrite reconcile_result, Hcfg.
      by destruct (Guild_channels (guild w) !! GuildForumChannel_channel_id channel)
        as [[| |]|].
  - intros msg Hres. apply Hcases in Hres.
    destruct (result_of (get_forum_channel (Guild_id (guild w)) w))
      as [e0|[channel|]]; [done| |injection Hres as ->; by left].
    destruct (is_forum _); [destruct (Hother _ Hres _ eq_refl)|].
    injection Hres as ->. by right.
Qed.

(** X21.  Whenever [reopen_or_create_problem_thread] returns with [REOPEN],
    in any world, what it returns is the live thread under the thread id
    recorded for the problem, the tables, the dictionaries and the platform
    are as they were, and only reads were made; with [CREATE] it returns a
    thread together with its starter message. *)
Theorem reconcile_reopen_changes_nothing (problem : Problem * list TopicTags) (bot : Bot)
    (is_daily : bool) (w : World) (returned : ThreadWithMessage + Thread)
    (tag : ThreadCreationEnum) :
  let r := reopen_or_create_problem_thread env problem bot is_daily w in
  result_of r = inr (returned, tag) →
  match tag with
  | REOPEN =>
    world_of r = w
    ∧ reads_only (trace_of r) = true
    ∧ ∃ problem_frontend_id forum_thread live,
        returned = inr live
        ∧ getattr problem.1 "problem_frontend_id" = inr problem_frontend_id
        ∧ result_of (get_thread_by_problem_id env problem_frontend_id
                       (Guild_id (guild w)) w) = inr (Some forum_thread)
        ∧ Guild_channels (guild w) !! ProblemThreads_thread_id forum_thread
          = Some (IsThread live)
  | CREATE => ∃ created, returned = inl created
  end.
Proof.
  cbn zeta. intros Hres. pose proof Hres as Hres'. rewrite reconcile_result in Hres'.
  destruct (result_of (get_forum_channel (Guild_id (guild w)) w))
    as [e0|[channel|]] eqn:Hcfg; [done| |done].
  destruct (Guild_channels (guild w) !! GuildForumChannel_channel_id channel)
    as [[forum_channel| |]|] eqn:Hforum; try done.
  destruct (getattr problem.1 "problem_frontend_id") as [e1|pfid] eqn:Hid; [done|].
  destruct (result_of (get_thread_by_problem_id env pfid (Guild_id (guild w)) w))
    as [e2|[forum_thread|]] eqn:Hthread; [done| |].
  - destruct (Guild_channels (guild w) !! ProblemThreads_thread_id forum_thread)
      as [[|live|]|] eqn:Hlive; try done.
    + injection Hres' as <- <-.
      destruct (reopen_run env problem bot is_daily w channel forum_channel pfid
                  forum_thread live Hcfg) as (t & Hrun & Ht); try done.
      { unfold try_get_channel, result_of. simpl. by rewrite Hforum. }
      { unfold try_get_channel, result_of. simpl. by rewrite Hlive. }
      rewrite Hrun. unfold world_of, trace_of. simpl.
      split; [done|]. split; [done|]. by exists pfid, forum_thread, live.
    + destruct (result_of (_create_thread _ _ _ _ _ _)); [done|].
      injection Hres' as <- <-. by eexists.
  - destruct (result_of (_create_thread _ _ _ _ _ _)); [done|].
    injection Hres' as <- <-. by eexists.
Qed.

End Outcomes.

Section NoRollback.
Context (env : Env).


End NoRollback.

(** X21 at [world_live]: thread 500 is returned with [REOPEN]. *)
Lemma reconcile_reopen_changes_nothing_witness :
  let r := reopen_or_create_problem_thread env0 (two_sum_patched, [array_tag]) bot0 false
             world_live in
  result_of r = inr (inr thread500, REOPEN)
  ∧ world_of r = world_live
  ∧ reads_only (trace_of r) = true.
Proof.
  cbn zeta.
  assert (H : result_of (reopen_or_create_problem_thread env0
                           (two_sum_patched, [array_tag]) bot0 false world_live)
              = inr (inr thread500, REOPEN)) by reflexivity.
  destruct (reconcile_reopen_changes_nothing env0 (two_sum_patched, [array_tag]) bot0
              false world_live (inr thread500) REOPEN H) as (Hworld & Hreads & _).
  split; [exact H|]. split; [exact Hworld|exact Hreads].
Defined.

